(** * Employee directory: records in DynamoDB, files in S3

    A shallow embedding of the directory's Python code and the properties of
    its consistency layer.

    - [Py]                 the few built-in operations the code uses
    - [M], [try_except]    state and exceptions, as the code threads them
    - [World]              both stores, the clock, and what fails next
    - [EmployeeModel]      app/models/employee.py
    - [DynamoDB], [S3]     the two stores as the code calls them through boto3
    - [Database]           app/database.py
    - [Storage]            app/storage.py
    - [Service]            app/employee_service.py
    - [App]                the add handler of app.py
    - [Rules]              the checks of [validate], one by one
    - [Sample]             worlds to run the code on

    Conventions.  A Python [str] is a [string]; its characters are the code
    points below 256.  [logger] calls write a diagnostic line and have no
    effect on any result: they are left out.  Every remote call may fail: the
    world carries the outcome of the calls to come ([faults]).  A Scan call
    evaluates a bounded part of the collection before it filters, and a
    listing returns a bounded number of keys: [scan_page] and [S3.MAX_KEYS]. *)

From Stdlib Require Import List String Ascii Bool Arith Lia.
Import ListNotations.
Open Scope string_scope.
Open Scope list_scope.
Open Scope nat_scope.

Set Implicit Arguments.

(* ------------------------------------------------------------------ *)
(** ** Python built-ins used by the code *)

Module Py.

(** [bool(s)] for a string: the empty string is falsy. *)
Definition truthy (s : string) : bool :=
  match s with EmptyString => false | String _ _ => true end.

(** [len(s)] *)
Definition len (s : string) : nat := String.length s.

(** [str.isspace] on one character, for the code points below 256. *)
Definition isspace (c : ascii) : bool :=
  let n := nat_of_ascii c in
  ((9 <=? n) && (n <=? 13)) || ((28 <=? n) && (n <=? 32))
  || (n =? 133) || (n =? 160).

Fixpoint lstrip (s : string) : string :=
  match s with
  | EmptyString => EmptyString
  | String c r => if isspace c then lstrip r else s
  end.

Fixpoint rstrip (s : string) : string :=
  match s with
  | EmptyString => EmptyString
  | String c r =>
      match rstrip r with
      | EmptyString => if isspace c then EmptyString else String c EmptyString
      | String _ _ as r' => String c r'
      end
  end.

(** [s.strip()] *)
Definition strip (s : string) : string := rstrip (lstrip s).

(** [c in s] for a one-character [c]. *)
Fixpoint contains (c : ascii) (s : string) : bool :=
  match s with
  | EmptyString => false
  | String d r => Ascii.eqb c d || contains c r
  end.

(** [s or d] *)
Definition or_ (s d : string) : string := if truthy s then s else d.

(** [o or d] where [o] may be [None]. *)
Definition or_none (o : option string) (d : string) : string :=
  match o with Some s => or_ s d | None => d end.

(** [s.startswith(p)] *)
Definition startswith (s p : string) : bool := String.prefix p s.

(** [s.lower()], on the letters A-Z. *)
Definition lower_char (c : ascii) : ascii :=
  let n := nat_of_ascii c in
  if (65 <=? n) && (n <=? 90) then ascii_of_nat (n + 32) else c.

Fixpoint lower (s : string) : string :=
  match s with
  | EmptyString => EmptyString
  | String c r => String (lower_char c) (lower r)
  end.

(** The text after the last ['.'] of [s], when there is one:
    [s.rsplit('.', 1)[1]]. *)
Fixpoint after_last_dot (s : string) : option string :=
  match s with
  | EmptyString => None
  | String c r =>
      match after_last_dot r with
      | Some t => Some t
      | None => if Ascii.eqb c "." then Some r else None
      end
  end.

(** [os.path.splitext(p)[1]]: the extension starts at the last dot of the
    last path component, unless only dots come before it there. *)
Fixpoint ext_of_component (seen_other : bool) (s : string) : string :=
  match s with
  | EmptyString => EmptyString
  | String c r =>
      match ext_of_component (seen_other || negb (Ascii.eqb c ".")) r with
      | String _ _ as e => e
      | EmptyString =>
          if Ascii.eqb c "." && seen_other then s else EmptyString
      end
  end.

Fixpoint last_component (s : string) : string :=
  match s with
  | EmptyString => EmptyString
  | String c r =>
      if contains "/" r then last_component r
      else if Ascii.eqb c "/" then r else s
  end.

Definition splitext_ext (p : string) : string :=
  ext_of_component false (last_component p).

(** [sub in s] for strings. *)
Fixpoint is_substring (sub s : string) : bool :=
  String.prefix sub s
  || match s with
     | EmptyString => false
     | String _ r => is_substring sub r
     end.

(** [sorted(set(l))] for strings. *)
Fixpoint insert_sorted (x : string) (l : list string) : list string :=
  match l with
  | [] => [x]
  | y :: r =>
      match String.compare x y with
      | Lt => x :: l
      | Eq => l
      | Gt => y :: insert_sorted x r
      end
  end.

Definition sorted_set (l : list string) : list string :=
  fold_right insert_sorted [] l.

(** A [dict] with string keys, in insertion order. *)
Definition dict (V : Type) : Type := list (string * V).

Fixpoint dict_get {V} (d : dict V) (k : string) : option V :=
  match d with
  | [] => None
  | (k', v) :: r => if String.eqb k' k then Some v else dict_get r k
  end.

(** [d.get(k, default)] *)
Definition get_default {V} (d : dict V) (k : string) (default : V) : V :=
  match dict_get d k with Some v => v | None => default end.

(** [d[k] = v] *)
Fixpoint dict_set {V} (d : dict V) (k : string) (v : V) : dict V :=
  match d with
  | [] => [(k, v)]
  | (k', v') :: r =>
      if String.eqb k' k then (k', v) :: r else (k', v') :: dict_set r k v
  end.

End Py.

(* ------------------------------------------------------------------ *)
(** ** State and exceptions

    A computation runs on a state [W] and either returns a value or raises;
    what it did to the state before raising stays done. *)

Inductive exn : Type :=
| ClientError (msg : string)      (* botocore.exceptions.ClientError *)
| Exception (msg : string).       (* any other exception *)

(** [str(e)] *)
Definition str_exn (e : exn) : string :=
  match e with ClientError m => m | Exception m => m end.

Inductive result (A : Type) : Type :=
| Ok (a : A)
| Raise (e : exn).

Arguments Raise {A} e.

Definition M (W A : Type) : Type := W -> result A * W.

Section Monad.

Variable W : Type.

Definition ret {A} (a : A) : M W A := fun w => (Ok a, w).

Definition bind {A B} (m : M W A) (k : A -> M W B) : M W B :=
  fun w =>
    match m w with
    | (Ok a, w') => k a w'
    | (Raise e, w') => (Raise e, w')
    end.

Definition raise {A} (e : exn) : M W A := fun w => (Raise e, w).

(** [try: body  except ... as e: handler e] *)
Definition try_except {A} (body : M W A) (handler : exn -> M W A) : M W A :=
  fun w =>
    match body w with
    | (Ok a, w') => (Ok a, w')
    | (Raise e, w') => handler e w'
    end.

Definition gets {A} (f : W -> A) : M W A := fun w => (Ok (f w), w).

Definition modify (f : W -> W) : M W unit := fun w => (Ok tt, f w).

(** [for x in l: ...] where the body may replace [x]. *)
Fixpoint for_each {A B} (body : A -> M W B) (l : list A) : M W (list B) :=
  match l with
  | [] => ret []
  | x :: r =>
      bind (body x) (fun y => bind (for_each body r) (fun ys => ret (y :: ys)))
  end.

End Monad.

Arguments ret {W A} a.
Arguments raise {W A} e.
Arguments gets {W A} f.

Declare Scope monad_scope.
Delimit Scope monad_scope with monad.
Notation "x <- c1 ;; c2" := (bind c1 (fun x => c2))
  (at level 61, c1 at next level, right associativity) : monad_scope.
Notation "c1 ;; c2" := (bind c1 (fun _ => c2))
  (at level 61, right associativity) : monad_scope.
Open Scope monad_scope.

(* ------------------------------------------------------------------ *)
(** ** The world the code runs in *)

(** The stored form of a record: a flat mapping from field names to strings. *)
Definition Item : Type := Py.dict string.

Record S3Object : Type := mkObject {
  Key : string;
  Body : string;
  ContentType : string;
  Metadata : Py.dict string;
  LastModified : nat                (* the store's upload counter *)
}.

Definition Size (o : S3Object) : nat := Py.len (Body o).

(** What the process is configured with and the library functions whose
    results the code only passes on. *)
Record Env : Type := mkEnv {
  S3_BUCKET_NAME : string;
  AWS_REGION : string;
  DYNAMODB_TABLE_NAME : string;
  utcnow_isoformat : nat -> string;  (* n-th reading of datetime.utcnow().isoformat() *)
  uuid4_str : nat -> string;         (* n-th uuid4, as str *)
  uuid4_hex : nat -> string;         (* n-th uuid4, as .hex *)
  presigned_url : string -> string -> nat -> string;  (* bucket, key, expiry *)
  guess_type : string -> option string;               (* mimetypes *)
  secure_filename : string -> string                  (* werkzeug *)
}.

Record World : Type := mkWorld {
  env : Env;
  table : list Item;                 (* the items, in scan order *)
  scan_page : nat;                   (* a Scan call evaluates S scan_page items *)
  table_status : string;
  bucket : list S3Object;            (* the objects, in key order *)
  location_constraint : option string;
  uploads : nat;
  faults : list (option exn);        (* outcome of the remote calls to come *)
  clock_reads : nat;
  uuids_drawn : nat
}.

Definition set_table (t : list Item) (w : World) : World :=
  mkWorld (env w) t (scan_page w) (table_status w) (bucket w)
    (location_constraint w) (uploads w) (faults w) (clock_reads w) (uuids_drawn w).

Definition set_bucket (b : list S3Object) (w : World) : World :=
  mkWorld (env w) (table w) (scan_page w) (table_status w) b
    (location_constraint w) (uploads w) (faults w) (clock_reads w) (uuids_drawn w).

Definition set_uploads (n : nat) (w : World) : World :=
  mkWorld (env w) (table w) (scan_page w) (table_status w) (bucket w)
    (location_constraint w) n (faults w) (clock_reads w) (uuids_drawn w).

Definition set_faults (f : list (option exn)) (w : World) : World :=
  mkWorld (env w) (table w) (scan_page w) (table_status w) (bucket w)
    (location_constraint w) (uploads w) f (clock_reads w) (uuids_drawn w).

Definition set_clock_reads (n : nat) (w : World) : World :=
  mkWorld (env w) (table w) (scan_page w) (table_status w) (bucket w)
    (location_constraint w) (uploads w) (faults w) n (uuids_drawn w).

Definition set_uuids_drawn (n : nat) (w : World) : World :=
  mkWorld (env w) (table w) (scan_page w) (table_status w) (bucket w)
    (location_constraint w) (uploads w) (faults w) (clock_reads w) n.

(** [datetime.utcnow().isoformat()] *)
Definition utcnow : M World string :=
  fun w => (Ok (utcnow_isoformat (env w) (clock_reads w)),
            set_clock_reads (S (clock_reads w)) w).

(** [uuid.uuid4()], in both renderings. *)
Definition uuid4 : M World (string * string) :=
  fun w => (Ok (uuid4_str (env w) (uuids_drawn w), uuid4_hex (env w) (uuids_drawn w)),
            set_uuids_drawn (S (uuids_drawn w)) w).

(** A request to a remote store: it fails as the world says. *)
Definition remote_call : M World unit :=
  fun w =>
    match faults w with
    | [] => (Ok tt, w)
    | None :: r => (Ok tt, set_faults r w)
    | Some e :: r => (Raise e, set_faults r w)
    end.

(* ------------------------------------------------------------------ *)
(** ** app/models/employee.py *)

Record Employee : Type := mkEmployee {
  employee_id : string;
  first_name : string;
  last_name : string;
  email : string;
  position : string;
  department : string;
  phone : string;
  hire_date : string;
  profile_picture_url : string;
  created_at : string;
  updated_at : string
}.

Module EmployeeModel.

(** The assignments of [Employee.__init__], where [current_time] is the
    reading of the clock it takes. *)
Definition init_at (current_time : string)
    (employee_id first_name last_name email position department : string)
    (phone hire_date profile_picture_url created_at updated_at : option string)
    : Employee :=
  {| employee_id := employee_id;
     first_name := first_name;
     last_name := last_name;
     email := email;
     position := position;
     department := department;
     phone := Py.or_none phone "";
     hire_date := Py.or_none hire_date "";
     profile_picture_url := Py.or_none profile_picture_url "";
     created_at := Py.or_none created_at current_time;
     updated_at := Py.or_none updated_at current_time |}.

(** [Employee.__init__] *)
Definition init
    (employee_id first_name last_name email position department : string)
    (phone hire_date profile_picture_url created_at updated_at : option string)
    : M World Employee :=
  current_time <- utcnow ;;
  ret (init_at current_time employee_id first_name last_name email position
         department phone hire_date profile_picture_url created_at updated_at).

Definition to_dict (e : Employee) : Item :=
  [ ("employee_id", employee_id e);
    ("first_name", first_name e);
    ("last_name", last_name e);
    ("email", email e);
    ("position", position e);
    ("department", department e);
    ("phone", phone e);
    ("hire_date", hire_date e);
    ("profile_picture_url", profile_picture_url e);
    ("created_at", created_at e);
    ("updated_at", updated_at e) ].

Definition from_dict (data : Item) : M World Employee :=
  init
    (Py.get_default data "employee_id" "")
    (Py.get_default data "first_name" "")
    (Py.get_default data "last_name" "")
    (Py.get_default data "email" "")
    (Py.get_default data "position" "")
    (Py.get_default data "department" "")
    (Some (Py.get_default data "phone" ""))
    (Some (Py.get_default data "hire_date" ""))
    (Some (Py.get_default data "profile_picture_url" ""))
    (Some (Py.get_default data "created_at" ""))
    (Some (Py.get_default data "updated_at" "")).

(** [self.updated_at = ...] *)
Definition set_updated_at (now : string) (e : Employee) : Employee :=
  {| employee_id := employee_id e;
     first_name := first_name e;
     last_name := last_name e;
     email := email e;
     position := position e;
     department := department e;
     phone := phone e;
     hire_date := hire_date e;
     profile_picture_url := profile_picture_url e;
     created_at := created_at e;
     updated_at := now |}.

Definition update_timestamp (e : Employee) : M World Employee :=
  now <- utcnow ;;
  ret (set_updated_at now e).

(** [self.profile_picture_url = ...] *)
Definition set_profile_picture_url (url : string) (e : Employee) : Employee :=
  {| employee_id := employee_id e;
     first_name := first_name e;
     last_name := last_name e;
     email := email e;
     position := position e;
     department := department e;
     phone := phone e;
     hire_date := hire_date e;
     profile_picture_url := url;
     created_at := created_at e;
     updated_at := updated_at e |}.

(** [not s or not s.strip()] *)
Definition blank (s : string) : bool :=
  negb (Py.truthy s) || negb (Py.truthy (Py.strip s)).

(** [errors.append(msg)] under [if c]. *)
Definition append_if (c : bool) (msg : string) (errors : list string)
    : list string :=
  if c then errors ++ [msg] else errors.

(** [Employee.validate]: the checks in the order of the source. *)
Definition validate (e : Employee) : bool * list string :=
  let errors := [] in
  let errors :=
    append_if (negb (Py.truthy (employee_id e)))
      "Employee ID is required" errors in
  let errors := append_if (blank (first_name e)) "First name is required" errors in
  let errors := append_if (blank (last_name e)) "Last name is required" errors in
  let errors :=
    if blank (email e) then errors ++ ["Email is required"]
    else if negb (Py.contains "@" (email e)) || negb (Py.contains "." (email e))
    then errors ++ ["Invalid email format"]
    else errors in
  let errors := append_if (blank (position e)) "Position is required" errors in
  let errors := append_if (blank (department e)) "Department is required" errors in
  let errors :=
    append_if (50 <? Py.len (first_name e))
      "First name must be 50 characters or less" errors in
  let errors :=
    append_if (50 <? Py.len (last_name e))
      "Last name must be 50 characters or less" errors in
  let errors :=
    append_if (100 <? Py.len (email e))
      "Email must be 100 characters or less" errors in
  let errors :=
    append_if (100 <? Py.len (position e))
      "Position must be 100 characters or less" errors in
  let errors :=
    append_if (50 <? Py.len (department e))
      "Department must be 50 characters or less" errors in
  let errors :=
    append_if (Py.truthy (phone e) && (20 <? Py.len (phone e)))
      "Phone number must be 20 characters or less" errors in
  (Nat.eqb (List.length errors) 0, errors).

End EmployeeModel.

(* ------------------------------------------------------------------ *)
(** ** The record store, as the code calls it (boto3 Table) *)

Module DynamoDB.

(** The primary key of an item. *)
Definition item_key (it : Item) : string := Py.get_default it "employee_id" "".

Fixpoint find_item (k : string) (t : list Item) : option Item :=
  match t with
  | [] => None
  | it :: r => if String.eqb (item_key it) k then Some it else find_item k r
  end.

(** An item replaces the one with its key, or joins the collection. *)
Fixpoint put (it : Item) (t : list Item) : list Item :=
  match t with
  | [] => [it]
  | x :: r =>
      if String.eqb (item_key x) (item_key it) then it :: r else x :: put it r
  end.

Definition remove (k : string) (t : list Item) : list Item :=
  filter (fun it => negb (String.eqb (item_key it) k)) t.

(** [Attr(name).eq(value)] and [Attr(name).contains(value)] *)
Inductive condition : Type :=
| Attr_eq (name value : string)
| Attr_contains (name value : string).

Definition holds (c : condition) (it : Item) : bool :=
  match c with
  | Attr_eq n v =>
      match Py.dict_get it n with Some x => String.eqb x v | None => false end
  | Attr_contains n v =>
      match Py.dict_get it n with Some x => Py.is_substring v x | None => false end
  end.

Definition apply_filter (f : option condition) (page : list Item) : list Item :=
  match f with Some c => filter (holds c) page | None => page end.

(** A key attribute may not be the empty string. *)
Definition key_error : exn :=
  ClientError "One or more parameter values are not valid".

Definition get_item (k : string) : M World (option Item) :=
  remote_call ;;
  if Py.truthy k then gets (fun w => find_item k (table w))
  else raise key_error.

Definition put_item (it : Item) : M World unit :=
  remote_call ;;
  if Py.truthy (item_key it) then modify (fun w => set_table (put it (table w)) w)
  else raise key_error.

Definition delete_item (k : string) : M World unit :=
  remote_call ;;
  if Py.truthy k then modify (fun w => set_table (remove k (table w)) w)
  else raise key_error.

(** One Scan call evaluates the next page of the collection, filters that
    page, and says where it stopped when items remain.  The position is the
    number of items already evaluated. *)
Record ScanResponse : Type := mkScan {
  Items : list Item;
  LastEvaluatedKey : option nat
}.

Definition page_size (w : World) : nat := S (scan_page w).

Definition scan_at (f : option condition) (start : nat) (w : World) : ScanResponse :=
  let rest := skipn start (table w) in
  {| Items := apply_filter f (firstn (page_size w) rest);
     LastEvaluatedKey :=
       if page_size w <? List.length rest then Some (start + page_size w) else None |}.

Definition scan (FilterExpression : option condition)
    (ExclusiveStartKey : option nat) : M World ScanResponse :=
  remote_call ;;
  gets (scan_at FilterExpression
          (match ExclusiveStartKey with Some k => k | None => 0 end)).

(** [describe_table(...)['Table']['TableStatus']] *)
Definition describe_table : M World string :=
  remote_call ;;
  gets table_status.

End DynamoDB.

(* ------------------------------------------------------------------ *)
(** ** The blob store, as the code calls it (boto3 S3 client) *)

Module S3.

(** A listing returns at most this many keys per call, and a batch delete
    takes at most this many. *)
Definition MAX_KEYS : nat := 1000.

Fixpoint put_object (o : S3Object) (b : list S3Object) : list S3Object :=
  match b with
  | [] => [o]
  | x :: r =>
      match String.compare (Key o) (Key x) with
      | Lt => o :: b
      | Eq => o :: r
      | Gt => x :: put_object o r
      end
  end.

Definition upload_fileobj (body key content_type : string)
    (metadata : Py.dict string) : M World unit :=
  remote_call ;;
  modify (fun w =>
    set_uploads (S (uploads w))
      (set_bucket
         (put_object (mkObject key body content_type metadata (uploads w)) (bucket w))
         w)).

Record ListResponse : Type := mkList {
  Contents : option (list S3Object);   (* absent when no key matches *)
  NextContinuationToken : option nat   (* present when the listing is truncated *)
}.

Definition with_prefix (p : string) (b : list S3Object) : list S3Object :=
  filter (fun o => Py.startswith (Key o) p) b.

Definition list_at (Prefix : string) (MaxKeys token : nat) (w : World) : ListResponse :=
  let matching := skipn token (with_prefix Prefix (bucket w)) in
  {| Contents :=
       match matching with [] => None | _ :: _ => Some (firstn MaxKeys matching) end;
     NextContinuationToken :=
       if MaxKeys <? List.length matching then Some (token + MaxKeys) else None |}.

Definition list_objects_v2 (Prefix : string) (MaxKeys token : nat)
    : M World ListResponse :=
  remote_call ;;
  gets (list_at Prefix MaxKeys token).

Definition remove_keys (keys : list string) (b : list S3Object) : list S3Object :=
  filter (fun o => negb (existsb (String.eqb (Key o)) keys)) b.

Definition delete_objects (keys : list string) : M World unit :=
  remote_call ;;
  if MAX_KEYS <? List.length keys then raise (ClientError "MalformedXML")
  else modify (fun w => set_bucket (remove_keys keys (bucket w)) w).

(** Deleting a key that is not there succeeds. *)
Definition delete_object (key : string) : M World unit :=
  remote_call ;;
  modify (fun w => set_bucket (remove_keys [key] (bucket w)) w).

(** [head_object(...)]: the object's metadata. *)
Definition head_object (key : string) : M World (Py.dict string) :=
  remote_call ;;
  o <- gets (fun w => find (fun o => String.eqb (Key o) key) (bucket w)) ;;
  match o with
  | Some o => ret (Metadata o)
  | None => raise (ClientError "Not Found")
  end.

(** Signing a URL is local: no request is made. *)
Definition generate_presigned_url (key : string) (ExpiresIn : nat) : M World string :=
  gets (fun w => presigned_url (env w) (S3_BUCKET_NAME (env w)) key ExpiresIn).

(** The response carries the key, with no value for the default region. *)
Definition get_bucket_location : M World (Py.dict (option string)) :=
  remote_call ;;
  gets (fun w => [("LocationConstraint", location_constraint w)]).

(** [get_paginator('list_objects_v2').paginate(...)]: one call per page, until
    a page is not truncated.  [rounds] bounds the calls. *)
Fixpoint paginate_from (rounds : nat) (token : nat) : M World (list ListResponse) :=
  match rounds with
  | 0 => ret []
  | S rounds' =>
      page <- list_objects_v2 "" MAX_KEYS token ;;
      match NextContinuationToken page with
      | None => ret [page]
      | Some next =>
          pages <- paginate_from rounds' next ;;
          ret (page :: pages)
      end
  end.

Definition paginate : M World (list ListResponse) :=
  n <- gets (fun w => List.length (bucket w)) ;;
  paginate_from (S n) 0.

End S3.

(* ------------------------------------------------------------------ *)
(** ** app/database.py *)

Module Database.

Import EmployeeModel.

(** [except ClientError ...: return v] followed by
    [except Exception ...: return v]. *)
Definition returning {A} (v : A) (e : exn) : M World A :=
  match e with
  | ClientError _ => ret v
  | Exception _ => ret v
  end.

Definition get_employee (id : string) : M World (option Employee) :=
  try_except
    (response <- DynamoDB.get_item id ;;
     match response with
     | Some item => e <- from_dict item ;; ret (Some e)
     | None => ret None
     end)
    (returning None).

Definition create_employee (employee : Employee) : M World bool :=
  try_except
    (let (is_valid, errors) := validate employee in
     if negb is_valid then ret false
     else
       existing <- get_employee (employee_id employee) ;;
       match existing with
       | Some _ => ret false
       | None =>
           DynamoDB.put_item (to_dict employee) ;;
           ret true
       end)
    (returning false).

Definition update_employee (employee : Employee) : M World bool :=
  try_except
    (let (is_valid, errors) := validate employee in
     if negb is_valid then ret false
     else
       existing <- get_employee (employee_id employee) ;;
       match existing with
       | None => ret false
       | Some _ =>
           employee <- update_timestamp employee ;;
           DynamoDB.put_item (to_dict employee) ;;
           ret true
       end)
    (returning false).

Definition delete_employee (id : string) : M World bool :=
  try_except
    (existing <- get_employee id ;;
     match existing with
     | None => ret false
     | Some _ =>
         DynamoDB.delete_item id ;;
         ret true
     end)
    (returning false).

(** [while 'LastEvaluatedKey' in response: ...].  Every round passes at least
    one item, so the number of items bounds the rounds. *)
Fixpoint scan_while (rounds : nat) (f : option DynamoDB.condition)
    (response : DynamoDB.ScanResponse) (employees : list Employee)
    : M World (list Employee) :=
  match DynamoDB.LastEvaluatedKey response with
  | None => ret employees
  | Some k =>
      match rounds with
      | 0 => ret employees
      | S rounds' =>
          response <- DynamoDB.scan f (Some k) ;;
          more <- for_each from_dict (DynamoDB.Items response) ;;
          scan_while rounds' f response (employees ++ more)
      end
  end.

(** The scan of the three listing methods, which differ in the filter. *)
Definition scan_all (f : option DynamoDB.condition) : M World (list Employee) :=
  try_except
    (response <- DynamoDB.scan f None ;;
     employees <- for_each from_dict (DynamoDB.Items response) ;;
     n <- gets (fun w => List.length (table w)) ;;
     scan_while n f response employees)
    (returning []).

Definition get_all_employees : M World (list Employee) :=
  scan_all None.

Definition search_employees_by_department (department : string)
    : M World (list Employee) :=
  scan_all (Some (DynamoDB.Attr_eq "department" department)).

Definition search_employees_by_position (position : string)
    : M World (list Employee) :=
  scan_all (Some (DynamoDB.Attr_contains "position" position)).

(** One Scan call, and the first item of what it returned. *)
Definition get_employee_by_email (email : string) : M World (option Employee) :=
  try_except
    (response <- DynamoDB.scan (Some (DynamoDB.Attr_eq "email" email)) None ;;
     match DynamoDB.Items response with
     | item :: _ => e <- from_dict item ;; ret (Some e)
     | [] => ret None
     end)
    (returning None).

Definition health_check : M World bool :=
  try_except
    (status <- DynamoDB.describe_table ;;
     ret (String.eqb status "ACTIVE"))
    (fun _ => ret false).

End Database.

(* ------------------------------------------------------------------ *)
(** ** app/storage.py *)

Record DocumentInfo : Type := mkDocumentInfo {
  doc_key : string;
  doc_filename : string;
  doc_document_type : string;
  doc_size : nat;
  doc_last_modified : nat;
  doc_url : string
}.

(** The result of [get_bucket_info].  The size in megabytes, a float derived
    from [total_size_bytes], is not represented. *)
Inductive BucketInfo : Type :=
| BucketStats (bucket_name : string) (region : option string)
    (total_objects total_size_bytes : nat)
| BucketError (bucket_name error : string).

Module Storage.

Definition S3_PROFILE_PICTURES_PREFIX : string := "profile-pictures/".

Definition returning {A} (v : A) (e : exn) : M World A :=
  match e with
  | ClientError _ => ret v
  | Exception _ => ret v
  end.

Definition object_url (s3_key : string) : M World string :=
  gets (fun w =>
    ("https://" ++ S3_BUCKET_NAME (env w) ++ ".s3." ++ AWS_REGION (env w)
       ++ ".amazonaws.com/" ++ s3_key)%string).

(** The prefix under which an employee's pictures are listed. *)
Definition picture_prefix (employee_id : string) : string :=
  (S3_PROFILE_PICTURES_PREFIX ++ employee_id ++ "_")%string.

(** The prefix under which an employee's documents are listed. *)
Definition document_prefix (employee_id : string) : string :=
  ("documents/" ++ employee_id ++ "_")%string.

Definition upload_profile_picture (file_obj employee_id filename : string)
    : M World (option string) :=
  try_except
    (let file_extension := Py.lower (Py.splitext_ext filename) in
     u <- uuid4 ;;
     let unique_filename := (employee_id ++ "_" ++ snd u ++ file_extension)%string in
     let s3_key := (S3_PROFILE_PICTURES_PREFIX ++ unique_filename)%string in
     guessed <- gets (fun w => guess_type (env w) filename) ;;
     let content_type := Py.or_none guessed "application/octet-stream" in
     S3.upload_fileobj file_obj s3_key content_type
       [("employee_id", employee_id); ("original_filename", filename)] ;;
     url <- object_url s3_key ;;
     ret (Some url))
    (returning None).

Definition delete_profile_picture (employee_id : string) : M World bool :=
  try_except
    (response <- S3.list_objects_v2 (picture_prefix employee_id) S3.MAX_KEYS 0 ;;
     match S3.Contents response with
     | None => ret true
     | Some contents =>
         let objects_to_delete := map Key contents in
         match objects_to_delete with
         | [] => ret true
         | _ :: _ => S3.delete_objects objects_to_delete ;; ret true
         end
     end)
    (returning false).

Definition get_profile_picture_url (employee_id : string) : M World (option string) :=
  try_except
    (response <- S3.list_objects_v2 (picture_prefix employee_id) S3.MAX_KEYS 0 ;;
     match S3.Contents response with
     | None => ret None
     | Some [] => ret None
     | Some (first :: _) =>
         presigned <- S3.generate_presigned_url (Key first) 3600 ;;
         ret (Some presigned)
     end)
    (returning None).

Definition upload_document (file_obj employee_id filename document_type : string)
    : M World (option string) :=
  try_except
    (let file_extension := Py.lower (Py.splitext_ext filename) in
     u <- uuid4 ;;
     let unique_filename :=
       (employee_id ++ "_" ++ document_type ++ "_" ++ snd u ++ file_extension)%string in
     let s3_key := ("documents/" ++ unique_filename)%string in
     guessed <- gets (fun w => guess_type (env w) filename) ;;
     let content_type := Py.or_none guessed "application/octet-stream" in
     S3.upload_fileobj file_obj s3_key content_type
       [("employee_id", employee_id); ("document_type", document_type);
        ("original_filename", filename)] ;;
     url <- object_url s3_key ;;
     ret (Some url))
    (returning None).

(** The body of the loop over the listed objects: the entry of one object,
    or nothing when its metadata cannot be read. *)
Definition document_info (obj : S3Object) : M World (list DocumentInfo) :=
  try_except
    (metadata <- S3.head_object (Key obj) ;;
     presigned <- S3.generate_presigned_url (Key obj) 3600 ;;
     ret [ {| doc_key := Key obj;
              doc_filename := Py.get_default metadata "original_filename" "Unknown";
              doc_document_type := Py.get_default metadata "document_type" "general";
              doc_size := Size obj;
              doc_last_modified := LastModified obj;
              doc_url := presigned |} ])
    (fun e =>
       match e with
       | ClientError _ => ret []
       | Exception _ => raise e
       end).

Definition list_employee_documents (employee_id : string)
    : M World (list DocumentInfo) :=
  try_except
    (response <- S3.list_objects_v2 (document_prefix employee_id) S3.MAX_KEYS 0 ;;
     match S3.Contents response with
     | Some contents =>
         infos <- for_each document_info contents ;;
         ret (List.concat infos)
     | None => ret []
     end)
    (returning []).

Definition delete_document (s3_key : string) : M World bool :=
  try_except
    (S3.delete_object s3_key ;; ret true)
    (returning false).

Definition delete_all_employee_files (employee_id : string) : M World bool :=
  try_except
    (let objects_to_delete := [] in
     response <- S3.list_objects_v2 (picture_prefix employee_id) S3.MAX_KEYS 0 ;;
     let objects_to_delete :=
       match S3.Contents response with
       | Some contents => objects_to_delete ++ map Key contents
       | None => objects_to_delete
       end in
     response <- S3.list_objects_v2 (document_prefix employee_id) S3.MAX_KEYS 0 ;;
     let objects_to_delete :=
       match S3.Contents response with
       | Some contents => objects_to_delete ++ map Key contents
       | None => objects_to_delete
       end in
     match objects_to_delete with
     | _ :: _ => S3.delete_objects objects_to_delete ;; ret true
     | [] => ret true
     end)
    (returning false).

Definition health_check : M World bool :=
  try_except
    (S3.list_objects_v2 "" 1 0 ;; ret true)
    (fun _ => ret false).

Definition page_count (page : S3.ListResponse) : nat :=
  match S3.Contents page with Some c => List.length c | None => 0 end.

Definition page_bytes (page : S3.ListResponse) : nat :=
  match S3.Contents page with Some c => list_sum (map Size c) | None => 0 end.

Definition get_bucket_info : M World BucketInfo :=
  bucket_name <- gets (fun w => S3_BUCKET_NAME (env w)) ;;
  try_except
    (location_response <- S3.get_bucket_location ;;
     let location :=
       Py.get_default location_response "LocationConstraint" (Some "us-east-1") in
     pages <- S3.paginate ;;
     let total_objects := list_sum (map page_count pages) in
     let total_size := list_sum (map page_bytes pages) in
     ret (BucketStats bucket_name location total_objects total_size))
    (fun e => ret (BucketError bucket_name (str_exn e))).

End Storage.

(* ------------------------------------------------------------------ *)
(** ** app/employee_service.py

    The service holds a database object and a storage object and calls their
    methods; it is written here over any pair of objects with these methods. *)

Class DatabaseOps (W : Type) : Type := {
  db_create_employee : Employee -> M W bool;
  db_get_employee : string -> M W (option Employee);
  db_update_employee : Employee -> M W bool;
  db_delete_employee : string -> M W bool;
  db_get_all_employees : M W (list Employee);
  db_search_employees_by_department : string -> M W (list Employee);
  db_search_employees_by_position : string -> M W (list Employee);
  db_get_employee_by_email : string -> M W (option Employee);
  db_health_check : M W bool
}.

Class StorageOps (W : Type) : Type := {
  st_upload_profile_picture : string -> string -> string -> M W (option string);
  st_delete_profile_picture : string -> M W bool;
  st_get_profile_picture_url : string -> M W (option string);
  st_upload_document : string -> string -> string -> string -> M W (option string);
  st_list_employee_documents : string -> M W (list DocumentInfo);
  st_delete_document : string -> M W bool;
  st_delete_all_employee_files : string -> M W bool;
  st_health_check : M W bool;
  st_get_bucket_info : M W BucketInfo
}.

(** The dictionary [health_check] returns; [error] is present in the
    degraded one. *)
Record Health : Type := mkHealth {
  database : bool;
  storage : bool;
  overall : bool;
  error : option string
}.

(** The dictionary [get_statistics] returns. *)
Inductive Statistics : Type :=
| EmptyDict
| Stats (total_employees total_departments total_positions
         employees_with_pictures : nat)
        (department_breakdown : Py.dict nat) (storage_info : BucketInfo).

(** Every method of the service is a [try] block under one [except] clause
    that returns a fixed value: [m_try] is the block of method [m]. *)
Module Service.

Section Coordinator.

Context {W : Type} {self_db : DatabaseOps W} {self_storage : StorageOps W}.

Definition add_employee_try (employee : Employee) : M W bool :=
  let (is_valid, errors) := EmployeeModel.validate employee in
  if negb is_valid then ret false
  else
    existing_employee <- db_get_employee_by_email (email employee) ;;
    match existing_employee with
    | Some _ => ret false
    | None =>
        success <- db_create_employee employee ;;
        if success then ret true else ret false
    end.

Definition add_employee (employee : Employee) : M W bool :=
  try_except
    (add_employee_try employee)
    (fun _ => ret false).

(** [profile_url = self.storage.get_profile_picture_url(id)] and the
    assignment under [if profile_url]. *)
Definition refresh_picture (employee : Employee) : M W Employee :=
  profile_url <- st_get_profile_picture_url (employee_id employee) ;;
  match profile_url with
  | Some url =>
      if Py.truthy url
      then ret (EmployeeModel.set_profile_picture_url url employee)
      else ret employee
  | None => ret employee
  end.

Definition get_employee_try (id : string) : M W (option Employee) :=
  employee <- db_get_employee id ;;
  match employee with
  | Some employee =>
      employee <- refresh_picture employee ;;
      ret (Some employee)
  | None => ret None
  end.

Definition get_employee (id : string) : M W (option Employee) :=
  try_except
    (get_employee_try id)
    (fun _ => ret None).

Definition update_employee_try (employee : Employee) : M W bool :=
  let (is_valid, errors) := EmployeeModel.validate employee in
  if negb is_valid then ret false
  else
    existing_employee <- db_get_employee (employee_id employee) ;;
    match existing_employee with
    | None => ret false
    | Some existing_employee =>
        email_taken <-
          (if negb (String.eqb (email existing_employee) (email employee))
           then
             email_exists <- db_get_employee_by_email (email employee) ;;
             match email_exists with
             | Some other =>
                 ret (negb (String.eqb (employee_id other) (employee_id employee)))
             | None => ret false
             end
           else ret false) ;;
        if email_taken then ret false
        else
          success <- db_update_employee employee ;;
          if success then ret true else ret false
    end.

Definition update_employee (employee : Employee) : M W bool :=
  try_except
    (update_employee_try employee)
    (fun _ => ret false).

Definition delete_employee_try (id : string) : M W bool :=
  employee <- db_get_employee id ;;
  match employee with
  | None => ret false
  | Some _ =>
      storage_success <- st_delete_all_employee_files id ;;
      db_success <- db_delete_employee id ;;
      if db_success then ret true else ret false
  end.

Definition delete_employee (id : string) : M W bool :=
  try_except
    (delete_employee_try id)
    (fun _ => ret false).

Definition get_all_employees_try : M W (list Employee) :=
  employees <- db_get_all_employees ;;
  for_each refresh_picture employees.

Definition get_all_employees : M W (list Employee) :=
  try_except
    (get_all_employees_try)
    (fun _ => ret []).

Definition search_employees_by_department_try (department : string)
    : M W (list Employee) :=
  employees <- db_search_employees_by_department department ;;
  for_each refresh_picture employees.

Definition search_employees_by_department (department : string)
    : M W (list Employee) :=
  try_except
    (search_employees_by_department_try department)
    (fun _ => ret []).

Definition search_employees_by_position_try (position : string)
    : M W (list Employee) :=
  employees <- db_search_employees_by_position position ;;
  for_each refresh_picture employees.

Definition search_employees_by_position (position : string)
    : M W (list Employee) :=
  try_except
    (search_employees_by_position_try position)
    (fun _ => ret []).

Definition upload_profile_picture_try (file_obj id filename : string)
    : M W (option string) :=
  employee <- db_get_employee id ;;
  match employee with
  | None => ret None
  | Some employee =>
      st_delete_profile_picture id ;;
      profile_url <- st_upload_profile_picture file_obj id filename ;;
      match profile_url with
      | Some url =>
          if Py.truthy url
          then
            db_update_employee
              (EmployeeModel.set_profile_picture_url url employee) ;;
            ret profile_url
          else ret profile_url
      | None => ret profile_url
      end
  end.

Definition upload_profile_picture (file_obj id filename : string)
    : M W (option string) :=
  try_except
    (upload_profile_picture_try file_obj id filename)
    (fun _ => ret None).

Definition delete_profile_picture_try (id : string) : M W bool :=
  employee <- db_get_employee id ;;
  match employee with
  | None => ret false
  | Some employee =>
      storage_success <- st_delete_profile_picture id ;;
      if storage_success
      then
        db_update_employee
          (EmployeeModel.set_profile_picture_url "" employee) ;;
        ret storage_success
      else ret storage_success
  end.

Definition delete_profile_picture (id : string) : M W bool :=
  try_except
    (delete_profile_picture_try id)
    (fun _ => ret false).

Definition upload_document_try (file_obj id filename document_type : string)
    : M W (option string) :=
  employee <- db_get_employee id ;;
  match employee with
  | None => ret None
  | Some _ => st_upload_document file_obj id filename document_type
  end.

Definition upload_document (file_obj id filename document_type : string)
    : M W (option string) :=
  try_except
    (upload_document_try file_obj id filename document_type)
    (fun _ => ret None).

Definition get_employee_documents_try (id : string) : M W (list DocumentInfo) :=
  employee <- db_get_employee id ;;
  match employee with
  | None => ret []
  | Some _ => st_list_employee_documents id
  end.

Definition get_employee_documents (id : string) : M W (list DocumentInfo) :=
  try_except
    (get_employee_documents_try id)
    (fun _ => ret []).

Definition delete_document_try (s3_key : string) : M W bool :=
  st_delete_document s3_key.

Definition delete_document (s3_key : string) : M W bool :=
  try_except
    (delete_document_try s3_key)
    (fun _ => ret false).

(** [sorted(set(field(emp) for emp in employees if field(emp)))] *)
Definition distinct (field : Employee -> string) (employees : list Employee)
    : list string :=
  Py.sorted_set (filter Py.truthy (map field employees)).

Definition get_departments_try : M W (list string) :=
  employees <- db_get_all_employees ;;
  ret (distinct department employees).

Definition get_departments : M W (list string) :=
  try_except
    (get_departments_try)
    (fun _ => ret []).

Definition get_positions_try : M W (list string) :=
  employees <- db_get_all_employees ;;
  ret (distinct position employees).

Definition get_positions : M W (list string) :=
  try_except
    (get_positions_try)
    (fun _ => ret []).

Definition count_department (dept_counts : Py.dict nat) (emp : Employee)
    : Py.dict nat :=
  let dept := Py.or_ (department emp) "Unknown" in
  Py.dict_set dept_counts dept (Py.get_default dept_counts dept 0 + 1).

Definition get_statistics_try : M W Statistics :=
  employees <- db_get_all_employees ;;
  let total_employees := List.length employees in
  departments <- get_departments ;;
  positions <- get_positions ;;
  let dept_counts := fold_left count_department employees [] in
  let with_pictures :=
    List.length (filter (fun emp => Py.truthy (profile_picture_url emp)) employees) in
  storage_info <- st_get_bucket_info ;;
  ret (Stats total_employees (List.length departments) (List.length positions)
         with_pictures dept_counts storage_info).

Definition get_statistics : M W Statistics :=
  try_except
    (get_statistics_try)
    (fun _ => ret EmptyDict).

Definition health_check_try : M W Health :=
  db_healthy <- db_health_check ;;
  storage_healthy <- st_health_check ;;
  ret {| database := db_healthy;
         storage := storage_healthy;
         overall := db_healthy && storage_healthy;
         error := None |}.

Definition health_check : M W Health :=
  try_except
    (health_check_try)
    (fun e =>
       ret {| database := false;
              storage := false;
              overall := false;
              error := Some (str_exn e) |}).

End Coordinator.

End Service.

(** The service as [EmployeeService.__init__] builds it. *)
#[export] Instance employee_database : DatabaseOps World := {
  db_create_employee := Database.create_employee;
  db_get_employee := Database.get_employee;
  db_update_employee := Database.update_employee;
  db_delete_employee := Database.delete_employee;
  db_get_all_employees := Database.get_all_employees;
  db_search_employees_by_department := Database.search_employees_by_department;
  db_search_employees_by_position := Database.search_employees_by_position;
  db_get_employee_by_email := Database.get_employee_by_email;
  db_health_check := Database.health_check
}.

#[export] Instance employee_storage : StorageOps World := {
  st_upload_profile_picture := Storage.upload_profile_picture;
  st_delete_profile_picture := Storage.delete_profile_picture;
  st_get_profile_picture_url := Storage.get_profile_picture_url;
  st_upload_document := Storage.upload_document;
  st_list_employee_documents := Storage.list_employee_documents;
  st_delete_document := Storage.delete_document;
  st_delete_all_employee_files := Storage.delete_all_employee_files;
  st_health_check := Storage.health_check;
  st_get_bucket_info := Storage.get_bucket_info
}.

(* ------------------------------------------------------------------ *)
(** ** app.py: the add handler *)

Record FileStorage : Type := mkFile {
  filename : string;
  stream : string
}.

Record Request : Type := mkRequest {
  method : string;
  form : Py.dict string;
  files : Py.dict FileStorage
}.

Inductive Response : Type :=
| Redirect (endpoint : string)
| Render (template : string).

Module App.

Definition ALLOWED_EXTENSIONS : list string := ["png"; "jpg"; "jpeg"; "gif"].

Definition allowed_file (filename : string) : bool :=
  Py.contains "." filename
  && match Py.after_last_dot filename with
     | Some ext => existsb (String.eqb (Py.lower ext)) ALLOWED_EXTENSIONS
     | None => false
     end.

(** [request.form[k]]: a missing field raises. *)
Definition required (form : Py.dict string) (k : string) : M World string :=
  match Py.dict_get form k with
  | Some v => ret v
  | None => raise (Exception "400 Bad Request")
  end.

(** The handler returns the messages it flashed, each with its category, and
    its response. *)
Definition add_employee (request : Request)
    : M World (list (string * string) * Response) :=
  if String.eqb (method request) "POST" then
    try_except
      (u <- uuid4 ;;
       let id := fst u in
       first_name <- required (form request) "first_name" ;;
       last_name <- required (form request) "last_name" ;;
       email <- required (form request) "email" ;;
       position <- required (form request) "position" ;;
       department <- required (form request) "department" ;;
       let phone := Py.get_default (form request) "phone" "" in
       let hire_date := Py.get_default (form request) "hire_date" "" in
       profile_picture_url <-
         match Py.dict_get (files request) "profile_picture" with
         | Some file =>
             if Py.truthy (filename file)
                && negb (String.eqb (filename file) "")
                && allowed_file (filename file)
             then
               name <- gets (fun w => secure_filename (env w) (filename file)) ;;
               Service.upload_profile_picture (stream file) id name
             else ret None
         | None => ret None
         end ;;
       employee <-
         EmployeeModel.init id first_name last_name email position department
           (Some phone) (Some hire_date) profile_picture_url None None ;;
       result <- Service.add_employee employee ;;
       if result
       then ret ([("Employee added successfully!", "success")], Redirect "index")
       else ret ([("Failed to add employee.", "error")], Render "add_employee.html"))
      (fun e =>
         ret ([(("Error adding employee: " ++ str_exn e)%string, "error")],
              Render "add_employee.html"))
  else ret ([], Render "add_employee.html").

End App.

(* ------------------------------------------------------------------ *)
(** ** The validation rules, one by one *)

Module Rules.

Import EmployeeModel.

(** The checks of [validate], in its order. *)
Inductive rule : Type :=
| IdRequired | FirstNameRequired | LastNameRequired
| EmailRequired | EmailFormat
| PositionRequired | DepartmentRequired
| FirstNameLength | LastNameLength | EmailLength
| PositionLength | DepartmentLength | PhoneLength.

Definition rules : list rule :=
  [ IdRequired; FirstNameRequired; LastNameRequired; EmailRequired; EmailFormat;
    PositionRequired; DepartmentRequired; FirstNameLength; LastNameLength;
    EmailLength; PositionLength; DepartmentLength; PhoneLength ].

(** The condition of each check, taken on its own. *)
Definition violated (r : rule) (e : Employee) : bool :=
  match r with
  | IdRequired => negb (Py.truthy (employee_id e))
  | FirstNameRequired => blank (first_name e)
  | LastNameRequired => blank (last_name e)
  | EmailRequired => blank (email e)
  | EmailFormat =>
      negb (Py.contains "@" (email e)) || negb (Py.contains "." (email e))
  | PositionRequired => blank (position e)
  | DepartmentRequired => blank (department e)
  | FirstNameLength => 50 <? Py.len (first_name e)
  | LastNameLength => 50 <? Py.len (last_name e)
  | EmailLength => 100 <? Py.len (email e)
  | PositionLength => 100 <? Py.len (position e)
  | DepartmentLength => 50 <? Py.len (department e)
  | PhoneLength => Py.truthy (phone e) && (20 <? Py.len (phone e))
  end.

Definition message (r : rule) : string :=
  match r with
  | IdRequired => "Employee ID is required"
  | FirstNameRequired => "First name is required"
  | LastNameRequired => "Last name is required"
  | EmailRequired => "Email is required"
  | EmailFormat => "Invalid email format"
  | PositionRequired => "Position is required"
  | DepartmentRequired => "Department is required"
  | FirstNameLength => "First name must be 50 characters or less"
  | LastNameLength => "Last name must be 50 characters or less"
  | EmailLength => "Email must be 100 characters or less"
  | PositionLength => "Position must be 100 characters or less"
  | DepartmentLength => "Department must be 50 characters or less"
  | PhoneLength => "Phone number must be 20 characters or less"
  end.

(** When [validate] reports a rule: the format of the email is looked at
    only when the email is not blank. *)
Definition reported (e : Employee) (r : rule) : bool :=
  match r with
  | EmailFormat => negb (violated EmailRequired e) && violated EmailFormat e
  | _ => violated r e
  end.

(** The checks as one pass over the rules. *)
Definition check_all (e : Employee) (rs : list rule) (errors : list string)
    : list string :=
  fold_left (fun errs r => append_if (reported e r) (message r) errs) rs errors.

End Rules.

(** What one rule asks of [validate]: when it is violated, its message is
    among the errors. *)
Definition reports_all_violated (e : Employee) : Prop :=
  forall r, Rules.violated r e = true ->
            In (Rules.message r) (snd (EmployeeModel.validate e)).

(* ------------------------------------------------------------------ *)
(** ** Reading the stores *)

(** The clock reading the next call of [utcnow] returns. *)
Definition now (w : World) : string := utcnow_isoformat (env w) (clock_reads w).

(** The world after one reading of the clock. *)
Definition tick (w : World) : World := set_clock_reads (S (clock_reads w)) w.

(** The record [from_dict] builds from an item when the clock reads [t]. *)
Definition from_dict_at (t : string) (data : Item) : Employee :=
  EmployeeModel.init_at t
    (Py.get_default data "employee_id" "")
    (Py.get_default data "first_name" "")
    (Py.get_default data "last_name" "")
    (Py.get_default data "email" "")
    (Py.get_default data "position" "")
    (Py.get_default data "department" "")
    (Some (Py.get_default data "phone" ""))
    (Some (Py.get_default data "hire_date" ""))
    (Some (Py.get_default data "profile_picture_url" ""))
    (Some (Py.get_default data "created_at" ""))
    (Some (Py.get_default data "updated_at" "")).

(** The record stored under [id], as an [Employee]: the stored item is the
    dictionary of [e]. *)
Definition stored (w : World) (id : string) (e : Employee) : Prop :=
  DynamoDB.find_item id (table w) = Some (EmployeeModel.to_dict e).

(** Both timestamps are set, as they are on every record the constructor
    built. *)
Definition timestamped (e : Employee) : Prop :=
  Py.truthy (created_at e) = true /\ Py.truthy (updated_at e) = true.

(** The items whose email is [email]. *)
Definition with_email (email : string) (t : list Item) : list Item :=
  filter (DynamoDB.holds (DynamoDB.Attr_eq "email" email)) t.

(** No remote call fails from here on. *)
Definition fault_free (w : World) : Prop := faults w = [].

(** One Scan call covers the whole collection. *)
Definition single_page (w : World) : Prop :=
  List.length (table w) <= DynamoDB.page_size w.

(** The pictures and the documents of an employee, as the code lists them. *)
Definition pictures_of (id : string) (b : list S3Object) : list S3Object :=
  S3.with_prefix (Storage.picture_prefix id) b.

Definition documents_of (id : string) (b : list S3Object) : list S3Object :=
  S3.with_prefix (Storage.document_prefix id) b.

(** The keys [delete_all_employee_files] collects. *)
Definition keys_of (id : string) (b : list S3Object) : list string :=
  map Key (pictures_of id b) ++ map Key (documents_of id b).

(** The most recently uploaded of some objects. *)
Fixpoint latest (l : list S3Object) : option S3Object :=
  match l with
  | [] => None
  | o :: r =>
      match latest r with
      | Some o' => if LastModified o <? LastModified o' then Some o' else Some o
      | None => Some o
      end
  end.

(** The read URL the code signs for a key. *)
Definition read_url (w : World) (key : string) : string :=
  presigned_url (env w) (S3_BUCKET_NAME (env w)) key 3600.




(* ------------------------------------------------------------------ *)
(** ** Records and scans *)

(** The records of the collection, in scan order. *)
Definition records (w : World) (es : list Employee) : Prop :=
  table w = map EmployeeModel.to_dict es /\ Forall timestamped es.

(** The filter of a scan, on records. *)
Definition matches (f : option DynamoDB.condition) (e : Employee) : bool :=
  match f with
  | Some c => DynamoDB.holds c (EmployeeModel.to_dict e)
  | None => true
  end.

(** The record has the email [em]. *)
Definition has_email (em : string) (e : Employee) : bool := String.eqb (email e) em.

(** [w'] is [w] with a later clock. *)
Definition later (w w' : World) : Prop := exists n, w' = set_clock_reads n w.

(* ------------------------------------------------------------------ *)
(** ** What a computation leaves in place *)

(** [m] keeps [I]: from a world where [I] holds it ends, returning or
    raising, in a world where [I] holds. *)
Definition keeps {W A} (I : W -> Prop) (m : M W A) : Prop :=
  forall w, I w -> I (snd (m w)).

(** From a world where [P] holds, [m] ends in a world where [Q] holds. *)
Definition leads {W A} (P : W -> Prop) (m : M W A) (Q : W -> Prop) : Prop :=
  forall w, P w -> Q (snd (m w)).

(** The blob store holds the objects [b]. *)
Definition has_bucket (b : list S3Object) (w : World) : Prop := bucket w = b.

(** The blob store holds [b] and the record store has no record [id]. *)
Definition no_record (id : string) (b : list S3Object) (w : World) : Prop :=
  bucket w = b /\ DynamoDB.find_item id (table w) = None.

(** [I] does not look at the clock, at the identifiers drawn or at the
    outcomes of the calls to come. *)
Definition blind_to_clock_and_faults (I : World -> Prop) : Prop :=
  forall w, I w ->
    (forall n, I (set_clock_reads n w))
    /\ (forall n, I (set_uuids_drawn n w))
    /\ (forall f, I (set_faults f w)).

(** A remote call failed between [w] and [w']. *)
Definition failed (f : option exn) : bool :=
  match f with Some _ => true | None => false end.

Definition a_call_failed (w w' : World) : bool :=
  existsb failed
    (firstn (List.length (faults w) - List.length (faults w')) (faults w)).

(* ------------------------------------------------------------------ *)
(** ** Methods that catch *)

(** What a handler that returns [degraded] makes of the outcome of a block. *)
Definition surfaced {W A} (degraded : A) (outcome : result A * W) : result A * W :=
  match outcome with
  | (Ok a, w') => (Ok a, w')
  | (Raise _, w') => (Ok degraded, w')
  end.

(** The method runs its block and turns an exception into [degraded]. *)
Definition degrades_to {W A} (method block : M W A) (degraded : A) : Prop :=
  forall w, method w = surfaced degraded (block w).

Definition never_raises {W A} (method : M W A) : Prop :=
  forall w, exists a w', method w = (Ok a, w').

Definition caught {W A} (method block : M W A) (degraded : A) : Prop :=
  degrades_to method block degraded /\ never_raises method.

(* ------------------------------------------------------------------ *)
(** ** Statements of the specification, at one world *)

(** Once the delete reports success, no picture and no document of the
    employee is left. *)
Definition delete_leaves_no_file (w : World) (id : string) : Prop :=
  forall w', Service.delete_employee id w = (Ok true, w') ->
             pictures_of id (bucket w') = [] /\ documents_of id (bucket w') = [].

(** The reference [get_employee] returns is the read URL of the latest
    picture, and empty when there is none. *)
Definition refreshed_from_latest (w : World) (id : string) : Prop :=
  forall e, fst (Service.get_employee id w) = Ok (Some e) ->
    match latest (pictures_of id (bucket w)) with
    | Some o => profile_picture_url e = read_url w (Key o)
    | None => profile_picture_url e = ""
    end.

(** A failure inside a method that returns a boolean comes out as [False]. *)
Definition failure_surfaced (method : M World bool) (w : World) : Prop :=
  a_call_failed w (snd (method w)) = true -> fst (method w) = Ok false.

(* ------------------------------------------------------------------ *)
(** ** Sample worlds *)

Module Sample.

Definition clock (n : nat) : string :=
  nth n [ "2024-01-01T00:00:01"; "2024-01-01T00:00:02"; "2024-01-01T00:00:03";
          "2024-01-01T00:00:04"; "2024-01-01T00:00:05"; "2024-01-01T00:00:06" ]
    "2024-01-02T00:00:00".

Definition sample_env : Env :=
  {| S3_BUCKET_NAME := "employee-directory-files";
     AWS_REGION := "us-east-1";
     DYNAMODB_TABLE_NAME := "employees";
     utcnow_isoformat := clock;
     uuid4_str := fun n =>
       nth n ["11111111-1111-4111-8111-111111111111"]
         "22222222-2222-4222-8222-222222222222";
     uuid4_hex := fun n =>
       nth n ["11111111111141118111111111111111"]
         "22222222222242228222222222222222";
     presigned_url := fun b k expiry =>
       ("https://" ++ b ++ ".s3.amazonaws.com/" ++ k ++ "?X-Amz-Expires=3600")%string;
     guess_type := fun _ => Some "image/png";
     secure_filename := fun f => f |}.

(** A world with the given items and objects, [S pages] items to a Scan
    call, and the given outcomes of the calls to come. *)
Definition world (t : list Item) (b : list S3Object) (pages : nat)
    (f : list (option exn)) : World :=
  mkWorld sample_env t pages "ACTIVE" b None (List.length b) f 0 0.

Definition employee (id email : string) : Employee :=
  mkEmployee id "Ann" "Lee" email "Engineer" "Engineering" "" "" ""
    "2023-05-01T09:00:00" "2023-05-01T09:00:00".

Definition e1 : Employee := employee "e1" "a@b.com".
Definition e2 : Employee := employee "e2" "c@d.com".
Definition e3 : Employee := employee "e3" "c@d.com".

Definition two_records : list Item :=
  [EmployeeModel.to_dict e1; EmployeeModel.to_dict e2].

Definition blob (key : string) (uploaded : nat) : S3Object :=
  mkObject key "bytes" "image/png" [] uploaded.

(** A record with no email and nothing else wrong. *)
Definition blank_email_employee : Employee :=
  mkEmployee "e1" "Ann" "Lee" "" "Engineer" "Engineering" "" "" "" "" "".

(** Two records and no file. *)
Definition phone_change : World := world two_records [] 1 [].

(** Two records, and a Scan call that evaluates one item. *)
Definition second_page : World := world two_records [] 0 [].

(** A picture of [e1], and the second remote call fails. *)
Definition cleanup_fails : World :=
  world two_records [blob "profile-pictures/e1_aa.png" 0] 1
    [None; Some (ClientError "ServiceUnavailable")].

(** A document and a picture of [e1]. *)
Definition two_files : World :=
  world two_records
    [blob "documents/e1_cv_aa.pdf" 1; blob "profile-pictures/e1_aa.png" 0] 1 [].

(** Two pictures of [e1]; the one listed first is the older. *)
Definition two_listed : World :=
  world two_records
    [blob "profile-pictures/e1_aa.png" 0; blob "profile-pictures/e1_bb.png" 1] 1 [].

(** Two uploads for [e1]; the listing that precedes the second one fails, so
    the first picture stays. *)
Definition two_pictures : World :=
  let w0 := world two_records [] 1
              [None; None; None; None; None; None; Some (ClientError "SlowDown")] in
  let w1 := snd (Service.upload_profile_picture "old" "e1" "me.png" w0) in
  snd (Service.upload_profile_picture "new" "e1" "me.png" w1).

(** An upload for [e1], then the uploaded object is deleted by its key. *)
Definition picture_gone : World :=
  let w0 := world two_records [] 1 [] in
  let w1 := snd (Service.upload_profile_picture "old" "e1" "me.png" w0) in
  snd (Service.delete_document
         "profile-pictures/e1_11111111111141118111111111111111.png" w1).

(** No record, no file. *)
Definition empty_directory : World := world [] [] 1 [].

(** The add form, filled in, with a picture. *)
Definition picture_request : Request :=
  mkRequest "POST"
    [ ("first_name", "Ann"); ("last_name", "Lee"); ("email", "a@b.com");
      ("position", "Engineer"); ("department", "Engineering") ]
    [ ("profile_picture", mkFile "me.png" "bytes") ].

(** The third remote call fails. *)
Definition upload_fails : World :=
  world two_records [] 1 [None; None; Some (ClientError "SlowDown")].

(** [e1] with the email of [e2]. *)
Definition e1_moved : Employee := employee "e1" "c@d.com".

End Sample.

(* ------------------------------------------------------------------ *)
(** ** app.py: the other handlers *)

(** What a handler answers: a redirect to an endpoint, a template with the
    records it is given, or JSON. *)
Inductive Page : Type :=
| RedirectTo (endpoint : string) (employee_id : option string)
| RenderList (template : string) (employees : list Employee)
| RenderOne (template : string) (employee : Employee)
| JsonList (data : list Item)
| JsonError (error : string) (status : nat).

(** The messages a handler flashed, each with its category. *)
Definition Flashes : Type := list (string * string).

Module Pages.

Definition index : M World (Flashes * Page) :=
  try_except
    (employees <- Service.get_all_employees ;;
     ret ([], RenderList "index.html" employees))
    (fun e =>
       ret ([(("Error loading employees: " ++ str_exn e)%string, "error")],
            RenderList "index.html" [])).

Definition view_employee (employee_id : string) : M World (Flashes * Page) :=
  try_except
    (employee <- Service.get_employee employee_id ;;
     match employee with
     | Some employee => ret ([], RenderOne "view_employee.html" employee)
     | None => ret ([("Employee not found.", "error")], RedirectTo "index" None)
     end)
    (fun e =>
       ret ([(("Error loading employee: " ++ str_exn e)%string, "error")],
            RedirectTo "index" None)).

(** The [POST] branch of [edit_employee]: what it flashed, and its response
    when it returns one. *)
Definition edit_employee_post (request : Request) (employee_id : string)
    : M World (Flashes * option Page) :=
  try_except
    (current_employee <- Service.get_employee employee_id ;;
     match current_employee with
     | None =>
         ret ([("Employee not found.", "error")], Some (RedirectTo "index" None))
     | Some current_employee =>
         first_name <- App.required (form request) "first_name" ;;
         last_name <- App.required (form request) "last_name" ;;
         email <- App.required (form request) "email" ;;
         position <- App.required (form request) "position" ;;
         department <- App.required (form request) "department" ;;
         let phone := Py.get_default (form request) "phone" "" in
         let hire_date := Py.get_default (form request) "hire_date" "" in
         profile_picture_url <-
           match Py.dict_get (files request) "profile_picture" with
           | Some file =>
               if Py.truthy (filename file)
                  && negb (String.eqb (filename file) "")
                  && App.allowed_file (filename file)
               then
                 name <- gets (fun w => secure_filename (env w) (filename file)) ;;
                 (if Py.truthy (profile_picture_url current_employee)
                  then Service.delete_profile_picture employee_id ;; ret tt
                  else ret tt) ;;
                 Service.upload_profile_picture (stream file) employee_id name
               else ret (Some (profile_picture_url current_employee))
           | None => ret (Some (profile_picture_url current_employee))
           end ;;
         employee <-
           EmployeeModel.init employee_id first_name last_name email position
             department (Some phone) (Some hire_date) profile_picture_url
             None None ;;
         result <- Service.update_employee employee ;;
         if result
         then ret ([("Employee updated successfully!", "success")],
                   Some (RedirectTo "view_employee" (Some employee_id)))
         else ret ([("Failed to update employee.", "error")], None)
     end)
    (fun e =>
       ret ([(("Error updating employee: " ++ str_exn e)%string, "error")], None)).

(** The rest of [edit_employee]: the form, filled with the stored record. *)
Definition edit_employee_form (employee_id : string) : M World (Flashes * Page) :=
  try_except
    (employee <- Service.get_employee employee_id ;;
     match employee with
     | Some employee => ret ([], RenderOne "edit_employee.html" employee)
     | None => ret ([("Employee not found.", "error")], RedirectTo "index" None)
     end)
    (fun e =>
       ret ([(("Error loading employee: " ++ str_exn e)%string, "error")],
            RedirectTo "index" None)).

Definition edit_employee (request : Request) (employee_id : string)
    : M World (Flashes * Page) :=
  if String.eqb (method request) "POST" then
    posted <- edit_employee_post request employee_id ;;
    match snd posted with
    | Some page => ret (fst posted, page)
    | None =>
        shown <- edit_employee_form employee_id ;;
        ret (fst posted ++ fst shown, snd shown)
    end
  else edit_employee_form employee_id.

Definition delete_employee (employee_id : string) : M World (Flashes * Page) :=
  flashed <-
    try_except
      (result <- Service.delete_employee employee_id ;;
       if result
       then ret [("Employee deleted successfully!", "success")]
       else ret [("Failed to delete employee.", "error")])
      (fun e => ret [(("Error deleting employee: " ++ str_exn e)%string, "error")]) ;;
  ret (flashed, RedirectTo "index" None).

Definition api_employees : M World Page :=
  try_except
    (employees <- Service.get_all_employees ;;
     ret (JsonList (map EmployeeModel.to_dict employees)))
    (fun e => ret (JsonError (str_exn e) 500)).

End Pages.

(* ------------------------------------------------------------------ *)
(** ** What an operation leaves alone *)

(** [m] changes neither the records nor the objects, however it ends. *)
Definition read_only {A} (m : M World A) : Prop :=
  forall w, table (snd (m w)) = table w /\ bucket (snd (m w)) = bucket w.

(** [m] leaves the records as they are, however it ends. *)
Definition leaves_records {A} (m : M World A) : Prop :=
  forall w, table (snd (m w)) = table w.

(** [m] leaves the objects as they are, however it ends. *)
Definition leaves_objects {A} (m : M World A) : Prop :=
  forall w, bucket (snd (m w)) = bucket w.

(** [m] leaves every record but the one with key [k] as it is. *)
Definition touches_only {A} (k : string) (m : M World A) : Prop :=
  forall w k', k' <> k ->
    DynamoDB.find_item k' (table (snd (m w))) = DynamoDB.find_item k' (table w).

(** The two stores hold [t] and [b]. *)
Definition stores_are (t : list Item) (b : list S3Object) (w : World) : Prop :=
  table w = t /\ bucket w = b.

(** The record store holds [t]. *)
Definition has_table (t : list Item) (w : World) : Prop := table w = t.

(** The record store answers [v] for the key [k]. *)
Definition record_is (k : string) (v : option Item) (w : World) : Prop :=
  DynamoDB.find_item k (table w) = v.

(** [I] does not look at the objects. *)
Definition blind_to_objects (I : World -> Prop) : Prop :=
  forall w, I w -> (forall b, I (set_bucket b w)) /\ (forall n, I (set_uploads n w)).

(** [I] does not look at the records. *)
Definition blind_to_records (I : World -> Prop) : Prop :=
  forall w, I w -> forall t, I (set_table t w).

(** [m] answers [v] at [w] and changes neither store. *)
Definition refused {A} (m : M World A) (v : A) (w : World) : Prop :=
  exists w', m w = (Ok v, w') /\ table w' = table w /\ bucket w' = bucket w.


(* ------------------------------------------------------------------ *)
(** ** Objects and their addresses *)




(** The objects whose key does not start with [p]. *)
Definition without_prefix (p : string) (b : list S3Object) : list S3Object :=
  filter (fun o => negb (Py.startswith (Key o) p)) b.

(** The entry [list_employee_documents] builds for a listed object. *)
Definition document_entry (w : World) (o : S3Object) : DocumentInfo :=
  let metadata :=
    match find (fun x => String.eqb (Key x) (Key o)) (bucket w) with
    | Some x => Metadata x
    | None => []
    end in
  {| doc_key := Key o;
     doc_filename := Py.get_default metadata "original_filename" "Unknown";
     doc_document_type := Py.get_default metadata "document_type" "general";
     doc_size := Size o;
     doc_last_modified := LastModified o;
     doc_url := read_url w (Key o) |}.



(** The world after an upload of [o]. *)
Definition uploaded (o : S3Object) (w : World) : World :=
  set_uploads (S (uploads w))
    (set_bucket (S3.put_object o (bucket w))
       (set_uuids_drawn (S (uuids_drawn w)) w)).

(** The record [get_employee] returns for a stored item: the item's record
    with the reference refreshed as [refresh_picture] does. *)
Definition refreshed (w : World) (id : string) (e : Employee) : Employee :=
  match pictures_of id (bucket w) with
  | [] => e
  | first :: _ =>
      if Py.truthy (read_url w (Key first))
      then EmployeeModel.set_profile_picture_url (read_url w (Key first)) e
      else e
  end.

(** The record stored after the picture reference of [e] is set to [url]:
    the lookup and the lookup inside the update read the clock once each,
    and [update_timestamp] takes the next reading. *)
Definition with_picture (w : World) (url : string) (e : Employee) : Employee :=
  EmployeeModel.set_updated_at (now (tick (tick w)))
    (EmployeeModel.set_profile_picture_url url e).


(** [refresh_picture] on a record, when no call fails. *)
Definition refresh (w : World) (e : Employee) : Employee :=
  refreshed w (employee_id e) e.

(** Strictly ascending, as [sorted(set(...))] leaves a list: every element
    is below every later one. *)
Definition ascending (l : list string) : Prop :=
  ForallOrdPairs (fun a b => String.compare a b = Lt) l.

(** The name under which [get_statistics] counts a record's department. *)
Definition counted_under (e : Employee) : string :=
  Py.or_ (department e) "Unknown".

(* ------------------------------------------------------------------ *)
(** ** The edit form *)

(** The fields the edit handler reads with [request.form[...]]. *)
Definition required_fields : list string :=
  ["first_name"; "last_name"; "email"; "position"; "department"].

(** The form has every required field. *)
Definition filled (request : Request) : Prop :=
  Forall (fun k => Py.dict_get (form request) k <> None) required_fields.

(** The record the edit handler builds from a filled form and the record
    [current] it read, when it uploads no picture: an [Employee] built from
    [employee_data], which has no timestamps, so both are the reading [t] of
    the clock. *)
Definition edited (t : string) (request : Request) (id : string)
    (current : Employee) : Employee :=
  EmployeeModel.init_at t id
    (Py.get_default (form request) "first_name" "")
    (Py.get_default (form request) "last_name" "")
    (Py.get_default (form request) "email" "")
    (Py.get_default (form request) "position" "")
    (Py.get_default (form request) "department" "")
    (Some (Py.get_default (form request) "phone" ""))
    (Some (Py.get_default (form request) "hire_date" ""))
    (Some (profile_picture_url current))
    None None.

(** The record the add handler builds from a filled form: the identifier is
    the next UUID, no picture reference is set (the upload it may attempt
    finds no record and returns nothing), and both timestamps are the
    reading of the clock. *)
Definition added (w : World) (request : Request) : Employee :=
  EmployeeModel.init_at (now w) (uuid4_str (env w) (uuids_drawn w))
    (Py.get_default (form request) "first_name" "")
    (Py.get_default (form request) "last_name" "")
    (Py.get_default (form request) "email" "")
    (Py.get_default (form request) "position" "")
    (Py.get_default (form request) "department" "")
    (Some (Py.get_default (form request) "phone" ""))
    (Some (Py.get_default (form request) "hire_date" ""))
    None None None.

(** Sample worlds for the properties of the files. *)
Module Files.

Import Sample.

(** A document and a picture of an employee [e1_x]; no file of [e1]. *)
Definition of_extended_id : World :=
  world two_records
    [blob "documents/e1_x_cv_aa.pdf" 1; blob "profile-pictures/e1_x_aa.png" 0] 1 [].

(** Two records, a Scan call that evaluates one item, and two pictures of
    [e1]. *)
Definition two_pages_two_pictures : World :=
  world two_records
    [blob "profile-pictures/e1_aa.png" 0; blob "profile-pictures/e1_bb.png" 1] 0 [].

(** Two records, and the next remote call fails. *)
Definition store_down : World :=
  world two_records [] 1 [Some (ClientError "ServiceUnavailable")].

(** The edit form for [e1], with a new phone number and no picture. *)
Definition edit_request : Request :=
  mkRequest "POST"
    [ ("first_name", "Ann"); ("last_name", "Lee"); ("email", "a@b.com");
      ("position", "Engineer"); ("department", "Engineering");
      ("phone", "555-0100") ]
    [].

End Files.

(* ================================================================== *)
(** * Properties *)

Unset Implicit Arguments.

Import Sample.

(* ------------------------------------------------------------------ *)
(** ** Lists *)

Lemma filter_none {A} (f : A -> bool) l :
  (forall x, In x l -> f x = false) -> filter f l = [].
Proof.
  induction l as [|x l IH]; simpl; intros H; [reflexivity|].
  rewrite (H x (or_introl eq_refl)). apply IH. intros y Hy. apply H. now right.
Qed.

Lemma filter_all {A} (f : A -> bool) l :
  (forall x, In x l -> f x = true) -> filter f l = l.
Proof.
  induction l as [|x l IH]; simpl; intros H; [reflexivity|].
  rewrite (H x (or_introl eq_refl)). f_equal. apply IH. intros y Hy. apply H. now right.
Qed.

Lemma filter_single {A} (p : A -> bool) l x :
  NoDup l -> In x l -> p x = true -> (forall y, y <> x -> p y = false) ->
  filter p l = [x].
Proof.
  intros N. induction N as [|a l Ha N IH]; intros Hin Hp Hothers; [destruct Hin|].
  simpl. destruct Hin as [->|Hin].
  - rewrite Hp. f_equal. apply filter_none. intros y Hy. apply Hothers.
    intros ->. contradiction.
  - rewrite (Hothers a) by (intros ->; contradiction). now apply IH.
Qed.

Lemma filter_map_comm {A B} (p : B -> bool) (g : A -> B) l :
  filter p (map g l) = map g (filter (fun x => p (g x)) l).
Proof.
  induction l as [|x l IH]; simpl; [reflexivity|].
  destruct (p (g x)); simpl; now rewrite IH.
Qed.

Lemma find_filter {A} (p : A -> bool) l :
  find p l = match filter p l with x :: _ => Some x | [] => None end.
Proof.
  induction l as [|x l IH]; simpl; [reflexivity|]. now destruct (p x).
Qed.

Lemma find_some_in {A} (p : A -> bool) l x :
  In x l -> p x = true -> exists y, find p l = Some y.
Proof.
  intros Hin Hp. destruct (find p l) as [y|] eqn:E; [eauto|].
  now rewrite (find_none p l E x Hin) in Hp.
Qed.

Lemma Forall_page {A} (P : A -> Prop) (p : A -> bool) n k l :
  Forall P l -> Forall P (filter p (firstn n (skipn k l))).
Proof.
  intros H. apply Forall_forall. intros x Hx.
  apply filter_In in Hx as [Hx _].
  assert (H1 : In x (skipn k l)).
  { rewrite <- (firstn_skipn n (skipn k l)). apply in_or_app. now left. }
  assert (H2 : In x l).
  { rewrite <- (firstn_skipn k l). apply in_or_app. now right. }
  exact (proj1 (Forall_forall P l) H x H2).
Qed.

(* ------------------------------------------------------------------ *)
(** ** The service over any pair of adapters *)

Section Generic.

Context {W : Type} {self_db : DatabaseOps W} {self_storage : StorageOps W}.

Lemma try_except_surfaced {A} (block : M W A) (degraded : A) :
  degrades_to (try_except block (fun _ => ret degraded)) block degraded.
Proof.
  intros w. unfold try_except, surfaced. destruct (block w) as [[a|e] w']; reflexivity.
Qed.

Lemma degrades_never_raises {A} (method block : M W A) (degraded : A) :
  degrades_to method block degraded -> never_raises method.
Proof.
  intros H w. rewrite (H w). unfold surfaced.
  destruct (block w) as [[a|e] w']; eauto.
Qed.

Lemma try_except_caught {A} (block : M W A) (degraded : A) :
  caught (try_except block (fun _ => ret degraded)) block degraded.
Proof.
  split; [apply try_except_surfaced|].
  eapply degrades_never_raises, try_except_surfaced.
Qed.

Lemma health_check_run (w : W) :
  match db_health_check w with
  | (Ok d, w1) =>
      match st_health_check w1 with
      | (Ok s, w2) =>
          Service.health_check w = (Ok (mkHealth d s (d && s) None), w2)
      | (Raise e, w2) =>
          Service.health_check w =
            (Ok (mkHealth false false false (Some (str_exn e))), w2)
      end
  | (Raise e, w1) =>
      Service.health_check w =
        (Ok (mkHealth false false false (Some (str_exn e))), w1)
  end.
Proof.
  unfold Service.health_check, Service.health_check_try, try_except, bind, ret.
  destruct (db_health_check w) as [[d|e] w1]; [|reflexivity].
  destruct (st_health_check w1) as [[s|e] w2]; reflexivity.
Qed.

Lemma health_check_returns (w : W) :
  exists h w', Service.health_check w = (Ok h, w')
               /\ overall h = database h && storage h.
Proof.
  pose proof (health_check_run w) as H.
  destruct (db_health_check w) as [[d|e] w1]; [|eauto].
  destruct (st_health_check w1) as [[s|e] w2]; eauto.
Qed.

(** C9.  Whatever the two component checks do, [health_check] returns: the
    health of the record store, the health of the blob store, and their
    conjunction as the overall status when both checks return; the all-false
    status, with the message of the exception, when one of them raises. *)
Theorem health_check_never_raises (w : W) :
  (exists h w', Service.health_check w = (Ok h, w')
                /\ overall h = database h && storage h)
  /\ match db_health_check w with
     | (Ok d, w1) =>
         match st_health_check w1 with
         | (Ok s, w2) =>
             Service.health_check w = (Ok (mkHealth d s (d && s) None), w2)
         | (Raise e, w2) =>
             Service.health_check w =
               (Ok (mkHealth false false false (Some (str_exn e))), w2)
         end
     | (Raise e, w1) =>
         Service.health_check w =
           (Ok (mkHealth false false false (Some (str_exn e))), w1)
     end.
Proof.
  unfold Service.health_check, Service.health_check_try, try_except, bind, ret.
  destruct (db_health_check w) as [[d|e] w1].
  - destruct (st_health_check w1) as [[s|e] w2]; split; eauto.
  - split; eauto.
Qed.

(** C10, as amended.  No method of the service raises, whatever its adapters
    do.  An exception raised inside the [try] block of a method ends as the
    fixed value of that method: [False] for the methods that return a
    boolean, [None] for [get_employee] and for the two uploads, the empty
    list for the methods that return a list, the empty dictionary for the
    statistics ([health_check] returns its all-false dictionary).  The
    caller sees no kind of error: [add_employee] returns the same [False] for
    an invalid record, for an email that is taken and for a failing store. *)
Theorem coordinator_never_raises :
  (forall e, caught (Service.add_employee e) (Service.add_employee_try e) false)
  /\ (forall e, caught (Service.update_employee e) (Service.update_employee_try e) false)
  /\ (forall id, caught (Service.delete_employee id) (Service.delete_employee_try id) false)
  /\ (forall id, caught (Service.delete_profile_picture id)
                   (Service.delete_profile_picture_try id) false)
  /\ (forall key, caught (Service.delete_document key)
                    (Service.delete_document_try key) false)
  /\ (forall id, caught (Service.get_employee id) (Service.get_employee_try id) None)
  /\ (forall f id name, caught (Service.upload_profile_picture f id name)
                          (Service.upload_profile_picture_try f id name) None)
  /\ (forall f id name type, caught (Service.upload_document f id name type)
                               (Service.upload_document_try f id name type) None)
  /\ caught Service.get_all_employees Service.get_all_employees_try []
  /\ (forall d, caught (Service.search_employees_by_department d)
                  (Service.search_employees_by_department_try d) [])
  /\ (forall p, caught (Service.search_employees_by_position p)
                  (Service.search_employees_by_position_try p) [])
  /\ (forall id, caught (Service.get_employee_documents id)
                   (Service.get_employee_documents_try id) [])
  /\ caught Service.get_departments Service.get_departments_try []
  /\ caught Service.get_positions Service.get_positions_try []
  /\ caught Service.get_statistics Service.get_statistics_try EmptyDict
  /\ never_raises Service.health_check
  /\ (forall e w,
        fst (EmployeeModel.validate e) = false ->
        Service.add_employee e w = (Ok false, w))
  /\ (forall e w other w',
        fst (EmployeeModel.validate e) = true ->
        db_get_employee_by_email (email e) w = (Ok (Some other), w') ->
        Service.add_employee e w = (Ok false, w'))
  /\ (forall e w x w',
        fst (EmployeeModel.validate e) = true ->
        db_get_employee_by_email (email e) w = (Raise x, w') ->
        Service.add_employee e w = (Ok false, w')).
Proof.
  repeat match goal with |- _ /\ _ => split end;
    try (intros; apply try_except_caught).
  - intros w. destruct (health_check_returns w) as [h [w' [H _]]]. eauto.
  - intros e w Hv. unfold Service.add_employee, Service.add_employee_try, try_except.
    destruct (EmployeeModel.validate e) as [v errs]. simpl in Hv. now subst v.
  - intros e w other w' Hv Hd.
    unfold Service.add_employee, Service.add_employee_try, try_except, bind.
    destruct (EmployeeModel.validate e) as [v errs]. simpl in Hv. subst v. simpl.
    now rewrite Hd.
  - intros e w x w' Hv Hd.
    unfold Service.add_employee, Service.add_employee_try, try_except, bind.
    destruct (EmployeeModel.validate e) as [v errs]. simpl in Hv. subst v. simpl.
    now rewrite Hd.
Qed.

End Generic.

(* ------------------------------------------------------------------ *)
(** ** Validation *)

Section ValidateProofs.

Import EmployeeModel Rules.

Lemma append_if_app c m errors :
  append_if c m errors = errors ++ (if c then [m] else []).
Proof. destruct c; simpl; [reflexivity | now rewrite app_nil_r]. Qed.

Lemma check_all_app e rs errors :
  check_all e rs errors = errors ++ map message (filter (reported e) rs).
Proof.
  revert errors; induction rs as [|r rs IH]; intros errors; simpl.
  - now rewrite app_nil_r.
  - unfold check_all in *. simpl. rewrite IH, append_if_app.
    destruct (reported e r); simpl.
    + now rewrite <- app_assoc.
    + now rewrite app_nil_r.
Qed.

Lemma validate_check_all e :
  validate e = (Nat.eqb (List.length (check_all e rules [])) 0, check_all e rules []).
Proof.
  unfold validate, check_all, rules. simpl fold_left.
  unfold reported, violated.
  destruct (blank (email e)); simpl;
    destruct (negb (Py.contains "@" (email e)) || negb (Py.contains "." (email e)));
    reflexivity.
Qed.

Lemma rstrip_nil s c :
  Py.rstrip s = "" -> Py.contains c s = true -> Py.isspace c = true.
Proof.
  induction s as [|a s IH]; simpl; [discriminate|].
  destruct (Py.rstrip s) eqn:E; [|discriminate].
  destruct (Py.isspace a) eqn:Ea; [|discriminate].
  intros _ H. apply orb_true_iff in H as [H|H]; [|now apply IH].
  apply Ascii.eqb_eq in H. now subst.
Qed.

Lemma lstrip_contains s c :
  Py.contains c s = true -> Py.isspace c = true \/ Py.contains c (Py.lstrip s) = true.
Proof.
  induction s as [|a s IH]; simpl; [discriminate|].
  destruct (Py.isspace a) eqn:Ea; simpl; intros H; [|now right].
  apply orb_true_iff in H as [H|H]; [|now apply IH].
  apply Ascii.eqb_eq in H. subst. now left.
Qed.

Lemma blank_contains s c :
  blank s = true -> Py.isspace c = false -> Py.contains c s = false.
Proof.
  unfold blank. intros B Hc.
  destruct (Py.contains c s) eqn:E; [|reflexivity].
  destruct s as [|a s]; [discriminate|]. simpl in B.
  apply negb_true_iff in B.
  assert (Hs : Py.strip (String a s) = "") by (destruct (Py.strip (String a s)); [reflexivity|discriminate]).
  destruct (lstrip_contains _ _ E) as [H|H]; [congruence|].
  unfold Py.strip in Hs. rewrite (rstrip_nil _ _ Hs H) in Hc. discriminate.
Qed.

Lemma required_then_format e :
  violated EmailRequired e = true -> violated EmailFormat e = true.
Proof.
  simpl. intros B. rewrite (blank_contains _ "@" B); reflexivity.
Qed.

Lemma message_inj r r' : message r = message r' -> r = r'.
Proof. destruct r, r'; simpl; intros H; try reflexivity; discriminate H. Qed.

Lemma all_rules r : In r rules.
Proof. destruct r; simpl; tauto. Qed.

Lemma rules_nodup : NoDup rules.
Proof.
  unfold rules. repeat (constructor; [simpl; intuition discriminate|]). constructor.
Qed.

Lemma filter_one e r :
  violated r e = true ->
  (forall r', r' <> r -> violated r' e = false) ->
  filter (reported e) rules = [r].
Proof.
  intros Hr Hothers.
  assert (Hreq : r <> EmailRequired).
  { intros ->. pose proof (required_then_format e Hr) as F.
    rewrite (Hothers EmailFormat) in F by discriminate. discriminate. }
  apply filter_single; [apply rules_nodup | apply all_rules | |].
  - destruct r; try exact Hr. unfold reported.
    rewrite (Hothers EmailRequired) by discriminate. now rewrite Hr.
  - intros y Hy. destruct y; try exact (Hothers _ Hy). unfold reported.
    rewrite (Hothers EmailFormat Hy). apply andb_false_r.
Qed.

(** C7, the statement as given fails: a record with an empty email breaks the
    rule on the format of the email, and [validate] reports only that the
    email is required. *)
Lemma blank_email_reported_once :
  ~ reports_all_violated Sample.blank_email_employee.
Proof.
  intros H. specialize (H EmailFormat eq_refl). simpl in H.
  destruct H as [H|[]]. discriminate H.
Qed.

(** C7, as amended.  [validate] is a function of the record alone.  It
    returns ok exactly when it returns no error.  Its errors are the
    messages of the rules it reports, in the order of the rules, where every
    rule is reported when it is violated, except that the format of the email
    is reported only when the email is not blank.  So a record that violates
    no rule gets ok and no error, a record that violates exactly one rule
    gets exactly the message of that rule, and a message is among the errors
    exactly when its rule is reported. *)
Theorem validate_reports_rules (e : Employee) :
  let errors := snd (validate e) in
  fst (validate e) = match errors with [] => true | _ :: _ => false end
  /\ errors = map message (filter (reported e) rules)
  /\ ((forall r, violated r e = false) -> validate e = (true, []))
  /\ (forall r, violated r e = true ->
       (forall r', r' <> r -> violated r' e = false) ->
       validate e = (false, [message r]))
  /\ (forall r, In (message r) errors <-> reported e r = true).
Proof.
  cbv zeta. rewrite validate_check_all, check_all_app. cbn [fst snd app].
  split; [|split; [|split; [|split]]].
  - now destruct (map message (filter (reported e) rules)).
  - reflexivity.
  - intros Hv.
    assert (F : filter (reported e) rules = []).
    { unfold rules; cbn [filter reported]. now rewrite !Hv. }
    now rewrite F.
  - intros r Hr Hothers. now rewrite (filter_one e r Hr Hothers).
  - intros r. rewrite in_map_iff. split.
    + intros [r' [Hm Hin]]. apply message_inj in Hm. subst r'.
      now apply filter_In in Hin.
    + intros Hrep. exists r. split; [reflexivity|].
      apply filter_In. split; [apply all_rules | exact Hrep].
Qed.

End ValidateProofs.

Lemma valid_id e :
  fst (EmployeeModel.validate e) = true -> Py.truthy (employee_id e) = true.
Proof.
  rewrite validate_check_all, check_all_app. cbn [fst app]. intros V.
  destruct (Rules.reported e Rules.IdRequired) eqn:R.
  - unfold Rules.rules in V. cbn [filter] in V. rewrite R in V. discriminate V.
  - simpl in R. now apply negb_false_iff in R.
Qed.

(* ------------------------------------------------------------------ *)
(** ** Running the primitives *)

Lemma remote_call_ok w : fault_free w -> remote_call w = (Ok tt, w).
Proof. unfold fault_free, remote_call. now intros ->. Qed.

Lemma from_dict_run item w :
  EmployeeModel.from_dict item w = (Ok (from_dict_at (now w) item), tick w).
Proof. reflexivity. Qed.

Lemma or_empty s : Py.or_ s "" = s.
Proof. now destruct s. Qed.

Lemma or_truthy s d : Py.truthy s = true -> Py.or_ s d = s.
Proof. unfold Py.or_. now intros ->. Qed.

Lemma from_dict_to_dict t e :
  timestamped e -> from_dict_at t (EmployeeModel.to_dict e) = e.
Proof.
  intros [Hc Hu]. destruct e; simpl in *.
  unfold from_dict_at, EmployeeModel.init_at, Py.get_default. simpl.
  now rewrite !or_empty, (or_truthy _ _ Hc), (or_truthy _ _ Hu).
Qed.

Lemma item_key_to_dict e : DynamoDB.item_key (EmployeeModel.to_dict e) = employee_id e.
Proof. reflexivity. Qed.

Lemma find_item_key k t it : DynamoDB.find_item k t = Some it -> DynamoDB.item_key it = k.
Proof.
  induction t as [|x t IH]; simpl; [discriminate|].
  destruct (String.eqb (DynamoDB.item_key x) k) eqn:E.
  - intros [= ->]. now apply String.eqb_eq.
  - exact IH.
Qed.

Lemma get_item_ok w k :
  fault_free w -> Py.truthy k = true ->
  DynamoDB.get_item k w = (Ok (DynamoDB.find_item k (table w)), w).
Proof.
  intros F T. unfold DynamoDB.get_item, bind. now rewrite (remote_call_ok w F), T.
Qed.

Lemma get_employee_ok w id :
  fault_free w -> Py.truthy id = true ->
  Database.get_employee id w =
    match DynamoDB.find_item id (table w) with
    | Some item => (Ok (Some (from_dict_at (now w) item)), tick w)
    | None => (Ok None, w)
    end.
Proof.
  intros F T. unfold Database.get_employee, try_except, bind.
  rewrite (get_item_ok w id F T).
  destruct (DynamoDB.find_item id (table w)); reflexivity.
Qed.

Lemma world_eta w :
  mkWorld (env w) (table w) (scan_page w) (table_status w) (bucket w)
    (location_constraint w) (uploads w) (faults w) (clock_reads w) (uuids_drawn w) = w.
Proof. now destruct w. Qed.

Lemma set_bucket_same w : set_bucket (bucket w) w = w.
Proof. apply world_eta. Qed.

(** A failed lookup leaves both stores as they were, whatever fails. *)
Lemma get_employee_absent w id :
  DynamoDB.find_item id (table w) = None ->
  exists w', Database.get_employee id w = (Ok None, w')
             /\ table w' = table w /\ bucket w' = bucket w.
Proof.
  intros H.
  unfold Database.get_employee, DynamoDB.get_item, try_except, bind, remote_call,
    gets, raise, Database.returning, DynamoDB.key_error, ret.
  destruct (faults w) as [|[e|] r]; simpl.
  - destruct (Py.truthy id); simpl; [rewrite H|]; simpl; eauto.
  - destruct e; simpl; eauto.
  - destruct (Py.truthy id); simpl; [rewrite H|]; simpl; eauto.
Qed.

Lemma find_put it t :
  DynamoDB.find_item (DynamoDB.item_key it) (DynamoDB.put it t) = Some it.
Proof.
  induction t as [|x t IH]; simpl.
  - now rewrite String.eqb_refl.
  - destruct (String.eqb (DynamoDB.item_key x) (DynamoDB.item_key it)) eqn:E; simpl.
    + now rewrite String.eqb_refl.
    + now rewrite E.
Qed.

Lemma find_remove k t : DynamoDB.find_item k (DynamoDB.remove k t) = None.
Proof.
  induction t as [|x t IH]; simpl; [reflexivity|].
  destruct (String.eqb (DynamoDB.item_key x) k) eqn:E; simpl; [exact IH|].
  now rewrite E.
Qed.

Lemma put_item_ok w it :
  fault_free w -> Py.truthy (DynamoDB.item_key it) = true ->
  DynamoDB.put_item it w = (Ok tt, set_table (DynamoDB.put it (table w)) w).
Proof.
  intros F T. unfold DynamoDB.put_item, bind. now rewrite (remote_call_ok w F), T.
Qed.

Lemma delete_item_ok w k :
  fault_free w -> Py.truthy k = true ->
  DynamoDB.delete_item k w = (Ok tt, set_table (DynamoDB.remove k (table w)) w).
Proof.
  intros F T. unfold DynamoDB.delete_item, bind. now rewrite (remote_call_ok w F), T.
Qed.

Lemma delete_employee_ok w id item :
  fault_free w -> Py.truthy id = true ->
  DynamoDB.find_item id (table w) = Some item ->
  Database.delete_employee id w =
    (Ok true, set_table (DynamoDB.remove id (table w)) (tick w)).
Proof.
  intros F T H. unfold Database.delete_employee, try_except, bind.
  rewrite (get_employee_ok w id F T), H.
  now rewrite (delete_item_ok (tick w) id F T).
Qed.

Lemma update_employee_ok w e item :
  fault_free w ->
  fst (EmployeeModel.validate e) = true ->
  DynamoDB.find_item (employee_id e) (table w) = Some item ->
  Database.update_employee e w =
    (Ok true,
     set_table
       (DynamoDB.put
          (EmployeeModel.to_dict (EmployeeModel.set_updated_at (now (tick w)) e))
          (table w))
       (tick (tick w))).
Proof.
  intros F V H. pose proof (valid_id e V) as T.
  unfold Database.update_employee, try_except, bind.
  destruct (EmployeeModel.validate e) as [v errs]. simpl in V. subst v. cbn [negb].
  rewrite (get_employee_ok w _ F T), H.
  change (EmployeeModel.update_timestamp e (tick w))
    with (Ok (EmployeeModel.set_updated_at (now (tick w)) e), tick (tick w)).
  cbv iota beta.
  rewrite (put_item_ok (tick (tick w)) _ F) by exact T.
  reflexivity.
Qed.

Lemma service_get_absent w id :
  DynamoDB.find_item id (table w) = None ->
  exists w', Service.get_employee id w = (Ok None, w')
             /\ table w' = table w /\ bucket w' = bucket w.
Proof.
  intros H. destruct (get_employee_absent w id H) as [w' [E [Ht Hb]]].
  exists w'. unfold Service.get_employee, Service.get_employee_try, try_except, bind.
  cbn [db_get_employee employee_database]. rewrite E. auto.
Qed.

(* ------------------------------------------------------------------ *)
(** ** Deleting a record and its files *)

Lemma remove_keys_nil b : S3.remove_keys [] b = b.
Proof. unfold S3.remove_keys. now apply filter_all. Qed.

Lemma existsb_key o keys :
  In (Key o) keys -> existsb (String.eqb (Key o)) keys = true.
Proof.
  intros H. apply existsb_exists. exists (Key o). split; [exact H|apply String.eqb_refl].
Qed.

Lemma with_prefix_removed p keys b :
  incl (map Key (S3.with_prefix p b)) keys ->
  S3.with_prefix p (S3.remove_keys keys b) = [].
Proof.
  intros Hincl. unfold S3.with_prefix at 1. apply filter_none.
  intros o Ho. unfold S3.remove_keys in Ho. apply filter_In in Ho as [Hb Hk].
  destruct (Py.startswith (Key o) p) eqn:E; [|reflexivity].
  assert (Hin : In (Key o) keys).
  { apply Hincl, in_map. unfold S3.with_prefix. apply filter_In. now split. }
  now rewrite (existsb_key o keys Hin) in Hk.
Qed.

Lemma list_objects_ok w p :
  fault_free w -> List.length (S3.with_prefix p (bucket w)) <= S3.MAX_KEYS ->
  S3.list_objects_v2 p S3.MAX_KEYS 0 w =
    (Ok {| S3.Contents := match S3.with_prefix p (bucket w) with
                          | [] => None
                          | _ :: _ => Some (S3.with_prefix p (bucket w))
                          end;
           S3.NextContinuationToken := None |}, w).
Proof.
  intros F L. unfold S3.list_objects_v2, bind, gets, S3.list_at.
  rewrite (remote_call_ok w F). cbn [skipn].
  rewrite (firstn_all2 _ L).
  assert (E : (S3.MAX_KEYS <? List.length (S3.with_prefix p (bucket w))) = false)
    by now apply Nat.ltb_ge.
  now rewrite E.
Qed.

Lemma delete_all_ok w id :
  fault_free w ->
  List.length (pictures_of id (bucket w)) + List.length (documents_of id (bucket w))
    <= S3.MAX_KEYS ->
  Storage.delete_all_employee_files id w =
    (Ok true, set_bucket (S3.remove_keys (keys_of id (bucket w)) (bucket w)) w).
Proof.
  intros F L. unfold pictures_of, documents_of in L.
  unfold Storage.delete_all_employee_files, try_except, bind.
  rewrite (list_objects_ok w _ F) by lia.
  rewrite (list_objects_ok w _ F) by lia.
  cbn [S3.Contents].
  set (pics := S3.with_prefix (Storage.picture_prefix id) (bucket w)) in *.
  set (docs := S3.with_prefix (Storage.document_prefix id) (bucket w)) in *.
  assert (K : keys_of id (bucket w) = map Key pics ++ map Key docs) by reflexivity.
  rewrite K.
  replace (match match pics with [] => None | _ :: _ => Some pics end with
           | Some contents => [] ++ map Key contents
           | None => []
           end) with (map Key pics) by now destruct pics.
  replace (match match docs with [] => None | _ :: _ => Some docs end with
           | Some contents => map Key pics ++ map Key contents
           | None => map Key pics
           end) with (map Key pics ++ map Key docs)
    by (destruct docs; [now rewrite app_nil_r | reflexivity]).
  destruct (map Key pics ++ map Key docs) as [|k ks] eqn:E.
  - rewrite remove_keys_nil, set_bucket_same. reflexivity.
  - unfold S3.delete_objects, bind. rewrite (remote_call_ok w F).
    assert (N : (S3.MAX_KEYS <? List.length (k :: ks)) = false).
    { apply Nat.ltb_ge. rewrite <- E, length_app, !length_map. lia. }
    rewrite N. reflexivity.
Qed.

Lemma keys_of_pictures id b : incl (map Key (S3.with_prefix (Storage.picture_prefix id) b)) (keys_of id b).
Proof. unfold keys_of, pictures_of. apply incl_appl, incl_refl. Qed.

Lemma keys_of_documents id b : incl (map Key (S3.with_prefix (Storage.document_prefix id) b)) (keys_of id b).
Proof. unfold keys_of, documents_of. apply incl_appr, incl_refl. Qed.

(** C2, as amended.  For an id with no record, [delete_employee] returns
    [False] and leaves both stores as they were.  For an id with a record,
    when no remote call fails and the employee has at most [MAX_KEYS] files,
    it returns [True], the record is gone, no picture and no document of the
    employee is left, and [get_employee] finds nothing.  Over any adapters,
    it returns [True] as soon as the record delete does, whether the cleanup
    of the files succeeded or not. *)
Theorem delete_employee_removes_record_and_files (id : string) :
  (forall w, DynamoDB.find_item id (table w) = None ->
     exists w', Service.delete_employee id w = (Ok false, w')
                /\ table w' = table w /\ bucket w' = bucket w)
  /\ (forall w, fault_free w -> Py.truthy id = true ->
        DynamoDB.find_item id (table w) <> None ->
        List.length (pictures_of id (bucket w))
          + List.length (documents_of id (bucket w)) <= S3.MAX_KEYS ->
        exists w', Service.delete_employee id w = (Ok true, w')
                   /\ DynamoDB.find_item id (table w') = None
                   /\ pictures_of id (bucket w') = []
                   /\ documents_of id (bucket w') = []
                   /\ fst (Service.get_employee id w') = Ok None)
  /\ (forall W (db : DatabaseOps W) (st : StorageOps W) w e w1 cleaned w2 w3,
        db_get_employee id w = (Ok (Some e), w1) ->
        st_delete_all_employee_files id w1 = (Ok cleaned, w2) ->
        db_delete_employee id w2 = (Ok true, w3) ->
        Service.delete_employee id w = (Ok true, w3)).
Proof.
  split; [|split].
  - intros w H. destruct (get_employee_absent w id H) as [w' [E [Ht Hb]]].
    exists w'. unfold Service.delete_employee, Service.delete_employee_try, try_except, bind.
    cbn [db_get_employee employee_database]. rewrite E. auto.
  - intros w F T Hfound L.
    destruct (DynamoDB.find_item id (table w)) as [item|] eqn:Hitem; [|congruence].
    eexists. split; [|split; [|split; [|split]]].
    + unfold Service.delete_employee, Service.delete_employee_try, try_except, bind.
      cbn [db_get_employee db_delete_employee st_delete_all_employee_files
           employee_database employee_storage].
      rewrite (get_employee_ok w id F T), Hitem.
      rewrite (delete_all_ok (tick w) id F L).
      erewrite delete_employee_ok; [reflexivity|exact F|exact T|exact Hitem].
    + apply find_remove.
    + apply with_prefix_removed, keys_of_pictures.
    + apply with_prefix_removed, keys_of_documents.
    + match goal with |- fst (Service.get_employee id ?w') = _ =>
        destruct (service_get_absent w' id (find_remove id _)) as [w2 [E _]];
        now rewrite E
      end.
  - intros W db st w e w1 cleaned w2 w3 Hg Hc Hd.
    unfold Service.delete_employee, Service.delete_employee_try, try_except, bind.
    now rewrite Hg, Hc, Hd.
Qed.

(** C2, the statement as given fails: when the listing of the files fails,
    the delete still reports success and the picture is still there. *)
Lemma delete_succeeds_with_files_left :
  ~ delete_leaves_no_file cleanup_fails "e1".
Proof.
  intros H. destruct (H _ eq_refl) as [Hp _]. vm_compute in Hp. discriminate Hp.
Qed.

(** C2 at a world with a document and a picture of [e1]. *)
Lemma delete_employee_witness :
  exists w', Service.delete_employee "e1" two_files = (Ok true, w')
             /\ DynamoDB.find_item "e1" (table w') = None
             /\ pictures_of "e1" (bucket w') = []
             /\ documents_of "e1" (bucket w') = []
             /\ fst (Service.get_employee "e1" w') = Ok None.
Proof.
  apply (proj1 (proj2 (delete_employee_removes_record_and_files "e1"))).
  - reflexivity.
  - reflexivity.
  - discriminate.
  - vm_compute. lia.
Defined.

(* ------------------------------------------------------------------ *)
(** ** Reading a record *)

Lemma get_profile_picture_url_ok w id :
  fault_free w ->
  Storage.get_profile_picture_url id w =
    (Ok match pictures_of id (bucket w) with
        | [] => None
        | first :: _ => Some (read_url w (Key first))
        end, w).
Proof.
  intros F.
  unfold Storage.get_profile_picture_url, try_except, bind, S3.list_objects_v2, bind,
    gets, S3.list_at, pictures_of.
  rewrite (remote_call_ok w F). cbn [skipn S3.Contents].
  destruct (S3.with_prefix (Storage.picture_prefix id) (bucket w)) as [|o r];
    reflexivity.
Qed.

(** C5, as amended.  [get_employee] returns nothing for an id with no
    record.  For a stored record, when no remote call fails, it returns the
    record with its picture reference replaced by a read URL signed for the
    first picture the listing under the employee's prefix returns; when the
    listing returns none, the record comes back with the reference it is
    stored with, and this is no error. *)
Theorem get_employee_refreshes_picture (id : string) (w : World) :
  (DynamoDB.find_item id (table w) = None ->
     fst (Service.get_employee id w) = Ok None)
  /\ (forall e, fault_free w -> Py.truthy id = true ->
        stored w id e -> timestamped e ->
        fst (Service.get_employee id w) =
          Ok (Some match pictures_of id (bucket w) with
                   | [] => e
                   | first :: _ =>
                       if Py.truthy (read_url w (Key first))
                       then EmployeeModel.set_profile_picture_url
                              (read_url w (Key first)) e
                       else e
                   end)).
Proof.
  split.
  - intros H. destruct (service_get_absent w id H) as [w' [E _]]. now rewrite E.
  - intros e F T S Ts. unfold stored in S.
    assert (K : employee_id e = id).
    { rewrite <- (item_key_to_dict e). now apply find_item_key with (t := table w). }
    unfold Service.get_employee, Service.get_employee_try, Service.refresh_picture,
      try_except, bind.
    cbn [db_get_employee st_get_profile_picture_url employee_database employee_storage].
    rewrite (get_employee_ok w id F T), S, (from_dict_to_dict _ e Ts), K.
    rewrite (get_profile_picture_url_ok (tick w) id F).
    change (bucket (tick w)) with (bucket w).
    change (read_url (tick w)) with (read_url w).
    destruct (pictures_of id (bucket w)) as [|first rest]; [reflexivity|].
    destruct (Py.truthy (read_url w (Key first))); reflexivity.
Qed.

(** C5, the statement as given fails twice: with two pictures the reference
    is signed for the one listed first, which is the older; with no picture
    the reference is the stored one, which is not empty. *)
Lemma first_listed_not_latest_and_stale_reference :
  ~ refreshed_from_latest two_pictures "e1"
  /\ ~ refreshed_from_latest picture_gone "e1".
Proof.
  split; intros H; unfold refreshed_from_latest in H.
  - destruct (fst (Service.get_employee "e1" two_pictures)) as [[e|]|x] eqn:E;
      vm_compute in E; try discriminate E.
    specialize (H e eq_refl). injection E as E. subst e.
    vm_compute in H. discriminate H.
  - destruct (fst (Service.get_employee "e1" picture_gone)) as [[e|]|x] eqn:E;
      vm_compute in E; try discriminate E.
    specialize (H e eq_refl). injection E as E. subst e.
    vm_compute in H. discriminate H.
Qed.

(** C5 at a world with two pictures of [e1]. *)
Lemma get_employee_witness :
  exists e, fst (Service.get_employee "e1" two_listed) = Ok (Some e).
Proof.
  eexists.
  apply (proj2 (get_employee_refreshes_picture "e1" two_listed) e1).
  - reflexivity.
  - reflexivity.
  - vm_compute. reflexivity.
  - split; reflexivity.
Defined.

(* ------------------------------------------------------------------ *)
(** ** Updating a record *)



(* ------------------------------------------------------------------ *)
(** ** Scans *)

Lemma later_refl w : later w w.
Proof. exists (clock_reads w). symmetry. apply world_eta. Qed.

Lemma later_tick w w' : later (tick w) w' -> later w w'.
Proof. intros [n ->]. now exists n. Qed.

Lemma later_fault_free w w' : later w w' -> fault_free w -> fault_free w'.
Proof. now intros [n ->]. Qed.

Lemma later_table w w' : later w w' -> table w' = table w.
Proof. now intros [n ->]. Qed.

Lemma later_scan_at f k w w' : later w w' -> DynamoDB.scan_at f k w' = DynamoDB.scan_at f k w.
Proof. now intros [n ->]. Qed.

Lemma for_each_from_dict es w :
  Forall timestamped es ->
  exists w', for_each EmployeeModel.from_dict (map EmployeeModel.to_dict es) w = (Ok es, w')
             /\ later w w'.
Proof.
  intros H. revert w. induction H as [|e es He Hes IH]; intros w; simpl.
  - exists w. split; [reflexivity | apply later_refl].
  - unfold bind. rewrite from_dict_run, (from_dict_to_dict _ e He).
    destruct (IH (tick w)) as [w' [E L]]. rewrite E.
    exists w'. split; [reflexivity | now apply later_tick].
Qed.

Lemma scan_ok w f k :
  fault_free w ->
  DynamoDB.scan f k w =
    (Ok (DynamoDB.scan_at f (match k with Some k => k | None => 0 end) w), w).
Proof. intros F. unfold DynamoDB.scan, bind. now rewrite (remote_call_ok w F). Qed.

Lemma apply_filter_map f l :
  DynamoDB.apply_filter f (map EmployeeModel.to_dict l)
  = map EmployeeModel.to_dict (filter (matches f) l).
Proof.
  destruct f as [c|]; unfold DynamoDB.apply_filter.
  - apply (filter_map_comm (DynamoDB.holds c) EmployeeModel.to_dict).
  - now rewrite filter_all.
Qed.

(** The records a Scan call from position [k] returns. *)
Lemma scan_items w es f k :
  table w = map EmployeeModel.to_dict es ->
  DynamoDB.Items (DynamoDB.scan_at f k w)
  = map EmployeeModel.to_dict
      (filter (matches f) (firstn (DynamoDB.page_size w) (skipn k es))).
Proof.
  intros T. unfold DynamoDB.scan_at. cbn [DynamoDB.Items].
  now rewrite T, skipn_map, firstn_map, apply_filter_map.
Qed.

Lemma scan_more w es f k :
  table w = map EmployeeModel.to_dict es ->
  DynamoDB.LastEvaluatedKey (DynamoDB.scan_at f k w)
  = if DynamoDB.page_size w <? List.length es - k
    then Some (k + DynamoDB.page_size w) else None.
Proof.
  intros T. unfold DynamoDB.scan_at. cbn [DynamoDB.LastEvaluatedKey].
  now rewrite T, length_skipn, length_map.
Qed.

Lemma scan_while_unfold rounds f response employees :
  Database.scan_while rounds f response employees =
    match DynamoDB.LastEvaluatedKey response with
    | None => ret employees
    | Some k =>
        match rounds with
        | 0 => ret employees
        | S rounds' =>
            response <- DynamoDB.scan f (Some k) ;;
            more <- for_each EmployeeModel.from_dict (DynamoDB.Items response) ;;
            Database.scan_while rounds' f response (employees ++ more)
        end
    end.
Proof. destruct rounds; reflexivity. Qed.

Lemma scan_while_ok f es rounds :
  forall k w0 w employees,
    fault_free w -> later w0 w -> records w0 es ->
    List.length es - (k + DynamoDB.page_size w0) <= rounds ->
    exists w', Database.scan_while rounds f (DynamoDB.scan_at f k w0) employees w
               = (Ok (employees
                        ++ filter (matches f) (skipn (k + DynamoDB.page_size w0) es)), w')
               /\ later w0 w'.
Proof.
  induction rounds as [|rounds IH]; intros k w0 w employees F L [T Ts] B.
  - rewrite scan_while_unfold, (scan_more w0 es f k T).
    destruct (DynamoDB.page_size w0 <? List.length es - k) eqn:E.
    + apply Nat.ltb_lt in E. lia.
    + apply Nat.ltb_ge in E. rewrite skipn_all2 by lia. cbn [filter].
      rewrite app_nil_r. exists w. split; [reflexivity | exact L].
  - rewrite scan_while_unfold, (scan_more w0 es f k T).
    destruct (DynamoDB.page_size w0 <? List.length es - k) eqn:E.
    + unfold bind at 1. rewrite (scan_ok w f _ F). cbv beta iota.
      rewrite (later_scan_at f _ w0 w L).
      unfold bind at 1. rewrite (scan_items w0 es f _ T).
      set (P := DynamoDB.page_size w0) in *.
      set (page := filter (matches f) (firstn P (skipn (k + P) es))).
      assert (Tp : Forall timestamped page) by now apply Forall_page.
      destruct (for_each_from_dict page w Tp) as [w1 [E1 L1]]. rewrite E1.
      assert (L01 : later w0 w1).
      { destruct L as [n ->]. destruct L1 as [m ->]. now exists m. }
      destruct (IH (k + P) w0 w1 (employees ++ page)
                  (later_fault_free w w1 L1 F) L01 (conj T Ts)) as [w' [E' L']].
      { fold P. apply Nat.ltb_lt in E. unfold P, DynamoDB.page_size in *. lia. }
      fold P in E'. rewrite E'. exists w'. split; [|exact L'].
      f_equal. f_equal. rewrite <- app_assoc. f_equal. unfold page.
      rewrite <- filter_app. f_equal.
      replace (k + P + P) with (P + (k + P)) by lia.
      rewrite <- (skipn_skipn P (k + P) es). apply firstn_skipn.
    + apply Nat.ltb_ge in E. rewrite skipn_all2 by lia. cbn [filter].
      rewrite app_nil_r. exists w. split; [reflexivity | exact L].
Qed.

Lemma scan_all_complete (f : option DynamoDB.condition)
    (es : list Employee) (w : World) :
  fault_free w -> records w es ->
  fst (Database.scan_all f w) = Ok (filter (matches f) es).
Proof.
  intros F [T Ts]. unfold Database.scan_all, try_except.
  unfold bind at 1. rewrite (scan_ok w f None F). cbv beta iota.
  unfold bind at 1. rewrite (scan_items w es f 0 T). cbn [skipn].
  set (P := DynamoDB.page_size w).
  set (page := filter (matches f) (firstn P es)).
  assert (Tp : Forall timestamped page) by apply (Forall_page _ _ P 0 es Ts).
  destruct (for_each_from_dict page w Tp) as [w1 [E1 L1]]. rewrite E1.
  unfold bind at 1. unfold gets at 1. cbv beta iota.
  destruct (scan_while_ok f es (List.length (table w1)) 0 w w1 page
              (later_fault_free w w1 L1 F) L1 (conj T Ts)) as [w' [E' L']].
  { rewrite (later_table w w1 L1), T, length_map. lia. }
  rewrite E'. cbn [fst]. f_equal. unfold page. cbn [Nat.add].
  fold P. now rewrite <- filter_app, firstn_skipn.
Qed.

(** The three listing methods follow the pages of the scan: when no remote
    call fails, each returns every record of the collection that passes its
    filter, in scan order, however many items one Scan call evaluates. *)
Theorem scans_follow_pages (es : list Employee) (w : World) :
  fault_free w -> records w es ->
  fst (Database.get_all_employees w) = Ok es
  /\ (forall d, fst (Database.search_employees_by_department d w)
                = Ok (filter (fun e => String.eqb (department e) d) es))
  /\ (forall p, fst (Database.search_employees_by_position p w)
                = Ok (filter (fun e => Py.is_substring p (position e)) es)).
Proof.
  intros F R. split; [|split].
  - unfold Database.get_all_employees. rewrite (scan_all_complete None es w F R).
    f_equal. now apply filter_all.
  - intros d. unfold Database.search_employees_by_department.
    now rewrite (scan_all_complete _ es w F R).
  - intros p. unfold Database.search_employees_by_position.
    now rewrite (scan_all_complete _ es w F R).
Qed.

(** The listing methods at a collection of two pages. *)
Lemma scans_follow_pages_witness :
  fst (Database.get_all_employees second_page) = Ok [e1; e2]
  /\ (forall d, fst (Database.search_employees_by_department d second_page)
                = Ok (filter (fun e => String.eqb (department e) d) [e1; e2]))
  /\ (forall p, fst (Database.search_employees_by_position p second_page)
                = Ok (filter (fun e => Py.is_substring p (position e)) [e1; e2])).
Proof.
  apply (scans_follow_pages [e1; e2] second_page).
  - reflexivity.
  - split; [reflexivity | repeat constructor].
Defined.

(* ------------------------------------------------------------------ *)
(** ** The lookup by email *)

Lemma get_employee_by_email_ok em es w :
  fault_free w -> records w es ->
  Database.get_employee_by_email em w =
    match find (has_email em) (firstn (DynamoDB.page_size w) es) with
    | Some e => (Ok (Some e), tick w)
    | None => (Ok None, w)
    end.
Proof.
  intros F [T Ts]. unfold Database.get_employee_by_email, try_except.
  unfold bind at 1. rewrite (scan_ok w _ None F). cbv beta iota.
  rewrite (scan_items w es _ 0 T). cbn [skipn].
  rewrite find_filter.
  assert (Tp : Forall timestamped
                 (filter (has_email em) (firstn (DynamoDB.page_size w) es)))
    by apply (Forall_page _ _ _ 0 es Ts).
  change (matches (Some (DynamoDB.Attr_eq "email" em))) with (has_email em).
  destruct (filter (has_email em) (firstn (DynamoDB.page_size w) es)) as [|e l];
    [reflexivity|].
  cbn [map]. unfold bind. rewrite from_dict_run, from_dict_to_dict; [reflexivity|].
  now inversion Tp.
Qed.

(** [get_employee_by_email] looks at the first page of the scan: when no
    remote call fails it returns the first record with the email among the
    items one Scan call evaluates, and nothing when none of them has it. *)
Theorem email_lookup_reads_first_page (em : string) (es : list Employee) (w : World) :
  fault_free w -> records w es ->
  fst (Database.get_employee_by_email em w)
  = Ok (find (has_email em) (firstn (DynamoDB.page_size w) es)).
Proof.
  intros F R. rewrite (get_employee_by_email_ok em es w F R).
  now destruct (find (has_email em) (firstn (DynamoDB.page_size w) es)).
Qed.

(** The lookup at a collection of two pages. *)
Lemma email_lookup_witness :
  fst (Database.get_employee_by_email "c@d.com" second_page)
  = Ok (find (has_email "c@d.com") (firstn (DynamoDB.page_size second_page) [e1; e2])).
Proof.
  apply (email_lookup_reads_first_page "c@d.com" [e1; e2] second_page).
  - reflexivity.
  - split; [reflexivity | repeat constructor].
Defined.

Lemma single_page_all w es :
  single_page w -> records w es -> firstn (DynamoDB.page_size w) es = es.
Proof.
  unfold single_page. intros S [T _]. apply firstn_all2.
  rewrite T, length_map in S. exact S.
Qed.

(** When one Scan call covers the collection and no remote call fails,
    adding a valid record whose email a stored record has is refused, and
    the collection is unchanged. *)
Theorem add_refuses_taken_email (e owner : Employee) (es : list Employee) (w : World) :
  fault_free w -> single_page w -> records w es ->
  fst (EmployeeModel.validate e) = true ->
  In owner es -> email owner = email e ->
  exists w', Service.add_employee e w = (Ok false, w') /\ table w' = table w.
Proof.
  intros F S R V Hin Hem.
  unfold Service.add_employee, Service.add_employee_try, try_except, bind.
  destruct (EmployeeModel.validate e) as [v errs]. simpl in V. subst v. cbn [negb].
  cbn [db_get_employee_by_email employee_database].
  rewrite (get_employee_by_email_ok (email e) es w F R), (single_page_all w es S R).
  destruct (find_some_in (has_email (email e)) es owner Hin) as [y Ey].
  { unfold has_email. rewrite Hem. apply String.eqb_refl. }
  rewrite Ey. eexists. split; reflexivity.
Qed.

(** The refusal at a collection of one page. *)
Lemma add_refuses_witness :
  exists w', Service.add_employee e3 phone_change = (Ok false, w')
             /\ table w' = table phone_change.
Proof.
  apply (add_refuses_taken_email e3 e2 [e1; e2] phone_change).
  - reflexivity.
  - unfold single_page. vm_compute. lia.
  - split; [reflexivity | repeat constructor].
  - vm_compute. reflexivity.
  - right. left. reflexivity.
  - reflexivity.
Defined.

Lemma find_item_records id e es :
  NoDup (map employee_id es) -> In e es -> employee_id e = id ->
  DynamoDB.find_item id (map EmployeeModel.to_dict es) = Some (EmployeeModel.to_dict e).
Proof.
  intros N Hin Hid. induction es as [|x es IH]; [destruct Hin|].
  simpl. rewrite item_key_to_dict. inversion N as [|? ? Hx N']; subst.
  destruct Hin as [->|Hin].
  - now rewrite String.eqb_refl.
  - destruct (String.eqb (employee_id x) (employee_id e)) eqn:E.
    + apply String.eqb_eq in E. elim Hx. rewrite E. now apply in_map.
    + now apply IH.
Qed.

(** When one Scan call covers the collection and no remote call fails,
    updating a record to an email that another stored record has is
    refused, and the collection is unchanged. *)
Theorem update_refuses_taken_email (e old owner : Employee) (es : list Employee)
    (w : World) :
  fault_free w -> single_page w -> records w es ->
  NoDup (map employee_id es) ->
  fst (EmployeeModel.validate e) = true ->
  In old es -> employee_id old = employee_id e -> email old <> email e ->
  In owner es -> email owner = email e ->
  exists w', Service.update_employee e w = (Ok false, w') /\ table w' = table w.
Proof.
  intros F S R N V Hold Hid Hdiff Hin Hem.
  pose proof (valid_id e V) as T.
  unfold Service.update_employee, Service.update_employee_try, try_except, bind.
  destruct (EmployeeModel.validate e) as [v errs]. simpl in V. subst v. cbn [negb].
  cbn [db_get_employee db_get_employee_by_email employee_database].
  rewrite (get_employee_ok w _ F T).
  destruct R as [Tb Ts]. rewrite Tb, (find_item_records _ old es N Hold Hid).
  assert (Told : timestamped old) by exact (proj1 (Forall_forall _ es) Ts old Hold).
  rewrite (from_dict_to_dict _ old Told).
  assert (Ed : String.eqb (email old) (email e) = false) by now apply String.eqb_neq.
  rewrite Ed. cbn [negb].
  assert (R' : records (tick w) es) by (split; assumption).
  rewrite (get_employee_by_email_ok (email e) es (tick w) F R').
  assert (Sp : firstn (DynamoDB.page_size (tick w)) es = es)
    by exact (single_page_all w es S (conj Tb Ts)).
  rewrite Sp.
  destruct (find (has_email (email e)) es) as [y|] eqn:Ey.
  - apply find_some in Ey as [Hy Hye]. unfold has_email in Hye.
    apply String.eqb_eq in Hye.
    assert (Ny : String.eqb (employee_id y) (employee_id e) = false).
    { apply String.eqb_neq. intros Heq.
      assert (Hyo : y = old).
      { clear - N Hy Hold Heq Hid. rewrite <- Hid in Heq.
        induction es as [|x es IH]; [destruct Hy|].
        inversion N as [|? ? Hx N']; subst.
        destruct Hy as [->|Hy], Hold as [->|Hold]; try reflexivity.
        - elim Hx. rewrite Heq. now apply in_map.
        - elim Hx. rewrite <- Heq. now apply in_map.
        - now apply IH. }
      subst y. contradiction. }
    rewrite Ny. cbn [negb]. eexists. split; [reflexivity | exact Tb].
  - destruct (find_some_in (has_email (email e)) es owner Hin) as [y Ey'].
    { unfold has_email. rewrite Hem. apply String.eqb_refl. }
    congruence.
Qed.

(** The refusal at a collection of one page. *)
Lemma update_refuses_witness :
  exists w', Service.update_employee e1_moved phone_change = (Ok false, w')
             /\ table w' = table phone_change.
Proof.
  apply (update_refuses_taken_email e1_moved e1 e2 [e1; e2] phone_change).
  - reflexivity.
  - unfold single_page. vm_compute. lia.
  - split; [reflexivity | repeat constructor].
  - repeat constructor; simpl; intuition discriminate.
  - vm_compute. reflexivity.
  - left. reflexivity.
  - reflexivity.
  - discriminate.
  - right. left. reflexivity.
  - reflexivity.
Defined.

(* ------------------------------------------------------------------ *)
(** ** What the add handler leaves in place *)

Lemma leads_bind {W A B} (P Q : W -> Prop) (m : M W A) (k : A -> M W B) :
  keeps P m -> (forall a, leads P (k a) Q) -> (forall w, P w -> Q w) ->
  leads P (bind m k) Q.
Proof.
  intros Hm Hk HPQ w H. unfold bind. specialize (Hm w H).
  destruct (m w) as [[a|e] w']; simpl in *; [now apply Hk | now apply HPQ].
Qed.

Lemma leads_try {W A} (P Q : W -> Prop) (body : M W A) (handler : exn -> M W A) :
  leads P body Q -> (forall e, keeps Q (handler e)) ->
  leads P (try_except body handler) Q.
Proof.
  intros Hb Hh w H. unfold try_except. specialize (Hb w H).
  destruct (body w) as [[a|e] w']; simpl in *; [exact Hb | now apply Hh].
Qed.

Lemma leads_from {W A} (P Q : W -> Prop) (m : M W A) :
  (forall w, P w -> Q w) -> keeps Q m -> leads P m Q.
Proof. intros HPQ Hm w H. apply Hm, HPQ, H. Qed.

Lemma run_try_bind {W A B} (m : M W A) (k : A -> M W B) (handler : exn -> M W B) w :
  try_except (bind m k) handler w =
    match m w with
    | (Ok a, w') => try_except (k a) handler w'
    | (Raise e, w') => handler e w'
    end.
Proof. unfold try_except, bind. destruct (m w) as [[a|e] w']; reflexivity. Qed.

Section Keeps.

Context {W : Type} (I : W -> Prop).

Lemma keeps_ret {A} (a : A) : keeps I (ret a).
Proof. intros w H. exact H. Qed.

Lemma keeps_raise {A} (e : exn) : keeps I (@raise W A e).
Proof. intros w H. exact H. Qed.

Lemma keeps_gets {A} (f : W -> A) : keeps I (gets f).
Proof. intros w H. exact H. Qed.

Lemma keeps_bind {A B} (m : M W A) (k : A -> M W B) :
  keeps I m -> (forall a, keeps I (k a)) -> keeps I (bind m k).
Proof.
  intros Hm Hk w H. unfold bind. specialize (Hm w H).
  destruct (m w) as [[a|e] w']; simpl in *; [now apply Hk | exact Hm].
Qed.

Lemma keeps_try {A} (body : M W A) (handler : exn -> M W A) :
  keeps I body -> (forall e, keeps I (handler e)) -> keeps I (try_except body handler).
Proof.
  intros Hb Hh w H. unfold try_except. specialize (Hb w H).
  destruct (body w) as [[a|e] w']; simpl in *; [exact Hb | now apply Hh].
Qed.

End Keeps.

Lemma has_bucket_blind b : blind_to_clock_and_faults (has_bucket b).
Proof. intros w H. repeat split; intros; exact H. Qed.

Lemma no_record_blind id b : blind_to_clock_and_faults (no_record id b).
Proof. intros w [Hb Ht]. repeat split; intros; assumption. Qed.

Section Steps.

Context (I : World -> Prop) (blind : blind_to_clock_and_faults I).

Lemma keeps_remote_call : keeps I remote_call.
Proof.
  intros w H. unfold remote_call.
  destruct (faults w) as [|[e|] r]; simpl; [exact H| |]; now apply blind.
Qed.

Lemma keeps_utcnow : keeps I utcnow.
Proof. intros w H. now apply blind. Qed.

Lemma keeps_init a b c d e f g h i j k :
  keeps I (EmployeeModel.init a b c d e f g h i j k).
Proof.
  unfold EmployeeModel.init. apply keeps_bind; [apply keeps_utcnow|].
  intros t. apply keeps_ret.
Qed.

Lemma keeps_from_dict item : keeps I (EmployeeModel.from_dict item).
Proof. apply keeps_init. Qed.

Lemma keeps_get_item k : keeps I (DynamoDB.get_item k).
Proof.
  unfold DynamoDB.get_item. apply keeps_bind; [apply keeps_remote_call|].
  intros _. destruct (Py.truthy k); [apply keeps_gets | apply keeps_raise].
Qed.

Lemma keeps_scan f k : keeps I (DynamoDB.scan f k).
Proof.
  unfold DynamoDB.scan. apply keeps_bind; [apply keeps_remote_call|].
  intros _. apply keeps_gets.
Qed.

Lemma keeps_returning {A} (v : A) e : keeps I (Database.returning v e).
Proof. destruct e; apply keeps_ret. Qed.

Lemma keeps_get_employee id : keeps I (Database.get_employee id).
Proof.
  unfold Database.get_employee. apply keeps_try; [|apply keeps_returning].
  apply keeps_bind; [apply keeps_get_item|]. intros [item|]; [|apply keeps_ret].
  apply keeps_bind; [apply keeps_from_dict|]. intros e. apply keeps_ret.
Qed.

Lemma keeps_get_employee_by_email em : keeps I (Database.get_employee_by_email em).
Proof.
  unfold Database.get_employee_by_email. apply keeps_try; [|apply keeps_returning].
  apply keeps_bind; [apply keeps_scan|]. intros r.
  destruct (DynamoDB.Items r) as [|item items]; [apply keeps_ret|].
  apply keeps_bind; [apply keeps_from_dict|]. intros e. apply keeps_ret.
Qed.

End Steps.

Lemma keeps_put_item b it : keeps (has_bucket b) (DynamoDB.put_item it).
Proof.
  unfold DynamoDB.put_item.
  apply keeps_bind; [apply keeps_remote_call, has_bucket_blind|].
  intros _. destruct (Py.truthy (DynamoDB.item_key it)); [|apply keeps_raise].
  intros w H. exact H.
Qed.

Lemma keeps_create_employee b e : keeps (has_bucket b) (Database.create_employee e).
Proof.
  unfold Database.create_employee.
  apply keeps_try; [|apply keeps_returning].
  destruct (EmployeeModel.validate e) as [v errs].
  destruct (negb v); [apply keeps_ret|].
  apply keeps_bind; [apply keeps_get_employee, has_bucket_blind|].
  intros [existing|]; [apply keeps_ret|].
  apply keeps_bind; [apply keeps_put_item|]. intros _. apply keeps_ret.
Qed.

Lemma keeps_add_employee b e : keeps (has_bucket b) (Service.add_employee e).
Proof.
  unfold Service.add_employee, Service.add_employee_try.
  apply keeps_try; [|intros x; apply keeps_ret].
  destruct (EmployeeModel.validate e) as [v errs].
  destruct (negb v); [apply keeps_ret|].
  apply keeps_bind;
    [apply (keeps_get_employee_by_email _ (has_bucket_blind b))|].
  intros [existing|]; [apply keeps_ret|].
  apply keeps_bind; [apply keeps_create_employee|].
  intros [|]; apply keeps_ret.
Qed.

(** Before the record exists the service uploads nothing. *)
Lemma keeps_upload_before_record id b f name :
  keeps (no_record id b) (Service.upload_profile_picture f id name).
Proof.
  intros w [Hb Ht].
  unfold Service.upload_profile_picture, Service.upload_profile_picture_try,
    try_except, bind.
  cbn [db_get_employee employee_database].
  pose proof (keeps_get_employee _ (no_record_blind id b) id w (conj Hb Ht)) as K.
  assert (N : fst (Database.get_employee id w) = Ok None).
  { unfold Database.get_employee, DynamoDB.get_item, try_except, bind, remote_call,
      gets, raise, Database.returning, DynamoDB.key_error, ret.
    destruct (faults w) as [|[e|] r]; simpl.
    - destruct (Py.truthy id); simpl; [rewrite Ht|]; reflexivity.
    - destruct e; reflexivity.
    - destruct (Py.truthy id); simpl; [rewrite Ht|]; reflexivity. }
  destruct (Database.get_employee id w) as [r w']. simpl in N, K. subst r.
  exact K.
Qed.

Lemma keeps_required (I : World -> Prop) form k : keeps I (App.required form k).
Proof.
  unfold App.required. destruct (Py.dict_get form k); [apply keeps_ret|apply keeps_raise].
Qed.

Lemma no_record_has_bucket id b w : no_record id b w -> has_bucket b w.
Proof. now intros [H _]. Qed.

(** Whatever the request and whatever fails, the add handler leaves the
    blob store as it was when the identifier it draws is not yet the key of
    a record: no picture is uploaded. *)
Theorem add_handler_uploads_nothing (request : Request) (w : World) :
  DynamoDB.find_item (uuid4_str (env w) (uuids_drawn w)) (table w) = None ->
  bucket (snd (App.add_employee request w)) = bucket w.
Proof.
  intros Habsent. unfold App.add_employee.
  destruct (String.eqb (method request) "POST"); [|reflexivity].
  rewrite run_try_bind. unfold uuid4 at 1. cbv beta iota. cbn [fst].
  set (id := uuid4_str (env w) (uuids_drawn w)) in *.
  set (b := bucket w).
  assert (H1 : no_record id b (set_uuids_drawn (S (uuids_drawn w)) w))
    by (split; [reflexivity | exact Habsent]).
  match goal with
  | |- bucket (snd (try_except ?body ?handler ?w1)) = _ =>
      cut (leads (no_record id b) (try_except body handler) (has_bucket b));
        [intros L; exact (L w1 H1)|]
  end.
  apply leads_try; [|intros e; apply keeps_ret].
  do 5 (apply leads_bind;
        [apply keeps_required | intros ? | apply no_record_has_bucket]).
  cbv zeta.
  apply leads_bind; [| |apply no_record_has_bucket].
  - destruct (Py.dict_get (files request) "profile_picture") as [file|];
      [|apply keeps_ret].
    destruct (Py.truthy (filename file) && negb (String.eqb (filename file) "")
              && App.allowed_file (filename file)); [|apply keeps_ret].
    apply keeps_bind; [apply keeps_gets|]. intros name.
    apply keeps_upload_before_record.
  - intros url. apply leads_from; [apply no_record_has_bucket|].
    apply keeps_bind; [apply keeps_init, has_bucket_blind|]. intros employee.
    apply keeps_bind; [apply keeps_add_employee|].
    intros [|]; apply keeps_ret.
Qed.

(** The handler at an empty directory. *)
Lemma add_handler_witness :
  bucket (snd (App.add_employee picture_request empty_directory))
  = bucket empty_directory.
Proof.
  apply (add_handler_uploads_nothing picture_request empty_directory).
  reflexivity.
Defined.

(* ------------------------------------------------------------------ *)
(** ** What the code does where a claim fails on it *)

(** C8.  The record with the email is on the second page of the scan:
    [get_employee_by_email] makes one Scan call and finds nothing, where the
    search by department follows the pages and returns both records. *)
Lemma email_lookup_misses_second_page :
  with_email "c@d.com" (table second_page) = [EmployeeModel.to_dict Sample.e2]
  /\ fst (Database.get_employee_by_email "c@d.com" second_page) = Ok None
  /\ fst (Database.search_employees_by_department "Engineering" second_page)
     = Ok [Sample.e1; Sample.e2].
Proof. vm_compute. repeat split; reflexivity. Qed.

(** C1.  One record has the email, on the second page of the scan: adding a
    valid record with that email succeeds, and two records have it. *)
Lemma second_add_creates_duplicate :
  List.length (with_email "c@d.com" (table second_page)) = 1
  /\ fst (EmployeeModel.validate Sample.e3) = true
  /\ fst (Service.add_employee Sample.e3 second_page) = Ok true
  /\ List.length
       (with_email "c@d.com"
          (table (snd (Service.add_employee Sample.e3 second_page)))) = 2.
Proof. vm_compute. repeat split; reflexivity. Qed.

(** C4.  [e2] owns the email, on the second page of the scan: the update of
    [e1] to that email succeeds, and both records have it. *)
Lemma update_takes_owned_email :
  stored second_page "e1" Sample.e1
  /\ stored second_page "e2" Sample.e2
  /\ fst (Service.update_employee (Sample.employee "e1" "c@d.com") second_page)
     = Ok true
  /\ map (fun item => Py.dict_get item "email")
       (table (snd (Service.update_employee (Sample.employee "e1" "c@d.com")
                      second_page)))
     = [Some "c@d.com"; Some "c@d.com"].
Proof. vm_compute. repeat split; reflexivity. Qed.

(** C3.  The add handler asks the service to upload the picture before the
    record exists; the service finds no employee and uploads nothing, and
    the record is created with no picture reference. *)
Lemma add_with_picture_uploads_nothing :
  fst (App.add_employee picture_request empty_directory)
    = Ok ([("Employee added successfully!", "success")], Redirect "index")
  /\ bucket (snd (App.add_employee picture_request empty_directory)) = []
  /\ map (fun item => Py.dict_get item "profile_picture_url")
       (table (snd (App.add_employee picture_request empty_directory)))
     = [Some ""]
  /\ match fst (Service.get_employee "11111111-1111-4111-8111-111111111111"
                  (snd (App.add_employee picture_request empty_directory))) with
     | Ok (Some e) => profile_picture_url e = ""
     | _ => False
     end.
Proof. vm_compute. repeat split; reflexivity. Qed.

(** C10, the statement as given fails: the listing inside [delete_employee]
    fails and the method returns [True]; the upload inside
    [upload_profile_picture] fails and the method returns [None]. *)
Lemma failure_not_surfaced_as_false :
  ~ failure_surfaced (Service.delete_employee "e1") cleanup_fails
  /\ a_call_failed upload_fails
       (snd (Service.upload_profile_picture "bytes" "e1" "me.png" upload_fails))
     = true
  /\ fst (Service.upload_profile_picture "bytes" "e1" "me.png" upload_fails)
     = Ok None.
Proof.
  split; [|split; vm_compute; reflexivity].
  intros H.
  assert (A : a_call_failed cleanup_fails
                (snd (Service.delete_employee "e1" cleanup_fails)) = true)
    by (vm_compute; reflexivity).
  specialize (H A). vm_compute in H. discriminate H.
Qed.

(* ------------------------------------------------------------------ *)
(** ** Invariants of the adapters *)

Lemma stores_are_blind t b : blind_to_clock_and_faults (stores_are t b).
Proof. intros w [Ht Hb]. repeat split; intros; assumption. Qed.

Lemma has_table_blind t : blind_to_clock_and_faults (has_table t).
Proof. intros w H. repeat split; intros; exact H. Qed.

Lemma has_table_blind_to_objects t : blind_to_objects (has_table t).
Proof. intros w H. split; intros; exact H. Qed.

Lemma has_bucket_blind_to_records b : blind_to_records (has_bucket b).
Proof. intros w H t. exact H. Qed.

Lemma record_is_blind k v : blind_to_clock_and_faults (record_is k v).
Proof. intros w H. repeat split; intros; exact H. Qed.

Section Readers.

Context (I : World -> Prop) (blind : blind_to_clock_and_faults I).

Lemma keeps_uuid4 : keeps I uuid4.
Proof. intros w H. now apply blind. Qed.

Lemma keeps_update_timestamp e : keeps I (EmployeeModel.update_timestamp e).
Proof.
  unfold EmployeeModel.update_timestamp. apply keeps_bind.
  - now apply keeps_utcnow.
  - intros t. apply keeps_ret.
Qed.

Lemma keeps_describe_table : keeps I DynamoDB.describe_table.
Proof.
  unfold DynamoDB.describe_table. apply keeps_bind.
  - now apply keeps_remote_call.
  - intros _. apply keeps_gets.
Qed.

Lemma keeps_db_health_check : keeps I Database.health_check.
Proof.
  unfold Database.health_check. apply keeps_try.
  - apply keeps_bind; [apply keeps_describe_table|]. intros s. apply keeps_ret.
  - intros e. apply keeps_ret.
Qed.

Lemma keeps_from_dicts items : keeps I (for_each EmployeeModel.from_dict items).
Proof.
  induction items as [|item items IH]; simpl.
  - apply keeps_ret.
  - apply keeps_bind; [now apply keeps_from_dict|]. intros e.
    apply keeps_bind; [exact IH|]. intros es. apply keeps_ret.
Qed.

Lemma keeps_scan_while rounds f : forall response employees,
  keeps I (Database.scan_while rounds f response employees).
Proof.
  induction rounds as [|rounds IH]; intros response employees; simpl.
  - destruct (DynamoDB.LastEvaluatedKey response); apply keeps_ret.
  - destruct (DynamoDB.LastEvaluatedKey response) as [k|]; [|apply keeps_ret].
    apply keeps_bind; [now apply keeps_scan|]. intros r.
    apply keeps_bind; [apply keeps_from_dicts|]. intros more. apply IH.
Qed.

Lemma keeps_scan_all f : keeps I (Database.scan_all f).
Proof.
  unfold Database.scan_all. apply keeps_try; [|apply keeps_returning].
  apply keeps_bind; [now apply keeps_scan|]. intros r.
  apply keeps_bind; [apply keeps_from_dicts|]. intros es.
  apply keeps_bind; [apply keeps_gets|]. intros n. apply keeps_scan_while.
Qed.

Lemma keeps_list_objects p n k : keeps I (S3.list_objects_v2 p n k).
Proof.
  unfold S3.list_objects_v2. apply keeps_bind; [now apply keeps_remote_call|].
  intros _. apply keeps_gets.
Qed.

Lemma keeps_head_object key : keeps I (S3.head_object key).
Proof.
  unfold S3.head_object. apply keeps_bind; [now apply keeps_remote_call|].
  intros _. apply keeps_bind; [apply keeps_gets|].
  intros [o|]; [apply keeps_ret | apply keeps_raise].
Qed.

Lemma keeps_presigned key n : keeps I (S3.generate_presigned_url key n).
Proof. apply keeps_gets. Qed.

Lemma keeps_get_bucket_location : keeps I S3.get_bucket_location.
Proof.
  unfold S3.get_bucket_location. apply keeps_bind; [now apply keeps_remote_call|].
  intros _. apply keeps_gets.
Qed.

Lemma keeps_paginate_from rounds : forall token, keeps I (S3.paginate_from rounds token).
Proof.
  induction rounds as [|rounds IH]; intros token; simpl; [apply keeps_ret|].
  apply keeps_bind; [apply keeps_list_objects|]. intros page.
  destruct (S3.NextContinuationToken page) as [next|]; [|apply keeps_ret].
  apply keeps_bind; [apply IH|]. intros pages. apply keeps_ret.
Qed.

Lemma keeps_paginate : keeps I S3.paginate.
Proof.
  unfold S3.paginate. apply keeps_bind; [apply keeps_gets|].
  intros n. apply keeps_paginate_from.
Qed.

Lemma keeps_storage_returning {A} (v : A) e : keeps I (Storage.returning v e).
Proof. destruct e; apply keeps_ret. Qed.

Lemma keeps_get_profile_picture_url id : keeps I (Storage.get_profile_picture_url id).
Proof.
  unfold Storage.get_profile_picture_url.
  apply keeps_try; [|apply keeps_storage_returning].
  apply keeps_bind; [apply keeps_list_objects|]. intros r.
  destruct (S3.Contents r) as [[|first rest]|]; try apply keeps_ret.
  apply keeps_bind; [apply keeps_presigned|]. intros u. apply keeps_ret.
Qed.

Lemma keeps_document_info obj : keeps I (Storage.document_info obj).
Proof.
  unfold Storage.document_info. apply keeps_try.
  - apply keeps_bind; [apply keeps_head_object|]. intros md.
    apply keeps_bind; [apply keeps_presigned|]. intros u. apply keeps_ret.
  - intros [m|m]; [apply keeps_ret | apply keeps_raise].
Qed.

Lemma keeps_document_infos objs : keeps I (for_each Storage.document_info objs).
Proof.
  induction objs as [|o objs IH]; simpl.
  - apply keeps_ret.
  - apply keeps_bind; [apply keeps_document_info|]. intros d.
    apply keeps_bind; [exact IH|]. intros ds. apply keeps_ret.
Qed.

Lemma keeps_list_employee_documents id : keeps I (Storage.list_employee_documents id).
Proof.
  unfold Storage.list_employee_documents.
  apply keeps_try; [|apply keeps_storage_returning].
  apply keeps_bind; [apply keeps_list_objects|]. intros r.
  destruct (S3.Contents r) as [contents|]; [|apply keeps_ret].
  apply keeps_bind; [apply keeps_document_infos|]. intros infos. apply keeps_ret.
Qed.

Lemma keeps_storage_health_check : keeps I Storage.health_check.
Proof.
  unfold Storage.health_check. apply keeps_try.
  - apply keeps_bind; [apply keeps_list_objects|]. intros r. apply keeps_ret.
  - intros e. apply keeps_ret.
Qed.

Lemma keeps_get_bucket_info : keeps I Storage.get_bucket_info.
Proof.
  unfold Storage.get_bucket_info. apply keeps_bind; [apply keeps_gets|].
  intros name. apply keeps_try.
  - apply keeps_bind; [apply keeps_get_bucket_location|]. intros l.
    apply keeps_bind; [apply keeps_paginate|]. intros pages. apply keeps_ret.
  - intros e. apply keeps_ret.
Qed.

(** The reading methods of the service. *)

Lemma keeps_refresh_picture e : keeps I (Service.refresh_picture e).
Proof.
  unfold Service.refresh_picture.
  apply keeps_bind; [apply keeps_get_profile_picture_url|].
  intros [url|]; [|apply keeps_ret]. destruct (Py.truthy url); apply keeps_ret.
Qed.

Lemma keeps_refresh_pictures es : keeps I (for_each Service.refresh_picture es).
Proof.
  induction es as [|e es IH]; simpl.
  - apply keeps_ret.
  - apply keeps_bind; [apply keeps_refresh_picture|]. intros x.
    apply keeps_bind; [exact IH|]. intros xs. apply keeps_ret.
Qed.

Lemma keeps_service_get_employee id : keeps I (Service.get_employee id).
Proof.
  unfold Service.get_employee, Service.get_employee_try.
  apply keeps_try; [|intros e; apply keeps_ret].
  apply keeps_bind; [now apply keeps_get_employee|].
  intros [e|]; [|apply keeps_ret].
  apply keeps_bind; [apply keeps_refresh_picture|]. intros x. apply keeps_ret.
Qed.

Lemma keeps_service_get_all : keeps I Service.get_all_employees.
Proof.
  unfold Service.get_all_employees, Service.get_all_employees_try.
  apply keeps_try; [|intros e; apply keeps_ret].
  apply keeps_bind; [apply keeps_scan_all|]. intros es. apply keeps_refresh_pictures.
Qed.

Lemma keeps_service_search_department d :
  keeps I (Service.search_employees_by_department d).
Proof.
  unfold Service.search_employees_by_department,
    Service.search_employees_by_department_try.
  apply keeps_try; [|intros e; apply keeps_ret].
  apply keeps_bind; [apply keeps_scan_all|]. intros es. apply keeps_refresh_pictures.
Qed.

Lemma keeps_service_search_position p :
  keeps I (Service.search_employees_by_position p).
Proof.
  unfold Service.search_employees_by_position,
    Service.search_employees_by_position_try.
  apply keeps_try; [|intros e; apply keeps_ret].
  apply keeps_bind; [apply keeps_scan_all|]. intros es. apply keeps_refresh_pictures.
Qed.

Lemma keeps_service_documents id : keeps I (Service.get_employee_documents id).
Proof.
  unfold Service.get_employee_documents, Service.get_employee_documents_try.
  apply keeps_try; [|intros e; apply keeps_ret].
  apply keeps_bind; [now apply keeps_get_employee|].
  intros [e|]; [apply keeps_list_employee_documents | apply keeps_ret].
Qed.

Lemma keeps_service_departments : keeps I Service.get_departments.
Proof.
  unfold Service.get_departments, Service.get_departments_try.
  apply keeps_try; [|intros e; apply keeps_ret].
  apply keeps_bind; [apply keeps_scan_all|]. intros es. apply keeps_ret.
Qed.

Lemma keeps_service_positions : keeps I Service.get_positions.
Proof.
  unfold Service.get_positions, Service.get_positions_try.
  apply keeps_try; [|intros e; apply keeps_ret].
  apply keeps_bind; [apply keeps_scan_all|]. intros es. apply keeps_ret.
Qed.

Lemma keeps_service_statistics : keeps I Service.get_statistics.
Proof.
  unfold Service.get_statistics, Service.get_statistics_try.
  apply keeps_try; [|intros e; apply keeps_ret].
  apply keeps_bind; [apply keeps_scan_all|]. intros es.
  apply keeps_bind; [apply keeps_service_departments|]. intros ds.
  apply keeps_bind; [apply keeps_service_positions|]. intros ps.
  apply keeps_bind; [apply keeps_get_bucket_info|]. intros info. apply keeps_ret.
Qed.

Lemma keeps_service_health_check : keeps I Service.health_check.
Proof.
  unfold Service.health_check, Service.health_check_try.
  apply keeps_try; [|intros e; apply keeps_ret].
  apply keeps_bind; [apply keeps_db_health_check|]. intros d.
  apply keeps_bind; [apply keeps_storage_health_check|]. intros s. apply keeps_ret.
Qed.

End Readers.

Lemma keeps_read_only {A} (m : M World A) :
  (forall t b, keeps (stores_are t b) m) -> read_only m.
Proof. intros H w. exact (H (table w) (bucket w) w (conj eq_refl eq_refl)). Qed.

(** The methods of the service that read change neither store, whatever
    fails along the way. *)
Theorem reads_change_nothing :
  (forall id, read_only (Service.get_employee id))
  /\ read_only Service.get_all_employees
  /\ (forall d, read_only (Service.search_employees_by_department d))
  /\ (forall p, read_only (Service.search_employees_by_position p))
  /\ (forall id, read_only (Service.get_employee_documents id))
  /\ read_only Service.get_departments
  /\ read_only Service.get_positions
  /\ read_only Service.get_statistics
  /\ read_only Service.health_check.
Proof.
  repeat match goal with |- _ /\ _ => split end;
    intros; apply keeps_read_only; intros t b.
  - apply keeps_service_get_employee, stores_are_blind.
  - apply keeps_service_get_all, stores_are_blind.
  - apply keeps_service_search_department, stores_are_blind.
  - apply keeps_service_search_position, stores_are_blind.
  - apply keeps_service_documents, stores_are_blind.
  - apply keeps_service_departments, stores_are_blind.
  - apply keeps_service_positions, stores_are_blind.
  - apply keeps_service_statistics, stores_are_blind.
  - apply keeps_service_health_check, stores_are_blind.
Qed.

(* ------------------------------------------------------------------ *)
(** ** Each store has its own writers *)

Section RecordWriters.

Context (I : World -> Prop) (blind : blind_to_clock_and_faults I)
        (blind_records : blind_to_records I).

Lemma keeps_put_item_blind it : keeps I (DynamoDB.put_item it).
Proof.
  unfold DynamoDB.put_item. apply keeps_bind; [now apply keeps_remote_call|].
  intros _. destruct (Py.truthy (DynamoDB.item_key it)); [|apply keeps_raise].
  intros w H. now apply blind_records.
Qed.

Lemma keeps_delete_item_blind k : keeps I (DynamoDB.delete_item k).
Proof.
  unfold DynamoDB.delete_item. apply keeps_bind; [now apply keeps_remote_call|].
  intros _. destruct (Py.truthy k); [|apply keeps_raise].
  intros w H. now apply blind_records.
Qed.

End RecordWriters.

Lemma keeps_bind_bind {W A B C} (I : W -> Prop) (m : M W A) (k1 : A -> M W B)
    (k2 : B -> M W C) :
  keeps I m -> (forall a, keeps I (bind (k1 a) k2)) ->
  keeps I (bind (bind m k1) k2).
Proof.
  intros Hm Hk w H. unfold bind at 1 2. specialize (Hm w H).
  destruct (m w) as [[a|e] w']; simpl in *; [|exact Hm].
  exact (Hk a w' Hm).
Qed.

Lemma keeps_bind_ret {W A B} (I : W -> Prop) (a : A) (k : A -> M W B) :
  keeps I (k a) -> keeps I (bind (ret a) k).
Proof. intros Hk w H. exact (Hk w H). Qed.

(** The writers of the database layer and of the service, for an invariant
    that the writes under the key [k] keep. *)
Section WritersAt.

Context (I : World -> Prop) (blind : blind_to_clock_and_faults I) (k : string)
        (Hput : forall it, DynamoDB.item_key it = k -> keeps I (DynamoDB.put_item it))
        (Hdel : keeps I (DynamoDB.delete_item k)).

Lemma keeps_create_at e :
  employee_id e = k -> keeps I (Database.create_employee e).
Proof.
  intros Hk. unfold Database.create_employee.
  apply keeps_try; [|apply keeps_returning].
  destruct (EmployeeModel.validate e) as [v errs].
  destruct (negb v); [apply keeps_ret|].
  apply keeps_bind; [now apply keeps_get_employee|].
  intros [existing|]; [apply keeps_ret|].
  apply keeps_bind; [now apply Hput|]. intros _. apply keeps_ret.
Qed.

Lemma keeps_update_at e :
  employee_id e = k -> keeps I (Database.update_employee e).
Proof.
  intros Hk. unfold Database.update_employee.
  apply keeps_try; [|apply keeps_returning].
  destruct (EmployeeModel.validate e) as [v errs].
  destruct (negb v); [apply keeps_ret|].
  apply keeps_bind; [now apply keeps_get_employee|].
  intros [existing|]; [|apply keeps_ret].
  unfold EmployeeModel.update_timestamp.
  apply keeps_bind_bind; [now apply keeps_utcnow|]. intros t.
  apply keeps_bind_ret.
  apply keeps_bind; [now apply Hput|]. intros _. apply keeps_ret.
Qed.

Lemma keeps_delete_at : keeps I (Database.delete_employee k).
Proof.
  unfold Database.delete_employee.
  apply keeps_try; [|apply keeps_returning].
  apply keeps_bind; [now apply keeps_get_employee|].
  intros [existing|]; [|apply keeps_ret].
  apply keeps_bind; [exact Hdel|]. intros _. apply keeps_ret.
Qed.

Lemma keeps_service_add_at e :
  employee_id e = k -> keeps I (Service.add_employee e).
Proof.
  intros Hk. unfold Service.add_employee, Service.add_employee_try.
  apply keeps_try; [|intros x; apply keeps_ret].
  destruct (EmployeeModel.validate e) as [v errs].
  destruct (negb v); [apply keeps_ret|].
  apply keeps_bind; [now apply keeps_get_employee_by_email|].
  intros [existing|]; [apply keeps_ret|].
  apply keeps_bind; [now apply keeps_create_at|].
  intros [|]; apply keeps_ret.
Qed.

Lemma keeps_service_update_at e :
  employee_id e = k -> keeps I (Service.update_employee e).
Proof.
  intros Hk. unfold Service.update_employee, Service.update_employee_try.
  apply keeps_try; [|intros x; apply keeps_ret].
  destruct (EmployeeModel.validate e) as [v errs].
  destruct (negb v); [apply keeps_ret|].
  apply keeps_bind; [now apply keeps_get_employee|].
  intros [existing|]; [|apply keeps_ret].
  apply keeps_bind.
  - destruct (negb (String.eqb (email existing) (email e))); [|apply keeps_ret].
    apply keeps_bind; [now apply keeps_get_employee_by_email|].
    intros [other|]; apply keeps_ret.
  - intros [|]; [apply keeps_ret|].
    apply keeps_bind; [now apply keeps_update_at|].
    intros [|]; apply keeps_ret.
Qed.

End WritersAt.

(** The writers of the storage layer, for an invariant that does not look
    at the objects. *)
Section ObjectWriters.

Context (I : World -> Prop) (blind : blind_to_clock_and_faults I)
        (blind_objects : blind_to_objects I).

Lemma keeps_upload_fileobj body key ct md : keeps I (S3.upload_fileobj body key ct md).
Proof.
  unfold S3.upload_fileobj. apply keeps_bind; [now apply keeps_remote_call|].
  intros _ w H. apply blind_objects. now apply blind_objects.
Qed.

Lemma keeps_delete_objects keys : keeps I (S3.delete_objects keys).
Proof.
  unfold S3.delete_objects. apply keeps_bind; [now apply keeps_remote_call|].
  intros _. destruct (S3.MAX_KEYS <? List.length keys); [apply keeps_raise|].
  intros w H. now apply blind_objects.
Qed.

Lemma keeps_delete_object key : keeps I (S3.delete_object key).
Proof.
  unfold S3.delete_object. apply keeps_bind; [now apply keeps_remote_call|].
  intros _ w H. now apply blind_objects.
Qed.

Lemma keeps_object_url key : keeps I (Storage.object_url key).
Proof. apply keeps_gets. Qed.

Lemma keeps_storage_upload_picture f id name :
  keeps I (Storage.upload_profile_picture f id name).
Proof.
  unfold Storage.upload_profile_picture.
  apply keeps_try; [|now apply keeps_storage_returning].
  apply keeps_bind; [now apply keeps_uuid4|]. intros u.
  apply keeps_bind; [apply keeps_gets|]. intros g.
  apply keeps_bind; [apply keeps_upload_fileobj|]. intros _.
  apply keeps_bind; [apply keeps_object_url|]. intros url. apply keeps_ret.
Qed.

Lemma keeps_storage_upload_document f id name type :
  keeps I (Storage.upload_document f id name type).
Proof.
  unfold Storage.upload_document.
  apply keeps_try; [|now apply keeps_storage_returning].
  apply keeps_bind; [now apply keeps_uuid4|]. intros u.
  apply keeps_bind; [apply keeps_gets|]. intros g.
  apply keeps_bind; [apply keeps_upload_fileobj|]. intros _.
  apply keeps_bind; [apply keeps_object_url|]. intros url. apply keeps_ret.
Qed.

Lemma keeps_storage_delete_picture id : keeps I (Storage.delete_profile_picture id).
Proof.
  unfold Storage.delete_profile_picture.
  apply keeps_try; [|now apply keeps_storage_returning].
  apply keeps_bind; [now apply keeps_list_objects|]. intros r.
  destruct (S3.Contents r) as [contents|]; [|apply keeps_ret].
  destruct (map Key contents); [apply keeps_ret|].
  apply keeps_bind; [apply keeps_delete_objects|]. intros _. apply keeps_ret.
Qed.

Lemma keeps_storage_delete_document key : keeps I (Storage.delete_document key).
Proof.
  unfold Storage.delete_document.
  apply keeps_try; [|now apply keeps_storage_returning].
  apply keeps_bind; [apply keeps_delete_object|]. intros _. apply keeps_ret.
Qed.

Lemma keeps_storage_delete_all id : keeps I (Storage.delete_all_employee_files id).
Proof.
  unfold Storage.delete_all_employee_files.
  apply keeps_try; [|now apply keeps_storage_returning].
  apply keeps_bind; [now apply keeps_list_objects|]. intros r1.
  apply keeps_bind; [now apply keeps_list_objects|]. intros r2.
  match goal with |- keeps _ (match ?l with _ => _ end) => destruct l end;
    [apply keeps_ret|].
  apply keeps_bind; [apply keeps_delete_objects|]. intros _. apply keeps_ret.
Qed.

Lemma keeps_service_upload_document f id name type :
  keeps I (Service.upload_document f id name type).
Proof.
  unfold Service.upload_document, Service.upload_document_try.
  apply keeps_try; [|intros x; apply keeps_ret].
  apply keeps_bind; [now apply keeps_get_employee|].
  intros [e|]; [apply keeps_storage_upload_document | apply keeps_ret].
Qed.

Lemma keeps_service_delete_document key : keeps I (Service.delete_document key).
Proof.
  unfold Service.delete_document, Service.delete_document_try.
  apply keeps_try; [|intros x; apply keeps_ret].
  apply keeps_storage_delete_document.
Qed.

End ObjectWriters.

Lemma keeps_service_delete_at (I : World -> Prop) k :
  blind_to_clock_and_faults I -> blind_to_objects I ->
  keeps I (DynamoDB.delete_item k) ->
  keeps I (Service.delete_employee k).
Proof.
  intros blind blind_objects Hdel.
  unfold Service.delete_employee, Service.delete_employee_try.
  apply keeps_try; [|intros x; apply keeps_ret].
  apply keeps_bind; [now apply keeps_get_employee|].
  intros [e|]; [|apply keeps_ret].
  apply keeps_bind; [now apply keeps_storage_delete_all|]. intros s.
  apply keeps_bind; [|intros [|]; apply keeps_ret].
  apply keeps_delete_at; assumption.
Qed.

Lemma find_put_other it t k :
  k <> DynamoDB.item_key it ->
  DynamoDB.find_item k (DynamoDB.put it t) = DynamoDB.find_item k t.
Proof.
  intros Hk. induction t as [|x t IH]; simpl.
  - destruct (String.eqb (DynamoDB.item_key it) k) eqn:E; [|reflexivity].
    apply String.eqb_eq in E. congruence.
  - destruct (String.eqb (DynamoDB.item_key x) (DynamoDB.item_key it)) eqn:E; simpl.
    + apply String.eqb_eq in E.
      destruct (String.eqb (DynamoDB.item_key it) k) eqn:E1.
      * apply String.eqb_eq in E1. congruence.
      * rewrite E, E1. reflexivity.
    + destruct (String.eqb (DynamoDB.item_key x) k); [reflexivity | exact IH].
Qed.

Lemma find_remove_other k' t k :
  k <> k' -> DynamoDB.find_item k (DynamoDB.remove k' t) = DynamoDB.find_item k t.
Proof.
  intros Hk. induction t as [|x t IH]; simpl; [reflexivity|].
  destruct (String.eqb (DynamoDB.item_key x) k') eqn:E; simpl.
  - apply String.eqb_eq in E.
    destruct (String.eqb (DynamoDB.item_key x) k) eqn:E1; [|exact IH].
    apply String.eqb_eq in E1. congruence.
  - destruct (String.eqb (DynamoDB.item_key x) k); [reflexivity | exact IH].
Qed.

Lemma record_is_blind_to_objects k v : blind_to_objects (record_is k v).
Proof. intros w H. split; intros; exact H. Qed.

Lemma keeps_put_other k' v it :
  k' <> DynamoDB.item_key it -> keeps (record_is k' v) (DynamoDB.put_item it).
Proof.
  intros Hk. unfold DynamoDB.put_item.
  apply keeps_bind; [apply keeps_remote_call, record_is_blind|].
  intros _. destruct (Py.truthy (DynamoDB.item_key it)); [|apply keeps_raise].
  intros w H. unfold record_is, modify in *. cbn [snd table set_table].
  now rewrite find_put_other.
Qed.

Lemma keeps_delete_other k' v k :
  k' <> k -> keeps (record_is k' v) (DynamoDB.delete_item k).
Proof.
  intros Hk. unfold DynamoDB.delete_item.
  apply keeps_bind; [apply keeps_remote_call, record_is_blind|].
  intros _. destruct (Py.truthy k); [|apply keeps_raise].
  intros w H. unfold record_is, modify in *. cbn [snd table set_table].
  now rewrite find_remove_other.
Qed.

Lemma keeps_touches_only {A} k (m : M World A) :
  (forall k' v, k' <> k -> keeps (record_is k' v) m) -> touches_only k m.
Proof. intros H w k' Hk. exact (H k' _ Hk w eq_refl). Qed.

Lemma keeps_leaves_objects {A} (m : M World A) :
  (forall b, keeps (has_bucket b) m) -> leaves_objects m.
Proof. intros H w. exact (H (bucket w) w eq_refl). Qed.

Lemma keeps_leaves_records {A} (m : M World A) :
  (forall t, keeps (has_table t) m) -> leaves_records m.
Proof. intros H w. exact (H (table w) w eq_refl). Qed.

(** A write of a record is a write of that record alone: creating,
    updating and deleting, in the database layer and in the service, leave
    the record under every other key as it is, whatever fails. *)
Theorem writes_touch_one_record :
  (forall e, touches_only (employee_id e) (Database.create_employee e))
  /\ (forall e, touches_only (employee_id e) (Database.update_employee e))
  /\ (forall id, touches_only id (Database.delete_employee id))
  /\ (forall e, touches_only (employee_id e) (Service.add_employee e))
  /\ (forall e, touches_only (employee_id e) (Service.update_employee e))
  /\ (forall id, touches_only id (Service.delete_employee id)).
Proof.
  repeat match goal with |- _ /\ _ => split end;
    intros; apply keeps_touches_only; intros k' v Hk.
  - apply (keeps_create_at _ (record_is_blind k' v) (employee_id e)); [|reflexivity].
    intros it Hit. apply keeps_put_other. congruence.
  - apply (keeps_update_at _ (record_is_blind k' v) (employee_id e)); [|reflexivity].
    intros it Hit. apply keeps_put_other. congruence.
  - apply (keeps_delete_at _ (record_is_blind k' v)). now apply keeps_delete_other.
  - apply (keeps_service_add_at _ (record_is_blind k' v) (employee_id e)); [|reflexivity].
    intros it Hit. apply keeps_put_other. congruence.
  - apply (keeps_service_update_at _ (record_is_blind k' v) (employee_id e));
      [|reflexivity].
    intros it Hit. apply keeps_put_other. congruence.
  - apply keeps_service_delete_at;
      [apply record_is_blind | apply record_is_blind_to_objects |].
    now apply keeps_delete_other.
Qed.

(** The record store and the blob store have separate writers: adding and
    updating a record leave every object as it is, and the uploads and
    deletions of the storage layer, and the two document methods of the
    service, leave every record as it is, whatever fails. *)
Theorem stores_have_separate_writers :
  (forall e, leaves_objects (Database.create_employee e))
  /\ (forall e, leaves_objects (Database.update_employee e))
  /\ (forall id, leaves_objects (Database.delete_employee id))
  /\ (forall e, leaves_objects (Service.add_employee e))
  /\ (forall e, leaves_objects (Service.update_employee e))
  /\ (forall f id name, leaves_records (Storage.upload_profile_picture f id name))
  /\ (forall id, leaves_records (Storage.delete_profile_picture id))
  /\ (forall f id name type, leaves_records (Storage.upload_document f id name type))
  /\ (forall key, leaves_records (Storage.delete_document key))
  /\ (forall id, leaves_records (Storage.delete_all_employee_files id))
  /\ (forall f id name type, leaves_records (Service.upload_document f id name type))
  /\ (forall key, leaves_records (Service.delete_document key)).
Proof.
  repeat match goal with |- _ /\ _ => split end; intros.
  - apply keeps_leaves_objects. intros b.
    apply (keeps_create_at _ (has_bucket_blind b) (employee_id e)); [|reflexivity].
    intros it _. apply keeps_put_item.
  - apply keeps_leaves_objects. intros b.
    apply (keeps_update_at _ (has_bucket_blind b) (employee_id e)); [|reflexivity].
    intros it _. apply keeps_put_item.
  - apply keeps_leaves_objects. intros b.
    apply (keeps_delete_at _ (has_bucket_blind b)).
    apply keeps_delete_item_blind;
      [apply has_bucket_blind | apply has_bucket_blind_to_records].
  - apply keeps_leaves_objects. intros b. apply keeps_add_employee.
  - apply keeps_leaves_objects. intros b.
    apply (keeps_service_update_at _ (has_bucket_blind b) (employee_id e));
      [|reflexivity].
    intros it _. apply keeps_put_item.
  - apply keeps_leaves_records. intros t.
    apply keeps_storage_upload_picture;
      [apply has_table_blind | apply has_table_blind_to_objects].
  - apply keeps_leaves_records. intros t.
    apply keeps_storage_delete_picture;
      [apply has_table_blind | apply has_table_blind_to_objects].
  - apply keeps_leaves_records. intros t.
    apply keeps_storage_upload_document;
      [apply has_table_blind | apply has_table_blind_to_objects].
  - apply keeps_leaves_records. intros t.
    apply keeps_storage_delete_document;
      [apply has_table_blind | apply has_table_blind_to_objects].
  - apply keeps_leaves_records. intros t.
    apply keeps_storage_delete_all;
      [apply has_table_blind | apply has_table_blind_to_objects].
  - apply keeps_leaves_records. intros t.
    apply keeps_service_upload_document;
      [apply has_table_blind | apply has_table_blind_to_objects].
  - apply keeps_leaves_records. intros t.
    apply keeps_service_delete_document;
      [apply has_table_blind | apply has_table_blind_to_objects].
Qed.

(* ------------------------------------------------------------------ *)
(** ** Operations on an employee that is not there *)

(** For an id with no record, every operation on that employee answers its
    empty value and changes neither store, whatever fails: the updates and
    the delete of the database layer, and in the service the update, both
    picture methods and both document methods. *)
Theorem unknown_employee_is_refused (id : string) (w : World) :
  DynamoDB.find_item id (table w) = None ->
  (forall e, employee_id e = id -> refused (Database.update_employee e) false w)
  /\ refused (Database.delete_employee id) false w
  /\ (forall e, employee_id e = id -> refused (Service.update_employee e) false w)
  /\ (forall f name, refused (Service.upload_profile_picture f id name) None w)
  /\ refused (Service.delete_profile_picture id) false w
  /\ (forall f name type, refused (Service.upload_document f id name type) None w)
  /\ refused (Service.get_employee_documents id) [] w.
Proof.
  intros H. destruct (get_employee_absent w id H) as [w' [E [Ht Hb]]].
  assert (R : forall A (v : A), refused (fun _ => (Ok v, w')) v w)
    by (intros A v; exists w'; auto).
  repeat match goal with |- _ /\ _ => split end.
  - intros e He. subst id. unfold refused, Database.update_employee, try_except, bind.
    destruct (EmployeeModel.validate e) as [[|] errs]; cbn [negb].
    + rewrite E. apply (R bool false).
    + exists w. auto.
  - unfold refused, Database.delete_employee, try_except, bind. rewrite E.
    apply (R bool false).
  - intros e He. subst id.
    unfold refused, Service.update_employee, Service.update_employee_try,
      try_except, bind.
    cbn [db_get_employee employee_database].
    destruct (EmployeeModel.validate e) as [[|] errs]; cbn [negb].
    + rewrite E. apply (R bool false).
    + exists w. auto.
  - intros f name.
    unfold refused, Service.upload_profile_picture,
      Service.upload_profile_picture_try, try_except, bind.
    cbn [db_get_employee employee_database]. rewrite E.
    apply (R (option string) None).
  - unfold refused, Service.delete_profile_picture,
      Service.delete_profile_picture_try, try_except, bind.
    cbn [db_get_employee employee_database]. rewrite E. apply (R bool false).
  - intros f name type.
    unfold refused, Service.upload_document, Service.upload_document_try,
      try_except, bind.
    cbn [db_get_employee employee_database]. rewrite E.
    apply (R (option string) None).
  - unfold refused, Service.get_employee_documents,
      Service.get_employee_documents_try, try_except, bind.
    cbn [db_get_employee employee_database]. rewrite E.
    apply (R (list DocumentInfo) []).
Qed.

(** The operations at a world that does not know [e3]. *)
Lemma unknown_employee_witness :
  (forall e, employee_id e = "e3" -> refused (Database.update_employee e) false two_files)
  /\ refused (Database.delete_employee "e3") false two_files
  /\ (forall e, employee_id e = "e3" -> refused (Service.update_employee e) false two_files)
  /\ (forall f name, refused (Service.upload_profile_picture f "e3" name) None two_files)
  /\ refused (Service.delete_profile_picture "e3") false two_files
  /\ (forall f name type, refused (Service.upload_document f "e3" name type) None two_files)
  /\ refused (Service.get_employee_documents "e3") [] two_files.
Proof.
  apply (unknown_employee_is_refused "e3" two_files). vm_compute. reflexivity.
Defined.

(** ** Creating a record *)

Lemma create_employee_ok w e :
  fault_free w ->
  fst (EmployeeModel.validate e) = true ->
  DynamoDB.find_item (employee_id e) (table w) = None ->
  Database.create_employee e w =
    (Ok true, set_table (DynamoDB.put (EmployeeModel.to_dict e) (table w)) w).
Proof.
  intros F V H. pose proof (valid_id e V) as T.
  unfold Database.create_employee, try_except, bind.
  destruct (EmployeeModel.validate e) as [v errs]. simpl in V. subst v. cbn [negb].
  rewrite (get_employee_ok w _ F T), H.
  rewrite (put_item_ok w _ F) by exact T.
  reflexivity.
Qed.







Lemma get_employee_by_email_runs w em :
  fault_free w ->
  exists r w', Database.get_employee_by_email em w = (Ok r, w')
               /\ later w w'.
Proof.
  intros F. unfold Database.get_employee_by_email, try_except.
  unfold bind at 1. rewrite (scan_ok w _ None F). cbv beta iota.
  destruct (DynamoDB.Items _) as [|item items].
  - exists None, w. split; [reflexivity | apply later_refl].
  - unfold bind. rewrite from_dict_run. eexists. exists (tick w).
    split; [reflexivity|]. exists (S (clock_reads w)). reflexivity.
Qed.

(** A key that is taken is not written again.  When no remote call fails,
    creating a valid record under a key that has a record returns [False]
    and leaves the records as they are, in the database layer and through
    the service. *)
Theorem create_refuses_taken_key (e : Employee) (w : World) :
  fault_free w ->
  DynamoDB.find_item (employee_id e) (table w) <> None ->
  (exists w', Database.create_employee e w = (Ok false, w') /\ table w' = table w)
  /\ (exists w', Service.add_employee e w = (Ok false, w') /\ table w' = table w).
Proof.
  intros F H.
  destruct (DynamoDB.find_item (employee_id e) (table w)) as [item|] eqn:Hitem;
    [clear H | congruence].
  assert (D : forall w0, later w w0 ->
            fst (EmployeeModel.validate e) = true ->
            exists w', Database.create_employee e w0 = (Ok false, w')
                       /\ table w' = table w).
  { intros w0 L V. pose proof (valid_id e V) as T.
    assert (F0 : fault_free w0) by exact (later_fault_free w w0 L F).
    unfold Database.create_employee, try_except, bind.
    destruct (EmployeeModel.validate e) as [v errs]. simpl in V. subst v. cbn [negb].
    rewrite (get_employee_ok w0 _ F0 T), (later_table w w0 L), Hitem.
    eexists. split; [reflexivity|]. exact (later_table w w0 L). }
  split.
  - destruct (fst (EmployeeModel.validate e)) eqn:V.
    + exact (D w (later_refl w) eq_refl).
    + exists w. split; [|reflexivity].
      unfold Database.create_employee, try_except.
      destruct (EmployeeModel.validate e) as [v errs]. simpl in V. now subst v.
  - unfold Service.add_employee, Service.add_employee_try, try_except, bind.
    cbn [db_get_employee_by_email db_create_employee employee_database].
    destruct (EmployeeModel.validate e) as [v errs] eqn:Ev. destruct v; cbn [negb].
    + destruct (get_employee_by_email_runs w (email e) F) as [r [w1 [E1 L1]]].
      rewrite E1. destruct r as [other|].
      * eexists. split; [reflexivity | exact (later_table w w1 L1)].
      * destruct (D w1 L1 eq_refl) as [w' [E' T']]. rewrite E'.
        eexists. split; [reflexivity | exact T'].
    + exists w. split; reflexivity.
Qed.

(** Creating [e1] again in the sample directory. *)
Lemma create_refuses_witness :
  (exists w', Database.create_employee e1 phone_change = (Ok false, w')
              /\ table w' = table phone_change)
  /\ (exists w', Service.add_employee e1 phone_change = (Ok false, w')
                 /\ table w' = table phone_change).
Proof.
  apply (create_refuses_taken_key e1 phone_change).
  - reflexivity.
  - vm_compute. discriminate.
Defined.

(* ------------------------------------------------------------------ *)
(** ** Keys and prefixes *)


Lemma prefix_app_cancel a p s :
  String.prefix (a ++ p)%string (a ++ s)%string = String.prefix p s.
Proof.
  induction a as [|c a IH]; simpl; [reflexivity|].
  destruct (ascii_dec c c) as [_|N]; [exact IH | now elim N].
Qed.

Lemma prefix_trans a b c :
  String.prefix a b = true -> String.prefix b c = true -> String.prefix a c = true.
Proof.
  revert b c. induction a as [|x a IH]; intros b c Hab Hbc; [now destruct c|].
  destruct b as [|y b]; [discriminate|]. destruct c as [|z c]; [discriminate|].
  simpl in *. destruct (ascii_dec x y) as [->|]; [|discriminate].
  destruct (ascii_dec y z) as [->|]; [|discriminate]. now apply IH with b.
Qed.

Lemma app_assoc_string a b c : ((a ++ b) ++ c)%string = (a ++ b ++ c)%string.
Proof. induction a as [|x a IH]; simpl; [reflexivity | now rewrite IH]. Qed.



Lemma prefix_head a p k :
  String.prefix (String a p) k = true -> exists k', k = String a k'.
Proof.
  destruct k as [|c k]; [discriminate|]. cbn [String.prefix].
  destruct (ascii_dec a c) as [<-|]; [eauto | discriminate].
Qed.

Lemma prefixes_apart k id id' :
  Py.startswith k (Storage.picture_prefix id) = true ->
  Py.startswith k (Storage.document_prefix id') = false.
Proof.
  unfold Py.startswith, Storage.picture_prefix, Storage.document_prefix,
    Storage.S3_PROFILE_PICTURES_PREFIX.
  intros H. apply (prefix_head "p") in H as [k' ->]. reflexivity.
Qed.

(** ** Objects under a prefix *)




Lemma remove_keys_prefix p b :
  S3.remove_keys (map Key (S3.with_prefix p b)) b = without_prefix p b.
Proof.
  unfold S3.remove_keys, without_prefix. apply filter_ext_in. intros o Ho. f_equal.
  destruct (Py.startswith (Key o) p) eqn:E.
  - apply existsb_key, in_map. unfold S3.with_prefix. apply filter_In. now split.
  - destruct (existsb (String.eqb (Key o)) (map Key (S3.with_prefix p b))) eqn:X;
      [|reflexivity].
    apply existsb_exists in X as [k [Hk Hek]]. apply String.eqb_eq in Hek. subst k.
    apply in_map_iff in Hk as [x [Hx Hin]]. unfold S3.with_prefix in Hin.
    apply filter_In in Hin as [_ Hp]. rewrite Hx in Hp. congruence.
Qed.

Lemma with_prefix_without p b : S3.with_prefix p (without_prefix p b) = [].
Proof.
  unfold S3.with_prefix, without_prefix. apply filter_none. intros o Ho.
  apply filter_In in Ho as [_ Ho]. now apply negb_true_iff in Ho.
Qed.

Lemma with_prefix_apart p q b :
  (forall k, Py.startswith k q = true -> Py.startswith k p = false) ->
  S3.with_prefix q (without_prefix p b) = S3.with_prefix q b.
Proof.
  intros H. unfold S3.with_prefix, without_prefix.
  induction b as [|o b IH]; simpl; [reflexivity|].
  destruct (Py.startswith (Key o) p) eqn:Ep; simpl.
  - destruct (Py.startswith (Key o) q) eqn:Eq; [|exact IH].
    rewrite (H _ Eq) in Ep. discriminate.
  - now rewrite IH.
Qed.

(* ------------------------------------------------------------------ *)
(** ** Running the storage methods *)

Lemma without_prefix_none p b : S3.with_prefix p b = [] -> without_prefix p b = b.
Proof. intros H. now rewrite <- remove_keys_prefix, H, remove_keys_nil. Qed.

Lemma delete_profile_picture_ok w id :
  fault_free w -> List.length (pictures_of id (bucket w)) <= S3.MAX_KEYS ->
  Storage.delete_profile_picture id w =
    (Ok true, set_bucket (without_prefix (Storage.picture_prefix id) (bucket w)) w).
Proof.
  intros F L. unfold pictures_of in L.
  unfold Storage.delete_profile_picture, try_except, bind.
  rewrite (list_objects_ok w _ F L). cbn [S3.Contents].
  rewrite <- remove_keys_prefix.
  destruct (S3.with_prefix (Storage.picture_prefix id) (bucket w)) as [|o r] eqn:E.
  - cbn [map]. now rewrite remove_keys_nil, set_bucket_same.
  - cbn [map]. unfold S3.delete_objects, bind. rewrite (remote_call_ok w F).
    assert (N : (S3.MAX_KEYS <? List.length (Key o :: map Key r)) = false).
    { apply Nat.ltb_ge. cbn [List.length] in *. now rewrite length_map. }
    rewrite N. reflexivity.
Qed.



Lemma stored_id w id e : stored w id e -> employee_id e = id.
Proof.
  intros S. rewrite <- (item_key_to_dict e).
  now apply find_item_key with (t := table w).
Qed.

Lemma service_get_item_ok w id item :
  fault_free w -> Py.truthy id = true ->
  DynamoDB.find_item id (table w) = Some item ->
  fst (Service.get_employee id w) =
    Ok (Some (refreshed w id (from_dict_at (now w) item))).
Proof.
  intros F T S.
  assert (K : employee_id (from_dict_at (now w) item) = id)
    by exact (find_item_key _ _ _ S).
  unfold Service.get_employee, Service.get_employee_try, Service.refresh_picture,
    try_except, bind.
  cbn [db_get_employee st_get_profile_picture_url employee_database employee_storage].
  rewrite (get_employee_ok w id F T), S, K.
  rewrite (get_profile_picture_url_ok (tick w) id F).
  change (bucket (tick w)) with (bucket w).
  change (read_url (tick w)) with (read_url w).
  unfold refreshed.
  destruct (pictures_of id (bucket w)) as [|first rest]; [reflexivity|].
  destruct (Py.truthy (read_url w (Key first))); reflexivity.
Qed.

Lemma from_dict_picture t e :
  profile_picture_url (from_dict_at t (EmployeeModel.to_dict e)) = profile_picture_url e.
Proof.
  destruct e. unfold from_dict_at, EmployeeModel.init_at, Py.get_default. simpl.
  apply or_empty.
Qed.

Lemma validate_ignores_picture url e :
  EmployeeModel.validate (EmployeeModel.set_profile_picture_url url e)
  = EmployeeModel.validate e.
Proof. reflexivity. Qed.


(** ** Pictures *)


Lemma without_prefix_put p o b :
  Py.startswith (Key o) p = true ->
  without_prefix p (S3.put_object o b) = without_prefix p b.
Proof.
  intros Ho. unfold without_prefix.
  induction b as [|x b IH]; simpl; [now rewrite Ho|].
  destruct (String.compare (Key o) (Key x)) eqn:E; simpl.
  - apply String.compare_eq_iff in E. rewrite <- E, Ho. reflexivity.
  - now rewrite Ho.
  - now rewrite IH.
Qed.

Lemma without_prefix_idem p b : without_prefix p (without_prefix p b) = without_prefix p b.
Proof.
  unfold without_prefix. apply filter_all. intros o Ho.
  now apply filter_In in Ho as [_ Ho].
Qed.




Lemma service_delete_picture_ok id e w :
  fault_free w -> stored w id e -> timestamped e ->
  fst (EmployeeModel.validate e) = true ->
  List.length (pictures_of id (bucket w)) <= S3.MAX_KEYS ->
  Service.delete_profile_picture id w =
    (Ok true,
     set_table (DynamoDB.put (EmployeeModel.to_dict (with_picture w "" e)) (table w))
       (tick (tick (set_bucket (without_prefix (Storage.picture_prefix id) (bucket w))
                      (tick w))))).
Proof.
  intros F S Ts V L.
  pose proof (stored_id w id e S) as K.
  pose proof (valid_id e V) as T. rewrite K in T.
  unfold Service.delete_profile_picture, Service.delete_profile_picture_try,
    try_except at 1.
  unfold bind at 1.
  cbn [db_get_employee db_update_employee st_delete_profile_picture
       employee_database employee_storage].
  rewrite (get_employee_ok w id F T). unfold stored in S. rewrite S.
  rewrite (from_dict_to_dict _ e Ts).
  unfold bind at 1. rewrite (delete_profile_picture_ok (tick w) id F L).
  cbv iota. unfold bind at 1.
  erewrite update_employee_ok; [reflexivity | exact F | exact V |].
  exact (eq_trans (f_equal (fun k => DynamoDB.find_item k (table w)) K) S).
Qed.

(** Deleting the picture of a stored employee.  When no remote call fails
    and the listing under the prefix is complete, [delete_profile_picture]
    returns [True]; the bucket is the old one without the objects under the
    employee's picture prefix, so the employee's documents stay; the stored
    record is the old one with an empty reference and a new [updated_at];
    and [get_employee] returns a record with an empty reference. *)
Theorem deleted_picture_clears_the_reference (id : string) (e : Employee) (w : World) :
  fault_free w -> stored w id e -> timestamped e ->
  fst (EmployeeModel.validate e) = true ->
  List.length (pictures_of id (bucket w)) <= S3.MAX_KEYS ->
  exists w',
    Service.delete_profile_picture id w = (Ok true, w')
    /\ bucket w' = without_prefix (Storage.picture_prefix id) (bucket w)
    /\ pictures_of id (bucket w') = []
    /\ documents_of id (bucket w') = documents_of id (bucket w)
    /\ stored w' id (with_picture w "" e)
    /\ exists e',
         fst (Service.get_employee id w') = Ok (Some e')
         /\ profile_picture_url e' = "".
Proof.
  intros F S Ts V L.
  pose proof (stored_id w id e S) as K.
  pose proof (valid_id e V) as T. rewrite K in T.
  eexists. split; [exact (service_delete_picture_ok id e w F S Ts V L)|].
  match goal with |- bucket ?w1 = _ /\ _ => set (w' := w1) end.
  assert (B : bucket w' = without_prefix (Storage.picture_prefix id) (bucket w))
    by reflexivity.
  assert (P : pictures_of id (bucket w') = []).
  { rewrite B. apply with_prefix_without. }
  assert (St : stored w' id (with_picture w "" e)).
  { unfold stored. rewrite <- K at 1.
    exact (find_put (EmployeeModel.to_dict (with_picture w "" e)) (table w)). }
  split; [exact B|]. split; [exact P|]. split; [|split; [exact St|]].
  - rewrite B. unfold documents_of. apply with_prefix_apart.
    intros k Hk. destruct (Py.startswith k (Storage.picture_prefix id)) eqn:E;
      [|reflexivity].
    rewrite (prefixes_apart k id id E) in Hk. discriminate.
  - eexists. split.
    + apply (service_get_item_ok w' id _ F T St).
    + unfold refreshed. rewrite P. now rewrite from_dict_picture.
Qed.

(** The picture of [e1] is deleted; the document stays. *)
Lemma deleted_picture_witness :
  exists w',
    Service.delete_profile_picture "e1" two_files = (Ok true, w')
    /\ map Key (bucket w') = ["documents/e1_cv_aa.pdf"].
Proof.
  destruct (deleted_picture_clears_the_reference "e1" e1 two_files)
    as [w' [E [B _]]].
  - reflexivity.
  - vm_compute. reflexivity.
  - split; reflexivity.
  - vm_compute. reflexivity.
  - vm_compute. lia.
  - exists w'. split; [exact E|]. rewrite B. vm_compute. reflexivity.
Defined.

(** ** Identifiers that extend another identifier *)

Lemma prefix_app_r a b c :
  String.prefix a b = true -> String.prefix a (b ++ c)%string = true.
Proof.
  revert b. induction a as [|x a IH]; intros b H; [now destruct (b ++ c)%string|].
  destruct b as [|y b]; [discriminate|]. simpl in *.
  destruct (ascii_dec x y); [now apply IH | discriminate].
Qed.

Lemma with_prefix_longer p q b :
  String.prefix p q = true -> incl (S3.with_prefix q b) (S3.with_prefix p b).
Proof.
  intros H o Ho. unfold S3.with_prefix in *. apply filter_In in Ho as [Hb Hq].
  apply filter_In. split; [exact Hb|]. unfold Py.startswith in *.
  now apply prefix_trans with q.
Qed.

Lemma picture_prefix_longer id id' :
  Py.startswith id' (id ++ "_") = true ->
  String.prefix (Storage.picture_prefix id) (Storage.picture_prefix id') = true.
Proof.
  intros H. unfold Storage.picture_prefix. rewrite prefix_app_cancel.
  now apply prefix_app_r.
Qed.

Lemma document_prefix_longer id id' :
  Py.startswith id' (id ++ "_") = true ->
  String.prefix (Storage.document_prefix id) (Storage.document_prefix id') = true.
Proof.
  intros H. unfold Storage.document_prefix. rewrite prefix_app_cancel.
  now apply prefix_app_r.
Qed.

Lemma with_prefix_removed_longer p q keys b :
  String.prefix p q = true ->
  incl (map Key (S3.with_prefix p b)) keys ->
  S3.with_prefix q (S3.remove_keys keys b) = [].
Proof.
  intros H Hincl.
  destruct (S3.with_prefix q (S3.remove_keys keys b)) as [|o r] eqn:E; [reflexivity|].
  assert (Ho : In o (S3.with_prefix p (S3.remove_keys keys b))).
  { apply (with_prefix_longer p q _ H). rewrite E. now left. }
  rewrite (with_prefix_removed p keys b Hincl) in Ho. destruct Ho.
Qed.

(** The files of an employee are found by the prefix [id ++ "_"] of their
    keys, so an identifier that starts with [id ++ "_"] shares its files
    with [id]: the pictures and documents of such an [id'] are among those
    listed for [id], and when the files of [id] are deleted (no remote call
    failing, the listings complete) the files of [id'] are gone too. *)
Theorem extended_identifier_shares_files (id id' : string) (w : World) :
  Py.startswith id' (id ++ "_") = true ->
  fault_free w ->
  List.length (pictures_of id (bucket w)) + List.length (documents_of id (bucket w))
    <= S3.MAX_KEYS ->
  incl (pictures_of id' (bucket w)) (pictures_of id (bucket w))
  /\ incl (documents_of id' (bucket w)) (documents_of id (bucket w))
  /\ exists w',
       Storage.delete_all_employee_files id w = (Ok true, w')
       /\ pictures_of id' (bucket w') = []
       /\ documents_of id' (bucket w') = [].
Proof.
  intros H F L.
  pose proof (picture_prefix_longer id id' H) as Hp.
  pose proof (document_prefix_longer id id' H) as Hd.
  split; [|split].
  - apply with_prefix_longer, Hp.
  - apply with_prefix_longer, Hd.
  - eexists. split; [exact (delete_all_ok w id F L)|]. cbn [bucket set_bucket]. split.
    + apply (with_prefix_removed_longer _ _ _ _ Hp), keys_of_pictures.
    + apply (with_prefix_removed_longer _ _ _ _ Hd), keys_of_documents.
Qed.

(** The files of [e1_x] go with those of [e1]. *)
Lemma extended_identifier_witness :
  exists w',
    Storage.delete_all_employee_files "e1" Files.of_extended_id = (Ok true, w')
    /\ pictures_of "e1_x" (bucket w') = []
    /\ documents_of "e1_x" (bucket w') = [].
Proof.
  apply (extended_identifier_shares_files "e1" "e1_x" Files.of_extended_id).
  - reflexivity.
  - reflexivity.
  - vm_compute. lia.
Defined.

(* ------------------------------------------------------------------ *)
(** ** Documents *)

Lemma document_info_ok w o :
  fault_free w -> In o (bucket w) ->
  Storage.document_info o w = (Ok [document_entry w o], w).
Proof.
  intros F Hin.
  unfold Storage.document_info, S3.head_object, S3.generate_presigned_url,
    try_except, bind, gets.
  rewrite (remote_call_ok w F). unfold document_entry.
  destruct (find_some_in (fun x => String.eqb (Key x) (Key o)) (bucket w) o Hin
              (String.eqb_refl _)) as [x Ex].
  rewrite Ex. reflexivity.
Qed.

Lemma document_infos_ok w objs :
  fault_free w -> incl objs (bucket w) ->
  for_each Storage.document_info objs w
  = (Ok (map (fun o => [document_entry w o]) objs), w).
Proof.
  intros F. induction objs as [|o objs IH]; intros Hin; [reflexivity|].
  cbn [for_each map]. unfold bind at 1.
  rewrite (document_info_ok w o F) by (apply Hin; now left).
  unfold bind. rewrite IH by (intros x Hx; apply Hin; now right). reflexivity.
Qed.

Lemma concat_singletons {A B} (f : A -> B) l :
  List.concat (map (fun x => [f x]) l) = map f l.
Proof. induction l as [|x l IH]; simpl; [reflexivity | now rewrite IH]. Qed.

Lemma with_prefix_incl p b : incl (S3.with_prefix p b) b.
Proof. intros o Ho. unfold S3.with_prefix in Ho. now apply filter_In in Ho. Qed.

Lemma list_employee_documents_ok w id :
  fault_free w -> List.length (documents_of id (bucket w)) <= S3.MAX_KEYS ->
  Storage.list_employee_documents id w
  = (Ok (map (document_entry w) (documents_of id (bucket w))), w).
Proof.
  intros F L. unfold documents_of in *.
  unfold Storage.list_employee_documents, try_except, bind.
  rewrite (list_objects_ok w _ F L). cbn [S3.Contents].
  destruct (S3.with_prefix (Storage.document_prefix id) (bucket w)) as [|o r] eqn:E;
    [reflexivity|].
  rewrite (document_infos_ok w (o :: r) F).
  - now rewrite concat_singletons.
  - rewrite <- E. apply with_prefix_incl.
Qed.

Lemma service_documents_ok w id item :
  fault_free w -> Py.truthy id = true ->
  DynamoDB.find_item id (table w) = Some item ->
  List.length (documents_of id (bucket w)) <= S3.MAX_KEYS ->
  Service.get_employee_documents id w
  = (Ok (map (document_entry w) (documents_of id (bucket w))), tick w).
Proof.
  intros F T S L.
  unfold Service.get_employee_documents, Service.get_employee_documents_try,
    try_except, bind.
  cbn [db_get_employee st_list_employee_documents employee_database employee_storage].
  rewrite (get_employee_ok w id F T), S.
  now rewrite (list_employee_documents_ok (tick w) id F L).
Qed.



(** The documents of a stored employee are listed in full.  When no remote
    call fails and at most [MAX_KEYS] objects lie under the employee's
    document prefix, [get_employee_documents] returns one entry for each of
    them, in key order, with the object's key, size and upload time, a read
    URL signed for its key, and the file name and document type from its
    metadata ("Unknown" and "general" when the metadata has none). *)
Theorem documents_are_listed (id : string) (e : Employee) (w : World) :
  fault_free w -> Py.truthy id = true -> stored w id e ->
  List.length (documents_of id (bucket w)) <= S3.MAX_KEYS ->
  exists infos,
    fst (Service.get_employee_documents id w) = Ok infos
    /\ infos = map (document_entry w) (documents_of id (bucket w))
    /\ map doc_key infos = map Key (documents_of id (bucket w))
    /\ Forall (fun i => doc_url i = read_url w (doc_key i)) infos.
Proof.
  intros F T S L. eexists.
  rewrite (service_documents_ok w id _ F T S L). cbn [fst].
  split; [reflexivity|]. split; [reflexivity|]. split.
  - rewrite map_map. reflexivity.
  - apply Forall_forall. intros i Hi. apply in_map_iff in Hi as [o [<- _]]. reflexivity.
Qed.

(** The document of [e1] in a bucket that holds a picture as well. *)
Lemma documents_listed_witness :
  exists infos,
    fst (Service.get_employee_documents "e1" two_files) = Ok infos
    /\ map doc_key infos = ["documents/e1_cv_aa.pdf"].
Proof.
  destruct (documents_are_listed "e1" e1 two_files) as [infos [E [_ [K _]]]].
  - reflexivity.
  - reflexivity.
  - vm_compute. reflexivity.
  - vm_compute. lia.
  - exists infos. split; [exact E|]. rewrite K. vm_compute. reflexivity.
Defined.



(* ------------------------------------------------------------------ *)
(** ** The bucket's statistics *)

Lemma with_prefix_empty b : S3.with_prefix "" b = b.
Proof.
  unfold S3.with_prefix. apply filter_all. intros o _.
  unfold Py.startswith. now destruct (Key o).
Qed.

Lemma list_page_ok w token :
  fault_free w ->
  S3.list_objects_v2 "" S3.MAX_KEYS token w =
    (Ok {| S3.Contents :=
             match skipn token (bucket w) with
             | [] => None
             | _ :: _ => Some (firstn S3.MAX_KEYS (skipn token (bucket w)))
             end;
           S3.NextContinuationToken :=
             if S3.MAX_KEYS <? List.length (skipn token (bucket w))
             then Some (token + S3.MAX_KEYS) else None |}, w).
Proof.
  intros F. unfold S3.list_objects_v2, bind, gets, S3.list_at.
  now rewrite (remote_call_ok w F), with_prefix_empty.
Qed.

Lemma list_sum_app l1 l2 : list_sum (l1 ++ l2) = list_sum l1 + list_sum l2.
Proof. induction l1 as [|x l1 IH]; simpl; [reflexivity | rewrite IH; lia]. Qed.

Lemma list_sum_cons x l : list_sum (x :: l) = x + list_sum l.
Proof. reflexivity. Qed.

Lemma paginate_from_ok w rounds : forall token,
  fault_free w ->
  List.length (skipn token (bucket w)) <= rounds * S3.MAX_KEYS ->
  exists pages,
    S3.paginate_from rounds token w = (Ok pages, w)
    /\ list_sum (map Storage.page_count pages) = List.length (skipn token (bucket w))
    /\ list_sum (map Storage.page_bytes pages)
       = list_sum (map Size (skipn token (bucket w))).
Proof.
  assert (M : 0 < S3.MAX_KEYS) by (unfold S3.MAX_KEYS; lia).
  induction rounds as [|rounds IH]; intros token F L.
  - exists []. cbn [Nat.mul] in L.
    destruct (skipn token (bucket w)); [|cbn [List.length] in L; lia].
    repeat split.
  - cbn [S3.paginate_from]. unfold bind at 1. rewrite (list_page_ok w token F).
    cbn [S3.NextContinuationToken].
    set (rest := skipn token (bucket w)) in *.
    destruct (S3.MAX_KEYS <? List.length rest) eqn:E.
    + apply Nat.ltb_lt in E.
      assert (R : skipn (token + S3.MAX_KEYS) (bucket w) = skipn S3.MAX_KEYS rest).
      { unfold rest. rewrite skipn_skipn. f_equal. lia. }
      destruct (IH (token + S3.MAX_KEYS) F) as [pages [Ep [Ec Eb]]].
      { rewrite R, length_skipn. cbn [Nat.mul] in L. lia. }
      unfold bind. rewrite Ep. eexists. split; [reflexivity|].
      rewrite !map_cons, !list_sum_cons, Ec, Eb, R.
      unfold Storage.page_count, Storage.page_bytes. cbn [S3.Contents].
      destruct rest as [|o rest'] eqn:Er; [cbn [List.length] in E; lia|].
      rewrite <- Er. split.
      * rewrite <- length_app, firstn_skipn. reflexivity.
      * rewrite <- list_sum_app, <- map_app, firstn_skipn. reflexivity.
    + apply Nat.ltb_ge in E. eexists. split; [reflexivity|].
      rewrite !map_cons, !list_sum_cons. cbn [map list_sum fold_right].
      unfold Storage.page_count, Storage.page_bytes.
      cbn [S3.Contents].
      destruct rest as [|o rest'] eqn:Er; [split; reflexivity|].
      rewrite <- Er in *. rewrite (firstn_all2 _ E). split; lia.
Qed.

Lemma get_bucket_info_ok w :
  fault_free w ->
  Storage.get_bucket_info w =
    (Ok (BucketStats (S3_BUCKET_NAME (env w)) (location_constraint w)
           (List.length (bucket w)) (list_sum (map Size (bucket w)))), w).
Proof.
  intros F.
  destruct (paginate_from_ok w (S (List.length (bucket w))) 0 F) as [pages [Ep [Ec Eb]]].
  { cbn [skipn]. unfold S3.MAX_KEYS. lia. }
  unfold Storage.get_bucket_info, S3.get_bucket_location, S3.paginate, try_except,
    bind, gets.
  rewrite (remote_call_ok w F), Ep, Ec, Eb. reflexivity.
Qed.

(** [get_bucket_info] counts every object of the bucket, however many
    listing pages they take.  When no remote call fails it returns the
    configured bucket name, the number of objects in the bucket, the sum of
    their sizes, and as region the location constraint the store reports
    (none for a bucket in the default region: the default given to [.get]
    is not used, the key being present). *)
Theorem bucket_info_counts_every_object (w : World) :
  fault_free w ->
  Storage.get_bucket_info w =
    (Ok (BucketStats (S3_BUCKET_NAME (env w)) (location_constraint w)
           (List.length (bucket w)) (list_sum (map Size (bucket w)))), w).
Proof. exact (get_bucket_info_ok w). Qed.

(** The bucket with a document and a picture. *)
Lemma bucket_info_witness :
  Storage.get_bucket_info two_files =
    (Ok (BucketStats "employee-directory-files" None 2 10), two_files).
Proof. exact (bucket_info_counts_every_object two_files eq_refl). Defined.

(* ------------------------------------------------------------------ *)
(** ** Listings of the service *)

Lemma later_trans w1 w2 w3 : later w1 w2 -> later w2 w3 -> later w1 w3.
Proof. intros [n ->] [m ->]. now exists m. Qed.

Lemma later_bucket w w' : later w w' -> bucket w' = bucket w.
Proof. now intros [n ->]. Qed.

Lemma later_records w w' es : later w w' -> records w es -> records w' es.
Proof. intros L [T Ts]. split; [now rewrite (later_table w w' L) | exact Ts]. Qed.

Lemma later_refresh w w' : later w w' -> refresh w' = refresh w.
Proof. now intros [n ->]. Qed.

Lemma scan_all_runs f es w :
  fault_free w -> records w es ->
  exists w', Database.scan_all f w = (Ok (filter (matches f) es), w') /\ later w w'.
Proof.
  intros F [T Ts]. unfold Database.scan_all, try_except.
  unfold bind at 1. rewrite (scan_ok w f None F). cbv beta iota.
  unfold bind at 1. rewrite (scan_items w es f 0 T). cbn [skipn].
  set (P := DynamoDB.page_size w).
  set (page := filter (matches f) (firstn P es)).
  assert (Tp : Forall timestamped page) by apply (Forall_page _ _ P 0 es Ts).
  destruct (for_each_from_dict page w Tp) as [w1 [E1 L1]]. rewrite E1.
  unfold bind at 1. unfold gets at 1. cbv beta iota.
  destruct (scan_while_ok f es (List.length (table w1)) 0 w w1 page
              (later_fault_free w w1 L1 F) L1 (conj T Ts)) as [w' [E' L']].
  { rewrite (later_table w w1 L1), T, length_map. lia. }
  rewrite E'. exists w'. split; [|exact L']. f_equal. f_equal.
  unfold page. cbn [Nat.add]. fold P. now rewrite <- filter_app, firstn_skipn.
Qed.

Lemma get_all_runs es w :
  fault_free w -> records w es ->
  exists w', Database.get_all_employees w = (Ok es, w') /\ later w w'.
Proof.
  intros F R. destruct (scan_all_runs None es w F R) as [w' [E L]].
  exists w'. split; [|exact L]. unfold Database.get_all_employees. rewrite E.
  f_equal. f_equal. now apply filter_all.
Qed.

Lemma refresh_picture_ok w e :
  fault_free w -> Service.refresh_picture e w = (Ok (refresh w e), w).
Proof.
  intros F. unfold Service.refresh_picture, bind.
  cbn [st_get_profile_picture_url employee_storage].
  rewrite (get_profile_picture_url_ok w _ F). unfold refresh, refreshed.
  destruct (pictures_of (employee_id e) (bucket w)) as [|first rest]; [reflexivity|].
  destruct (Py.truthy (read_url w (Key first))); reflexivity.
Qed.

Lemma refresh_pictures_ok w es :
  fault_free w ->
  for_each Service.refresh_picture es w = (Ok (map (refresh w) es), w).
Proof.
  intros F. induction es as [|e es IH]; [reflexivity|].
  cbn [for_each map]. unfold bind at 1. rewrite (refresh_picture_ok w e F).
  unfold bind. now rewrite IH.
Qed.

Lemma service_scan_ok f es w :
  fault_free w -> records w es ->
  fst (try_except (employees <- Database.scan_all f ;;
                   for_each Service.refresh_picture employees)
         (fun _ => ret [])
         w)
  = Ok (map (refresh w) (filter (matches f) es)).
Proof.
  intros F R. destruct (scan_all_runs f es w F R) as [w' [E L]].
  unfold try_except, bind. rewrite E.
  rewrite (refresh_pictures_ok w' _ (later_fault_free w w' L F)).
  now rewrite (later_refresh w w' L).
Qed.

(** The listings of the service return every record that passes the filter,
    each with its picture reference refreshed.  When no remote call fails,
    [get_all_employees], [search_employees_by_department] and
    [search_employees_by_position] of the service return, in scan order, the
    stored records (all of them, those of the department, those whose
    position contains the text), each with its reference replaced by a read
    URL signed for the first object listed under its picture prefix, and as
    stored when there is none. *)
Theorem service_listings_refresh_pictures (es : list Employee) (w : World) :
  fault_free w -> records w es ->
  fst (Service.get_all_employees w) = Ok (map (refresh w) es)
  /\ (forall d, fst (Service.search_employees_by_department d w)
                = Ok (map (refresh w)
                        (filter (fun e => String.eqb (department e) d) es)))
  /\ (forall p, fst (Service.search_employees_by_position p w)
                = Ok (map (refresh w)
                        (filter (fun e => Py.is_substring p (position e)) es))).
Proof.
  intros F R. split; [|split].
  - pose proof (service_scan_ok None es w F R) as H.
    rewrite (filter_all (matches None) es) in H by reflexivity. exact H.
  - intros d. exact (service_scan_ok _ es w F R).
  - intros p. exact (service_scan_ok _ es w F R).
Qed.

(** The listings at a collection of two pages, where [e1] has two pictures. *)
Lemma service_listings_witness :
  fst (Service.get_all_employees Files.two_pages_two_pictures)
  = Ok (map (refresh Files.two_pages_two_pictures) [e1; e2]).
Proof.
  apply (service_listings_refresh_pictures [e1; e2] Files.two_pages_two_pictures).
  - reflexivity.
  - split; [reflexivity | repeat constructor].
Defined.

(* ------------------------------------------------------------------ *)
(** ** The order of strings *)

Lemma ascii_compare_lt_trans a b c :
  Ascii.compare a b = Lt -> Ascii.compare b c = Lt -> Ascii.compare a c = Lt.
Proof.
  unfold Ascii.compare. rewrite !BinNat.N.compare_lt_iff. apply BinNat.N.lt_trans.
Qed.

Lemma string_compare_lt_trans a : forall b c,
  String.compare a b = Lt -> String.compare b c = Lt -> String.compare a c = Lt.
Proof.
  induction a as [|x a IH]; intros [|y b] [|z c]; simpl; try discriminate; auto.
  destruct (Ascii.compare x y) eqn:Exy; try discriminate;
    destruct (Ascii.compare y z) eqn:Eyz; try discriminate; intros H1 H2.
  - apply Ascii.compare_eq_iff in Exy, Eyz. subst y z.
    assert (E : Ascii.compare x x = Eq).
    { unfold Ascii.compare. now apply BinNat.N.compare_eq_iff. }
    rewrite E. now apply IH with b.
  - apply Ascii.compare_eq_iff in Exy. subst y. now rewrite Eyz.
  - apply Ascii.compare_eq_iff in Eyz. subst z. now rewrite Exy.
  - now rewrite (ascii_compare_lt_trans x y z Exy Eyz).
Qed.

Lemma string_compare_gt_lt a b : String.compare a b = Gt -> String.compare b a = Lt.
Proof. intros H. rewrite String.compare_antisym, H. reflexivity. Qed.

(** ** [sorted(set(...))] *)

Lemma in_insert_sorted x y l : In y (Py.insert_sorted x l) <-> y = x \/ In y l.
Proof.
  induction l as [|z l IH]; simpl.
  - intuition.
  - destruct (String.compare x z) eqn:E; simpl.
    + apply String.compare_eq_iff in E. subst z. intuition.
    + intuition.
    + rewrite IH. intuition.
Qed.

Lemma in_sorted_set y l : In y (Py.sorted_set l) <-> In y l.
Proof.
  induction l as [|x l IH]; simpl; [reflexivity|].
  rewrite in_insert_sorted, IH. intuition.
Qed.

Lemma ascending_cons x l :
  ascending (x :: l) <-> (forall y, In y l -> String.compare x y = Lt) /\ ascending l.
Proof.
  unfold ascending. split.
  - intros H. inversion H as [|a l' Hx Hl]; subst. split; [|exact Hl].
    now apply Forall_forall.
  - intros [Hx Hl]. constructor; [now apply Forall_forall | exact Hl].
Qed.

Lemma ascending_insert x l : ascending l -> ascending (Py.insert_sorted x l).
Proof.
  induction l as [|z l IH]; intros H; simpl.
  - apply ascending_cons. split; [intros y []|constructor].
  - apply ascending_cons in H as [Hz Hl].
    destruct (String.compare x z) eqn:E.
    + apply ascending_cons. now split.
    + apply ascending_cons. split; [|now apply ascending_cons].
      intros y [<-|Hy]; [exact E|].
      apply string_compare_lt_trans with z; [exact E | now apply Hz].
    + apply ascending_cons. split; [|now apply IH].
      intros y Hy. apply in_insert_sorted in Hy as [->|Hy];
        [now apply string_compare_gt_lt | now apply Hz].
Qed.

Lemma ascending_sorted_set l : ascending (Py.sorted_set l).
Proof.
  induction l as [|x l IH]; simpl; [constructor | now apply ascending_insert].
Qed.

Lemma ascending_NoDup l : ascending l -> NoDup l.
Proof.
  induction l as [|x l IH]; intros H; [constructor|].
  apply ascending_cons in H as [Hx Hl]. constructor; [|now apply IH].
  intros Hin. specialize (Hx x Hin).
  pose proof (String.compare_antisym x x) as C. rewrite Hx in C. discriminate.
Qed.

Lemma in_distinct (field : Employee -> string) es d :
  In d (Service.distinct field es)
  <-> Py.truthy d = true /\ exists e, In e es /\ field e = d.
Proof.
  unfold Service.distinct. rewrite in_sorted_set, filter_In, in_map_iff.
  split.
  - intros [[e [He Hin]] T]. split; [exact T|]. now exists e.
  - intros [T [e [Hin He]]]. split; [|exact T]. now exists e.
Qed.

(** ** Departments and positions *)

Lemma get_departments_ok es w :
  fault_free w -> records w es ->
  exists w', Service.get_departments w = (Ok (Service.distinct department es), w')
             /\ later w w'.
Proof.
  intros F R. destruct (get_all_runs es w F R) as [w' [E L]].
  exists w'. split; [|exact L].
  unfold Service.get_departments, Service.get_departments_try, try_except, bind.
  cbn [db_get_all_employees employee_database]. now rewrite E.
Qed.

Lemma get_positions_ok es w :
  fault_free w -> records w es ->
  exists w', Service.get_positions w = (Ok (Service.distinct position es), w')
             /\ later w w'.
Proof.
  intros F R. destruct (get_all_runs es w F R) as [w' [E L]].
  exists w'. split; [|exact L].
  unfold Service.get_positions, Service.get_positions_try, try_except, bind.
  cbn [db_get_all_employees employee_database]. now rewrite E.
Qed.

(** [get_departments] and [get_positions] return the values in use.  When
    no remote call fails, each returns a strictly ascending list, so one
    without duplicates, whose members are the non-empty values that the
    field has in some stored record. *)
Theorem departments_and_positions_in_use (es : list Employee) (w : World) :
  fault_free w -> records w es ->
  (exists ds,
     fst (Service.get_departments w) = Ok ds
     /\ ascending ds /\ NoDup ds
     /\ forall d, In d ds
          <-> Py.truthy d = true /\ exists e, In e es /\ department e = d)
  /\ (exists ps,
        fst (Service.get_positions w) = Ok ps
        /\ ascending ps /\ NoDup ps
        /\ forall p, In p ps
             <-> Py.truthy p = true /\ exists e, In e es /\ position e = p).
Proof.
  intros F R. split.
  - destruct (get_departments_ok es w F R) as [w' [E _]].
    exists (Service.distinct department es). rewrite E.
    pose proof (ascending_sorted_set
                  (filter Py.truthy (map department es))) as A.
    split; [reflexivity|]. split; [exact A|].
    split; [now apply ascending_NoDup|]. intros d. apply in_distinct.
  - destruct (get_positions_ok es w F R) as [w' [E _]].
    exists (Service.distinct position es). rewrite E.
    pose proof (ascending_sorted_set
                  (filter Py.truthy (map position es))) as A.
    split; [reflexivity|]. split; [exact A|].
    split; [now apply ascending_NoDup|]. intros d. apply in_distinct.
Qed.

(** Two records of one department, read in two pages. *)
Lemma departments_witness :
  exists ds,
    fst (Service.get_departments second_page) = Ok ds
    /\ ascending ds /\ NoDup ds
    /\ forall d, In d ds
         <-> Py.truthy d = true /\ exists e, In e [e1; e2] /\ department e = d.
Proof.
  apply (departments_and_positions_in_use [e1; e2] second_page).
  - reflexivity.
  - split; [reflexivity | repeat constructor].
Defined.

(* ------------------------------------------------------------------ *)
(** ** Statistics *)

Lemma get_default_set {V} (d : Py.dict V) k v k' (default : V) :
  Py.get_default (Py.dict_set d k v) k' default
  = if String.eqb k k' then v else Py.get_default d k' default.
Proof.
  unfold Py.get_default. induction d as [|[k0 v0] d IH]; simpl.
  - now destruct (String.eqb k k').
  - destruct (String.eqb k0 k) eqn:E0; simpl.
    + apply String.eqb_eq in E0. subst k0. now destruct (String.eqb k k').
    + destruct (String.eqb k0 k') eqn:E1; [|exact IH].
      apply String.eqb_eq in E1. subst k0.
      rewrite String.eqb_sym in E0. now rewrite E0.
Qed.

Lemma sum_dict_set (d : Py.dict nat) k :
  list_sum (map snd (Py.dict_set d k (Py.get_default d k 0 + 1)))
  = S (list_sum (map snd d)).
Proof.
  unfold Py.get_default. induction d as [|[k0 v0] d IH]; simpl; [reflexivity|].
  destruct (String.eqb k0 k); simpl; [lia|]. rewrite IH. lia.
Qed.

Lemma keys_dict_set {V} (d : Py.dict V) k v :
  map fst (Py.dict_set d k v)
  = if existsb (String.eqb k) (map fst d) then map fst d else map fst d ++ [k].
Proof.
  induction d as [|[k0 v0] d IH]; simpl; [reflexivity|].
  rewrite (String.eqb_sym k k0).
  destruct (String.eqb k0 k); simpl; [reflexivity|].
  rewrite IH. now destruct (existsb (String.eqb k) (map fst d)).
Qed.

Lemma NoDup_dict_set {V} (d : Py.dict V) k v :
  NoDup (map fst d) -> NoDup (map fst (Py.dict_set d k v)).
Proof.
  intros H. rewrite keys_dict_set.
  destruct (existsb (String.eqb k) (map fst d)) eqn:E; [exact H|].
  apply NoDup_app; [exact H | repeat constructor; intros [] |].
  intros x Hx [<-|[]].
  assert (X : existsb (String.eqb k) (map fst d) = true).
  { apply existsb_exists. exists k. split; [exact Hx | apply String.eqb_refl]. }
  congruence.
Qed.

Lemma count_department_counts es : forall d k,
  Py.get_default (fold_left Service.count_department es d) k 0
  = Py.get_default d k 0
    + List.length (filter (fun e => String.eqb (counted_under e) k) es).
Proof.
  induction es as [|e es IH]; intros d k; simpl; [lia|].
  rewrite IH. unfold Service.count_department at 1.
  fold (counted_under e). rewrite get_default_set.
  destruct (String.eqb (counted_under e) k) eqn:E; simpl; [|reflexivity].
  apply String.eqb_eq in E. subst k. lia.
Qed.

Lemma count_department_total es : forall d,
  list_sum (map snd (fold_left Service.count_department es d))
  = list_sum (map snd d) + List.length es.
Proof.
  induction es as [|e es IH]; intros d; simpl; [lia|].
  rewrite IH. unfold Service.count_department. rewrite sum_dict_set. lia.
Qed.

Lemma count_department_keys es : forall d,
  NoDup (map fst d) ->
  NoDup (map fst (fold_left Service.count_department es d)).
Proof.
  induction es as [|e es IH]; intros d H; simpl; [exact H|].
  apply IH. unfold Service.count_department. now apply NoDup_dict_set.
Qed.

Lemma get_statistics_ok es w :
  fault_free w -> records w es ->
  fst (Service.get_statistics w)
  = Ok (Stats (List.length es)
          (List.length (Service.distinct department es))
          (List.length (Service.distinct position es))
          (List.length (filter (fun e => Py.truthy (profile_picture_url e)) es))
          (fold_left Service.count_department es [])
          (BucketStats (S3_BUCKET_NAME (env w)) (location_constraint w)
             (List.length (bucket w)) (list_sum (map Size (bucket w))))).
Proof.
  intros F R.
  destruct (get_all_runs es w F R) as [w1 [E1 L1]].
  pose proof (later_fault_free w w1 L1 F) as F1.
  destruct (get_departments_ok es w1 F1 (later_records w w1 es L1 R)) as [w2 [E2 L2]].
  pose proof (later_trans w w1 w2 L1 L2) as L12.
  pose proof (later_fault_free w w2 L12 F) as F2.
  destruct (get_positions_ok es w2 F2 (later_records w w2 es L12 R)) as [w3 [E3 L3]].
  pose proof (later_trans w w2 w3 L12 L3) as L13.
  pose proof (later_fault_free w w3 L13 F) as F3.
  unfold Service.get_statistics, Service.get_statistics_try, try_except, bind.
  cbn [db_get_all_employees st_get_bucket_info employee_database employee_storage].
  rewrite E1, E2, E3, (get_bucket_info_ok w3 F3). cbn [fst].
  rewrite (later_bucket w w3 L13).
  destruct L13 as [n ->]. reflexivity.
Qed.

(** The statistics count the stored records.  When no remote call fails,
    [get_statistics] returns the number of stored records, the numbers of
    distinct non-empty departments and positions, the number of records
    stored with a non-empty picture reference, the bucket's statistics, and
    a department breakdown with one entry per name, in which a name has the
    number of records counted under it (a record with an empty department
    counts under "Unknown"), so that the counts add up to the number of
    records. *)
Theorem statistics_count_the_records (es : list Employee) (w : World) :
  fault_free w -> records w es ->
  exists breakdown,
    fst (Service.get_statistics w)
    = Ok (Stats (List.length es)
            (List.length (Service.distinct department es))
            (List.length (Service.distinct position es))
            (List.length (filter (fun e => Py.truthy (profile_picture_url e)) es))
            breakdown
            (BucketStats (S3_BUCKET_NAME (env w)) (location_constraint w)
               (List.length (bucket w)) (list_sum (map Size (bucket w)))))
    /\ (forall k, Py.get_default breakdown k 0
                  = List.length (filter (fun e => String.eqb (counted_under e) k) es))
    /\ list_sum (map snd breakdown) = List.length es
    /\ NoDup (map fst breakdown).
Proof.
  intros F R. exists (fold_left Service.count_department es []).
  split; [exact (get_statistics_ok es w F R)|]. split; [|split].
  - intros k. now rewrite count_department_counts.
  - now rewrite count_department_total.
  - apply count_department_keys. constructor.
Qed.

(** Two records of one department, read in two pages, and two files. *)
Lemma statistics_witness :
  exists breakdown,
    fst (Service.get_statistics Files.two_pages_two_pictures)
    = Ok (Stats 2 1 1 0 breakdown
            (BucketStats "employee-directory-files" None 2 10))
    /\ list_sum (map snd breakdown) = 2.
Proof.
  destruct (statistics_count_the_records [e1; e2] Files.two_pages_two_pictures)
    as [breakdown [E [_ [T _]]]].
  - reflexivity.
  - split; [reflexivity | repeat constructor].
  - exists breakdown. split; [exact E | exact T].
Defined.

(* ------------------------------------------------------------------ *)
(** ** The handlers that read *)

Lemma try_ret_runs {A} (block : M World A) (degraded : A) w :
  exists a w', try_except block (fun _ => ret degraded) w = (Ok a, w').
Proof. unfold try_except, ret. destruct (block w) as [[a|e] w']; eauto. Qed.

(** The error branches of the reading handlers and of the delete handler are
    never taken, whatever remote call fails, because the service catches
    every exception: [index] always renders the list it got and flashes
    nothing, [api_employees] always answers a JSON list and never the error
    object with status 500, [view_employee] renders the record or flashes
    "Employee not found.", and [delete_employee] flashes its success or its
    failure message and redirects to the index. *)
Theorem handlers_never_report_errors (w : World) :
  (exists es w', Pages.index w = (Ok ([], RenderList "index.html" es), w'))
  /\ (exists items w', Pages.api_employees w = (Ok (JsonList items), w'))
  /\ (forall id, exists w',
        (exists e, Pages.view_employee id w
                   = (Ok ([], RenderOne "view_employee.html" e), w'))
        \/ Pages.view_employee id w
           = (Ok ([("Employee not found.", "error")], RedirectTo "index" None), w'))
  /\ (forall id, exists w',
        Pages.delete_employee id w
        = (Ok ([("Employee deleted successfully!", "success")],
               RedirectTo "index" None), w')
        \/ Pages.delete_employee id w
           = (Ok ([("Failed to delete employee.", "error")],
                  RedirectTo "index" None), w')).
Proof.
  split; [|split; [|split]].
  - destruct (try_ret_runs Service.get_all_employees_try [] w) as [es [w' E]].
    exists es, w'. unfold Pages.index, try_except at 1, bind.
    unfold Service.get_all_employees. now rewrite E.
  - destruct (try_ret_runs Service.get_all_employees_try [] w) as [es [w' E]].
    exists (map EmployeeModel.to_dict es), w'.
    unfold Pages.api_employees, try_except at 1, bind.
    unfold Service.get_all_employees. now rewrite E.
  - intros id.
    destruct (try_ret_runs (Service.get_employee_try id) None w) as [r [w' E]].
    assert (V : Pages.view_employee id w
                = (Ok match r with
                      | Some e => ([], RenderOne "view_employee.html" e)
                      | None => ([("Employee not found.", "error")],
                                 RedirectTo "index" None)
                      end, w')).
    { unfold Pages.view_employee, try_except at 1, bind.
      unfold Service.get_employee. rewrite E. now destruct r. }
    exists w'. rewrite V. destruct r as [e|]; [left; now exists e | now right].
  - intros id.
    destruct (try_ret_runs (Service.delete_employee_try id) false w) as [r [w' E]].
    assert (D : Pages.delete_employee id w
                = (Ok ([if r
                        then ("Employee deleted successfully!", "success")
                        else ("Failed to delete employee.", "error")],
                       RedirectTo "index" None), w')).
    { unfold Pages.delete_employee, bind, try_except at 1, bind.
      unfold Service.delete_employee. rewrite E. now destruct r. }
    exists w'. rewrite D. destruct r; [now left | now right].
Qed.

Lemma scan_all_fails f w e r :
  faults w = Some e :: r -> Database.scan_all f w = (Ok [], set_faults r w).
Proof.
  intros H. unfold Database.scan_all, DynamoDB.scan, try_except, bind, remote_call.
  rewrite H. now destruct e.
Qed.

Lemma get_employee_fails id w e r :
  faults w = Some e :: r -> Database.get_employee id w = (Ok None, set_faults r w).
Proof.
  intros H.
  unfold Database.get_employee, DynamoDB.get_item, try_except, bind, remote_call.
  rewrite H. now destruct e.
Qed.

(** A failure of the record store is shown as an empty directory.  When the
    next remote call fails, [index] renders an empty list and flashes
    nothing, [api_employees] answers an empty JSON list, and
    [view_employee] flashes "Employee not found." for whatever id, stored
    or not. *)
Theorem store_failure_shows_as_absence (w : World) (e : exn) (r : list (option exn)) :
  faults w = Some e :: r ->
  fst (Pages.index w) = Ok ([], RenderList "index.html" [])
  /\ fst (Pages.api_employees w) = Ok (JsonList [])
  /\ forall id,
       fst (Pages.view_employee id w)
       = Ok ([("Employee not found.", "error")], RedirectTo "index" None).
Proof.
  intros H. split; [|split].
  - unfold Pages.index, Service.get_all_employees, Service.get_all_employees_try,
      try_except at 1 2, bind.
    cbn [db_get_all_employees employee_database]. unfold Database.get_all_employees.
    now rewrite (scan_all_fails None w e r H).
  - unfold Pages.api_employees, Service.get_all_employees,
      Service.get_all_employees_try, try_except at 1 2, bind.
    cbn [db_get_all_employees employee_database]. unfold Database.get_all_employees.
    now rewrite (scan_all_fails None w e r H).
  - intros id.
    unfold Pages.view_employee, Service.get_employee, Service.get_employee_try,
      try_except at 1 2, bind.
    cbn [db_get_employee employee_database].
    now rewrite (get_employee_fails id w e r H).
Qed.

(** Two records are stored and the store is unavailable. *)
Lemma store_failure_witness :
  fst (Pages.index Files.store_down) = Ok ([], RenderList "index.html" [])
  /\ fst (Pages.api_employees Files.store_down) = Ok (JsonList [])
  /\ forall id,
       fst (Pages.view_employee id Files.store_down)
       = Ok ([("Employee not found.", "error")], RedirectTo "index" None).
Proof.
  apply (store_failure_shows_as_absence Files.store_down
           (ClientError "ServiceUnavailable") []).
  reflexivity.
Defined.

(* ------------------------------------------------------------------ *)
(** ** The edit handler *)

Lemma required_ok form k w :
  Py.dict_get form k <> None ->
  App.required form k w = (Ok (Py.get_default form k ""), w).
Proof.
  intros H. unfold App.required, Py.get_default.
  destruct (Py.dict_get form k); [reflexivity | congruence].
Qed.

Lemma service_get_runs w id e :
  fault_free w -> Py.truthy id = true -> stored w id e -> timestamped e ->
  Service.get_employee id w = (Ok (Some (refreshed w id e)), tick w).
Proof.
  intros F T S Ts. pose proof (stored_id w id e S) as K. unfold stored in S.
  unfold Service.get_employee, Service.get_employee_try, Service.refresh_picture,
    try_except, bind.
  cbn [db_get_employee st_get_profile_picture_url employee_database employee_storage].
  rewrite (get_employee_ok w id F T), S, (from_dict_to_dict _ e Ts), K.
  rewrite (get_profile_picture_url_ok (tick w) id F).
  change (bucket (tick w)) with (bucket w).
  change (read_url (tick w)) with (read_url w).
  unfold refreshed.
  destruct (pictures_of id (bucket w)) as [|first rest]; [reflexivity|].
  destruct (Py.truthy (read_url w (Key first))); reflexivity.
Qed.

Lemma service_update_same_email_ok w e e' :
  fault_free w ->
  fst (EmployeeModel.validate e') = true ->
  stored w (employee_id e') e -> timestamped e ->
  email e' = email e ->
  Service.update_employee e' w =
    (Ok true,
     set_table
       (DynamoDB.put
          (EmployeeModel.to_dict (EmployeeModel.set_updated_at (now (tick (tick w))) e'))
          (table w))
       (tick (tick (tick w)))).
Proof.
  intros F V S Ts Em. pose proof (valid_id _ V) as T. unfold stored in S.
  unfold Service.update_employee, Service.update_employee_try, try_except, bind.
  destruct (EmployeeModel.validate e') as [v errs] eqn:Ev.
  simpl in V. subst v. cbn [negb].
  cbn [db_get_employee db_update_employee employee_database].
  rewrite (get_employee_ok w _ F T), S, (from_dict_to_dict _ e Ts).
  rewrite Em, String.eqb_refl. cbn [negb ret].
  assert (V' : fst (EmployeeModel.validate e') = true) by now rewrite Ev.
  assert (S' : DynamoDB.find_item (employee_id e') (table (tick w))
               = Some (EmployeeModel.to_dict e)) by exact S.
  rewrite (update_employee_ok (tick w) e' _ F V' S').
  reflexivity.
Qed.

Lemma edit_post_ok request id e w :
  filled request ->
  Py.dict_get (files request) "profile_picture" = None ->
  fault_free w -> stored w id e -> timestamped e ->
  Py.get_default (form request) "email" "" = email e ->
  fst (EmployeeModel.validate (edited (now (tick w)) request id (refreshed w id e)))
    = true ->
  Pages.edit_employee_post request id w =
    (Ok ([("Employee updated successfully!", "success")],
         Some (RedirectTo "view_employee" (Some id))),
     set_table
       (DynamoDB.put
          (EmployeeModel.to_dict
             (EmployeeModel.set_updated_at (now (tick (tick (tick (tick w)))))
                (edited (now (tick w)) request id (refreshed w id e))))
          (table w))
       (tick (tick (tick (tick (tick w)))))).
Proof.
  intros Hf Hp F S Ts Em V.
  set (new := edited (now (tick w)) request id (refreshed w id e)) in *.
  pose proof (valid_id _ V) as T. change (employee_id new) with id in T.
  unfold filled, required_fields in Hf.
  repeat match goal with H : Forall _ (_ :: _) |- _ => inversion_clear H end.
  unfold Pages.edit_employee_post, try_except at 1.
  unfold bind at 1. rewrite (service_get_runs w id e F T S Ts).
  repeat (unfold bind at 1; rewrite required_ok by assumption).
  rewrite Hp. unfold bind at 1. cbn [ret].
  unfold bind at 1.
  change (EmployeeModel.init id
            (Py.get_default (form request) "first_name" "")
            (Py.get_default (form request) "last_name" "")
            (Py.get_default (form request) "email" "")
            (Py.get_default (form request) "position" "")
            (Py.get_default (form request) "department" "")
            (Some (Py.get_default (form request) "phone" ""))
            (Some (Py.get_default (form request) "hire_date" ""))
            (Some (profile_picture_url (refreshed w id e))) None None (tick w))
    with (Ok new, tick (tick w)).
  unfold bind at 1.
  rewrite (service_update_same_email_ok (tick (tick w)) e new F V S Ts Em).
  reflexivity.
Qed.

(** An edit restarts [created_at] and stores the picture reference it read.
    For a stored record, a [POST] of a filled form that keeps the email and
    sends no picture, when no remote call fails and the record built from
    the form is valid: the handler flashes success and redirects to the
    employee's page; the stored record has the fields of the form; its
    [created_at] is no longer the stored one but the clock reading taken
    when the handler builds the record; its picture reference is the one
    [get_employee] returned, which is a signed read URL when the employee has
    a picture; and the bucket is unchanged. *)
Theorem edit_restarts_created_at (request : Request) (id : string) (e : Employee)
    (w : World) :
  method request = "POST" ->
  filled request ->
  Py.dict_get (files request) "profile_picture" = None ->
  fault_free w -> stored w id e -> timestamped e ->
  Py.get_default (form request) "email" "" = email e ->
  fst (EmployeeModel.validate (edited (now (tick w)) request id (refreshed w id e)))
    = true ->
  exists w' e',
    Pages.edit_employee request id w
      = (Ok ([("Employee updated successfully!", "success")],
             RedirectTo "view_employee" (Some id)), w')
    /\ stored w' id e'
    /\ e' = EmployeeModel.set_updated_at (now (tick (tick (tick (tick w)))))
              (edited (now (tick w)) request id (refreshed w id e))
    /\ created_at e' = now (tick w)
    /\ profile_picture_url e' = profile_picture_url (refreshed w id e)
    /\ bucket w' = bucket w.
Proof.
  intros Hm Hf Hp F S Ts Em V.
  pose proof (valid_id _ V) as T.
  change (employee_id (edited (now (tick w)) request id (refreshed w id e)))
    with id in T.
  eexists. eexists. split; [|split; [|split; [reflexivity|]]].
  - unfold Pages.edit_employee. rewrite Hm.
    change (String.eqb "POST" "POST") with true. cbv iota.
    unfold bind at 1. rewrite (edit_post_ok request id e w Hf Hp F S Ts Em V).
    reflexivity.
  - unfold stored. cbn [table set_table].
    exact (find_put (EmployeeModel.to_dict
             (EmployeeModel.set_updated_at (now (tick (tick (tick (tick w)))))
                (edited (now (tick w)) request id (refreshed w id e))))
             (table w)).
  - split; [reflexivity|]. split; [|reflexivity].
    cbn [profile_picture_url EmployeeModel.set_updated_at edited EmployeeModel.init_at
         Py.or_none].
    apply or_empty.
Qed.

(** [e1] with a new phone number. *)
Lemma edit_witness :
  exists w' e',
    Pages.edit_employee Files.edit_request "e1" phone_change
      = (Ok ([("Employee updated successfully!", "success")],
             RedirectTo "view_employee" (Some "e1")), w')
    /\ stored w' "e1" e'
    /\ created_at e' = "2024-01-01T00:00:02"
    /\ created_at e1 = "2023-05-01T09:00:00".
Proof.
  destruct (edit_restarts_created_at Files.edit_request "e1" e1 phone_change)
    as [w' [e' [E [S [_ [C _]]]]]].
  - reflexivity.
  - repeat constructor; discriminate.
  - reflexivity.
  - reflexivity.
  - vm_compute. reflexivity.
  - split; reflexivity.
  - reflexivity.
  - vm_compute. reflexivity.
  - exists w', e'. repeat split; [exact E | exact S | exact C].
Defined.

(* ------------------------------------------------------------------ *)
(** ** Records that are not valid *)

(** A record that fails validation is refused before any remote call is
    made: [create_employee] and [update_employee] of the database layer and
    [add_employee] and [update_employee] of the service return [False] and
    leave the world as it is (neither store is called, the clock is not
    read, and the outcomes of the calls to come are not consumed). *)
Theorem invalid_record_is_refused_locally (e : Employee) (w : World) :
  fst (EmployeeModel.validate e) = false ->
  Database.create_employee e w = (Ok false, w)
  /\ Database.update_employee e w = (Ok false, w)
  /\ Service.add_employee e w = (Ok false, w)
  /\ Service.update_employee e w = (Ok false, w).
Proof.
  intros V.
  unfold Database.create_employee, Database.update_employee, Service.add_employee,
    Service.add_employee_try, Service.update_employee, Service.update_employee_try,
    try_except.
  destruct (EmployeeModel.validate e) as [v errs]. simpl in V. subst v.
  repeat split.
Qed.

(** A record without an email, while the store is unavailable. *)
Lemma invalid_record_witness :
  Database.create_employee blank_email_employee Files.store_down
    = (Ok false, Files.store_down)
  /\ Database.update_employee blank_email_employee Files.store_down
     = (Ok false, Files.store_down)
  /\ Service.add_employee blank_email_employee Files.store_down
     = (Ok false, Files.store_down)
  /\ Service.update_employee blank_email_employee Files.store_down
     = (Ok false, Files.store_down).
Proof.
  apply (invalid_record_is_refused_locally blank_email_employee Files.store_down).
  vm_compute. reflexivity.
Defined.

(** ** A record and its dictionary *)

(** [from_dict] reads back what [to_dict] wrote, except that an empty
    timestamp is replaced by the reading of the clock: the record built from
    the dictionary of [e] has the fields of [e], with [created_at] and
    [updated_at] replaced by the clock's reading when they are empty.  So a
    record that has both timestamps survives the round trip unchanged, and
    the dictionary of the record read back is the dictionary it was read
    from. *)
Theorem record_survives_its_dictionary (e : Employee) (w : World) :
  EmployeeModel.from_dict (EmployeeModel.to_dict e) w
    = (Ok {| employee_id := employee_id e;
             first_name := first_name e;
             last_name := last_name e;
             email := email e;
             position := position e;
             department := department e;
             phone := phone e;
             hire_date := hire_date e;
             profile_picture_url := profile_picture_url e;
             created_at := Py.or_ (created_at e) (now w);
             updated_at := Py.or_ (updated_at e) (now w) |}, tick w)
  /\ (timestamped e ->
      EmployeeModel.from_dict (EmployeeModel.to_dict e) w = (Ok e, tick w)
      /\ forall e', fst (EmployeeModel.from_dict (EmployeeModel.to_dict e) w) = Ok e' ->
                    EmployeeModel.to_dict e' = EmployeeModel.to_dict e).
Proof.
  split.
  - rewrite from_dict_run. f_equal. f_equal.
    destruct e. unfold from_dict_at, EmployeeModel.init_at, Py.get_default. simpl.
    now rewrite !or_empty.
  - intros Ts. rewrite from_dict_run, (from_dict_to_dict _ e Ts).
    split; [reflexivity|]. intros e' [= <-]. reflexivity.
Qed.

(** ** The health of both stores *)

Lemma service_health_unfold w :
  Service.health_check w =
    (let (r1, w1) := Database.health_check w in
     match r1 with
     | Ok db_healthy =>
         let (r2, w2) := Storage.health_check w1 in
         match r2 with
         | Ok storage_healthy =>
             (Ok {| database := db_healthy;
                    storage := storage_healthy;
                    overall := db_healthy && storage_healthy;
                    error := None |}, w2)
         | Raise e =>
             (Ok {| database := false; storage := false; overall := false;
                    error := Some (str_exn e) |}, w2)
         end
     | Raise e =>
         (Ok {| database := false; storage := false; overall := false;
                error := Some (str_exn e) |}, w1)
     end).
Proof.
  unfold Service.health_check, Service.health_check_try, try_except at 1, bind.
  cbn [db_health_check st_health_check employee_database employee_storage].
  destruct (Database.health_check w) as [[b|x] w1]; [|reflexivity].
  destruct (Storage.health_check w1) as [[b'|x] w2]; reflexivity.
Qed.

Lemma db_health_runs w :
  exists b w', Database.health_check w = (Ok b, w').
Proof. apply try_ret_runs. Qed.

Lemma st_health_runs w :
  exists b w', Storage.health_check w = (Ok b, w').
Proof. apply try_ret_runs. Qed.

(** With the two adapters of the application, the health check never takes
    its error branch, whatever remote call fails: it reports one flag for
    each store and in [overall] their conjunction, with no [error] entry.
    When no remote call fails, the database flag says whether the table's
    status is "ACTIVE" and the storage flag is set; when the next remote
    call fails, the database flag and [overall] are not set. *)
Theorem health_check_reports_each_store (w : World) :
  (exists db st w',
     Service.health_check w
     = (Ok {| database := db; storage := st; overall := db && st; error := None |}, w'))
  /\ (fault_free w ->
      Service.health_check w
      = (Ok {| database := String.eqb (table_status w) "ACTIVE";
               storage := true;
               overall := String.eqb (table_status w) "ACTIVE" && true;
               error := None |}, w))
  /\ (forall x r, faults w = Some x :: r ->
      exists st w',
        Service.health_check w
        = (Ok {| database := false; storage := st; overall := false; error := None |},
           w')).
Proof.
  split; [|split].
  - rewrite service_health_unfold.
    destruct (db_health_runs w) as [db [w1 E1]]. rewrite E1.
    destruct (st_health_runs w1) as [st [w2 E2]]. rewrite E2. eauto.
  - intros F. rewrite service_health_unfold.
    unfold Database.health_check, DynamoDB.describe_table, Storage.health_check,
      S3.list_objects_v2, try_except, bind, gets.
    rewrite (remote_call_ok w F). cbn [ret]. now rewrite (remote_call_ok w F).
  - intros x r H. rewrite service_health_unfold.
    assert (E1 : Database.health_check w = (Ok false, set_faults r w)).
    { unfold Database.health_check, DynamoDB.describe_table, try_except, bind,
        remote_call. now rewrite H. }
    rewrite E1. destruct (st_health_runs (set_faults r w)) as [st [w2 E2]].
    rewrite E2. eauto.
Qed.

(** The health check of the sample directory, and with the store down. *)
Lemma health_witness :
  Service.health_check phone_change
  = (Ok {| database := true; storage := true; overall := true; error := None |},
     phone_change).
Proof.
  exact (proj1 (proj2 (health_check_reports_each_store phone_change)) eq_refl).
Defined.

(** ** Deleting a document *)







(* ------------------------------------------------------------------ *)
(** ** The add handler, when it succeeds *)

Lemma service_upload_absent_ok file id name w :
  fault_free w -> Py.truthy id = true ->
  DynamoDB.find_item id (table w) = None ->
  Service.upload_profile_picture file id name w = (Ok None, w).
Proof.
  intros F T H.
  unfold Service.upload_profile_picture, Service.upload_profile_picture_try,
    try_except at 1, bind.
  cbn [db_get_employee employee_database].
  now rewrite (get_employee_ok w id F T), H.
Qed.

Lemma service_add_ok e es w :
  fault_free w -> records w es ->
  fst (EmployeeModel.validate e) = true ->
  DynamoDB.find_item (employee_id e) (table w) = None ->
  find (has_email (email e)) (firstn (DynamoDB.page_size w) es) = None ->
  Service.add_employee e w
  = (Ok true, set_table (DynamoDB.put (EmployeeModel.to_dict e) (table w)) w).
Proof.
  intros F R V H Hem.
  unfold Service.add_employee, Service.add_employee_try, try_except at 1, bind.
  destruct (EmployeeModel.validate e) as [v errs] eqn:Ev.
  simpl in V. subst v. cbn [negb].
  cbn [db_get_employee_by_email db_create_employee employee_database].
  rewrite (get_employee_by_email_ok (email e) es w F R), Hem.
  assert (V' : fst (EmployeeModel.validate e) = true) by now rewrite Ev.
  now rewrite (create_employee_ok w e F V' H).
Qed.

Lemma add_post_ok request es w :
  method request = "POST" -> filled request ->
  fault_free w -> records w es ->
  DynamoDB.find_item (uuid4_str (env w) (uuids_drawn w)) (table w) = None ->
  find (has_email (Py.get_default (form request) "email" ""))
    (firstn (DynamoDB.page_size w) es) = None ->
  fst (EmployeeModel.validate (added w request)) = true ->
  App.add_employee request w
  = (Ok ([("Employee added successfully!", "success")], Redirect "index"),
     set_table (DynamoDB.put (EmployeeModel.to_dict (added w request)) (table w))
       (tick (set_uuids_drawn (S (uuids_drawn w)) w))).
Proof.
  intros Hm Hf F R H Hem V.
  set (id := uuid4_str (env w) (uuids_drawn w)) in *.
  set (w1 := set_uuids_drawn (S (uuids_drawn w)) w).
  pose proof (valid_id _ V) as T. change (employee_id (added w request)) with id in T.
  unfold filled, required_fields in Hf.
  repeat match goal with H : Forall _ (_ :: _) |- _ => inversion_clear H end.
  unfold App.add_employee. rewrite Hm.
  change (String.eqb "POST" "POST") with true. cbv iota.
  unfold try_except at 1.
  unfold bind at 1. unfold uuid4 at 1. cbv beta iota. cbn [fst].
  fold id. fold w1.
  repeat (unfold bind at 1; rewrite required_ok by assumption).
  unfold bind at 1.
  assert (P : match Py.dict_get (files request) "profile_picture" with
              | Some file =>
                  if Py.truthy (filename file)
                     && negb (String.eqb (filename file) "")
                     && App.allowed_file (filename file)
                  then
                    name <- gets (fun w => secure_filename (env w) (filename file)) ;;
                    Service.upload_profile_picture (stream file) id name
                  else ret None
              | None => ret None
              end w1 = (Ok None, w1)).
  { destruct (Py.dict_get (files request) "profile_picture") as [file|];
      [|reflexivity].
    destruct (Py.truthy (filename file) && negb (String.eqb (filename file) "")
              && App.allowed_file (filename file)); [|reflexivity].
    unfold bind, gets.
    exact (service_upload_absent_ok _ id _ w1 F T H). }
  rewrite P.
  unfold bind at 1.
  change (EmployeeModel.init id
            (Py.get_default (form request) "first_name" "")
            (Py.get_default (form request) "last_name" "")
            (Py.get_default (form request) "email" "")
            (Py.get_default (form request) "position" "")
            (Py.get_default (form request) "department" "")
            (Some (Py.get_default (form request) "phone" ""))
            (Some (Py.get_default (form request) "hire_date" ""))
            None None None w1)
    with (Ok (added w request), tick w1).
  unfold bind at 1.
  rewrite (service_add_ok (added w request) es (tick w1) F R V H Hem).
  reflexivity.
Qed.

(** The add handler creates the record it built.  For a [POST] of a filled
    form, when no remote call fails, the generated identifier is not yet a
    key, no record among those the first Scan call evaluates has the form's
    email, and the record built from the form is valid: the handler flashes
    success and redirects to the index; the record is stored under the
    generated identifier with the form's fields, an empty picture reference
    (also when a picture was sent), and both timestamps equal to the clock's
    reading; the bucket is unchanged; and [get_employee] of the database
    then returns that record. *)
Theorem add_handler_creates_the_record (request : Request) (es : list Employee)
    (w : World) :
  method request = "POST" -> filled request ->
  fault_free w -> records w es ->
  DynamoDB.find_item (uuid4_str (env w) (uuids_drawn w)) (table w) = None ->
  find (has_email (Py.get_default (form request) "email" ""))
    (firstn (DynamoDB.page_size w) es) = None ->
  fst (EmployeeModel.validate (added w request)) = true ->
  Py.truthy (now w) = true ->
  exists w',
    App.add_employee request w
      = (Ok ([("Employee added successfully!", "success")], Redirect "index"), w')
    /\ stored w' (uuid4_str (env w) (uuids_drawn w)) (added w request)
    /\ profile_picture_url (added w request) = ""
    /\ created_at (added w request) = now w
    /\ updated_at (added w request) = now w
    /\ bucket w' = bucket w
    /\ fst (Database.get_employee (uuid4_str (env w) (uuids_drawn w)) w')
       = Ok (Some (added w request)).
Proof.
  intros Hm Hf F R H Hem V N.
  pose proof (valid_id _ V) as T.
  change (employee_id (added w request)) with (uuid4_str (env w) (uuids_drawn w)) in T.
  eexists. split; [exact (add_post_ok request es w Hm Hf F R H Hem V)|].
  assert (S : stored
                (set_table
                   (DynamoDB.put (EmployeeModel.to_dict (added w request)) (table w))
                   (tick (set_uuids_drawn (S (uuids_drawn w)) w)))
                (uuid4_str (env w) (uuids_drawn w)) (added w request)).
  { unfold stored. cbn [table set_table].
    exact (find_put (EmployeeModel.to_dict (added w request)) (table w)). }
  split; [exact S|]. repeat split.
  match goal with |- fst (Database.get_employee _ ?w1) = _ =>
    rewrite (get_employee_ok w1 _ F T) end.
  unfold stored in S. rewrite S.
  rewrite from_dict_to_dict; [reflexivity|]. split; exact N.
Qed.

(** The add form with a picture, on an empty directory. *)
Lemma add_handler_creates_witness :
  exists w',
    App.add_employee picture_request empty_directory
      = (Ok ([("Employee added successfully!", "success")], Redirect "index"), w')
    /\ stored w' "11111111-1111-4111-8111-111111111111"
         (added empty_directory picture_request)
    /\ bucket w' = [].
Proof.
  destruct (add_handler_creates_the_record picture_request [] empty_directory)
    as [w' [E [S [_ [_ [_ [B _]]]]]]].
  - reflexivity.
  - repeat constructor; discriminate.
  - reflexivity.
  - split; [reflexivity | constructor].
  - reflexivity.
  - reflexivity.
  - vm_compute. reflexivity.
  - reflexivity.
  - exists w'. split; [exact E|]. split; [exact S | exact B].
Defined.
